(** * UVC gadget: probe/commit negotiation and the static test source

    A shallow embedding of [lib/uvc.c] (request processing of the UVC
    function) and of [test_source_set_format] from [lib/test-source.c].

    Conventions.
    - C integers are [Z]; every conversion that can change a value
      (int to unsigned, unsigned to [__u8], 16-bit to [uint8_t], 32-bit
      multiplication) is written out as a reduction modulo the width.
      Members of the configuration are [unsigned int] values.
    - Arrays are lists; a read outside the array is undefined behaviour in
      C and is [None] here, so every function that indexes the
      configuration returns an [option].
    - The response buffer is a list of bytes; the streaming control block
      is overlaid on it in the packed little-endian layout of the wire.
    - Calls into the stream object ([stream.c]) and the response ioctl are
      recorded, in order, in a list of [uvc_call]. *)

From Stdlib Require Import ZArith List Lia Bool Sorted Floats Uint63.
From Stdlib Require Strings.String.
Import ListNotations.
Import Strings.String.StringSyntax.
Delimit Scope string_scope with string.

Open Scope Z_scope.
Open Scope bool_scope.

(** ** Option sequencing *)

Definition obind {A B : Type} (o : option A) (k : A -> option B) : option B :=
  match o with
  | Some a => k a
  | None => None
  end.

Notation "x <- e ;; k" := (obind e (fun x => k))
  (at level 61, e at next level, right associativity).

(** ** Machine integers *)

Module CInt.

Definition UINT_MAX : Z := 4294967295.

(** Conversion to [unsigned int] / [__u32]. *)
Definition to_uint (v : Z) : Z := v mod 4294967296.

(** Conversion of an [unsigned int] value to [int]. *)
Definition to_int (v : Z) : Z :=
  let u := v mod 4294967296 in
  if u <? 2147483648 then u else u - 4294967296.

(** Conversion to [uint8_t] / [__u8]. *)
Definition to_u8 (v : Z) : Z := v mod 256.

Definition INT_MAX : Z := 2147483647.

Definition is_u32 (v : Z) : Prop := 0 <= v <= UINT_MAX.

Definition is_u32b (v : Z) : bool := (0 <=? v) && (v <=? UINT_MAX).

End CInt.
Import CInt.

(** ** Arrays *)

(** [a[i]] for a C array held as a list: defined only inside the array. *)
Definition array_at {A : Type} (a : list A) (i : Z) : option A :=
  if i <? 0 then None else nth_error a (Z.to_nat i).

Definition last_error {A : Type} (a : list A) : option A :=
  array_at a (Z.of_nat (length a) - 1).

(** ** Constants of the kernel headers *)

(** [linux/usb/ch9.h] *)
Definition USB_TYPE_MASK : Z := 0x60.
Definition USB_TYPE_STANDARD : Z := 0x00.
Definition USB_TYPE_CLASS : Z := 0x20.
Definition USB_RECIP_MASK : Z := 0x1f.
Definition USB_RECIP_INTERFACE : Z := 0x01.

(** [linux/usb/video.h] *)
Definition UVC_SET_CUR : Z := 0x01.
Definition UVC_GET_CUR : Z := 0x81.
Definition UVC_GET_MIN : Z := 0x82.
Definition UVC_GET_MAX : Z := 0x83.
Definition UVC_GET_RES : Z := 0x84.
Definition UVC_GET_LEN : Z := 0x85.
Definition UVC_GET_INFO : Z := 0x86.
Definition UVC_GET_DEF : Z := 0x87.
Definition UVC_VS_PROBE_CONTROL : Z := 0x01.
Definition UVC_VS_COMMIT_CONTROL : Z := 0x02.

(** [linux/videodev2.h]: [v4l2_fourcc(a, b, c, d)] *)
Definition v4l2_fourcc (a b c d : Z) : Z :=
  Z.lor (Z.lor a (Z.shiftl b 8)) (Z.lor (Z.shiftl c 16) (Z.shiftl d 24)).

(** 'Y' = 89, 'U' = 85, 'V' = 86, 'M' = 77, 'J' = 74, 'P' = 80, 'G' = 71 *)
Definition V4L2_PIX_FMT_YUYV : Z := v4l2_fourcc 89 85 89 86.
Definition V4L2_PIX_FMT_MJPEG : Z := v4l2_fourcc 77 74 80 71.
Definition V4L2_FIELD_NONE : Z := 1.

(** [errno.h] *)
Definition EINVAL : Z := 22.
Definition EL2HLT : Z := 51.

(** ** The function configuration ([configfs.h])

    The counters [num_formats], [num_frames] and [num_intervals] of the C
    structures are the lengths of the arrays they describe. *)

Record uvc_function_config_frame := {
  width : Z;
  height : Z;
  intervals : list Z
}.

Record uvc_function_config_format := {
  fcc : Z;
  frames : list uvc_function_config_frame
}.

Record uvc_function_config := {
  control_bInterfaceNumber : Z;
  streaming_bInterfaceNumber : Z;
  wMaxPacketSize : Z;
  formats : list uvc_function_config_format
}.

Definition num_intervals (f : uvc_function_config_frame) : Z :=
  Z.of_nat (length (intervals f)).

Definition num_frames (f : uvc_function_config_format) : Z :=
  Z.of_nat (length (frames f)).

Definition num_formats (fc : uvc_function_config) : Z :=
  Z.of_nat (length (formats fc)).

(** ** The streaming control block ([struct uvc_streaming_control]) *)

Record uvc_streaming_control := {
  bmHint : Z;                    (* __u16 *)
  bFormatIndex : Z;              (* __u8  *)
  bFrameIndex : Z;               (* __u8  *)
  dwFrameInterval : Z;           (* __u32 *)
  wKeyFrameRate : Z;             (* __u16 *)
  wPFrameRate : Z;               (* __u16 *)
  wCompQuality : Z;              (* __u16 *)
  wCompWindowSize : Z;           (* __u16 *)
  wDelay : Z;                    (* __u16 *)
  dwMaxVideoFrameSize : Z;       (* __u32 *)
  dwMaxPayloadTransferSize : Z;  (* __u32 *)
  dwClockFrequency : Z;          (* __u32 *)
  bmFramingInfo : Z;             (* __u8  *)
  bPreferedVersion : Z;          (* __u8  *)
  bMinVersion : Z;               (* __u8  *)
  bMaxVersion : Z                (* __u8  *)
}.

(** [memset(ctrl, 0, sizeof *ctrl)] *)
Definition ctrl_zero : uvc_streaming_control :=
  {| bmHint := 0; bFormatIndex := 0; bFrameIndex := 0; dwFrameInterval := 0;
     wKeyFrameRate := 0; wPFrameRate := 0; wCompQuality := 0;
     wCompWindowSize := 0; wDelay := 0; dwMaxVideoFrameSize := 0;
     dwMaxPayloadTransferSize := 0; dwClockFrequency := 0;
     bmFramingInfo := 0; bPreferedVersion := 0; bMinVersion := 0;
     bMaxVersion := 0 |}.

(** [sizeof(struct uvc_streaming_control)]: the structure is packed. *)
Definition sizeof_ctrl : Z := 34.

(** ** Byte layout *)

Module Wire.

(** The [n] low bytes of [v], least significant first. *)
Fixpoint le_bytes (n : nat) (v : Z) : list Z :=
  match n with
  | O => []
  | S k => v mod 256 :: le_bytes k (v / 256)
  end.

(** The value of a little-endian byte string; an element of a buffer
    is read as a [__u8]. *)
Fixpoint le_value (bs : list Z) : Z :=
  match bs with
  | [] => 0
  | b :: rest => b mod 256 + 256 * le_value rest
  end.

(** The value of a big-endian byte string. *)
Definition be_value (bs : list Z) : Z := le_value (rev bs).

(** Bytes [off .. off+n-1] of a buffer. *)
Definition slice (off n : nat) (buf : list Z) : list Z :=
  firstn n (skipn off buf).

Definition get_le (off n : nat) (buf : list Z) : Z :=
  le_value (slice off n buf).

(** Overwrite the start of [buf] with [bs] (the buffer keeps its size). *)
Definition write_prefix (bs buf : list Z) : list Z :=
  firstn (length buf) (bs ++ skipn (length bs) buf).

(** [buf[i] = b] for an index inside the buffer. *)
Fixpoint set_byte (i : nat) (b : Z) (buf : list Z) : list Z :=
  match buf, i with
  | [], _ => []
  | _ :: rest, O => b :: rest
  | x :: rest, S k => x :: set_byte k b rest
  end.

(** The block as it lies in memory on a little-endian machine. *)
Definition encode (c : uvc_streaming_control) : list Z :=
  le_bytes 2 (bmHint c) ++
  le_bytes 1 (bFormatIndex c) ++
  le_bytes 1 (bFrameIndex c) ++
  le_bytes 4 (dwFrameInterval c) ++
  le_bytes 2 (wKeyFrameRate c) ++
  le_bytes 2 (wPFrameRate c) ++
  le_bytes 2 (wCompQuality c) ++
  le_bytes 2 (wCompWindowSize c) ++
  le_bytes 2 (wDelay c) ++
  le_bytes 4 (dwMaxVideoFrameSize c) ++
  le_bytes 4 (dwMaxPayloadTransferSize c) ++
  le_bytes 4 (dwClockFrequency c) ++
  le_bytes 1 (bmFramingInfo c) ++
  le_bytes 1 (bPreferedVersion c) ++
  le_bytes 1 (bMinVersion c) ++
  le_bytes 1 (bMaxVersion c).

(** Reading the block through a [struct uvc_streaming_control *] that
    points at a byte buffer. *)
Definition decode (buf : list Z) : uvc_streaming_control :=
  {| bmHint := get_le 0 2 buf;
     bFormatIndex := get_le 2 1 buf;
     bFrameIndex := get_le 3 1 buf;
     dwFrameInterval := get_le 4 4 buf;
     wKeyFrameRate := get_le 8 2 buf;
     wPFrameRate := get_le 10 2 buf;
     wCompQuality := get_le 12 2 buf;
     wCompWindowSize := get_le 14 2 buf;
     wDelay := get_le 16 2 buf;
     dwMaxVideoFrameSize := get_le 18 4 buf;
     dwMaxPayloadTransferSize := get_le 22 4 buf;
     dwClockFrequency := get_le 26 4 buf;
     bmFramingInfo := get_le 30 1 buf;
     bPreferedVersion := get_le 31 1 buf;
     bMinVersion := get_le 32 1 buf;
     bMaxVersion := get_le 33 1 buf |}.

End Wire.
Import Wire.

(** ** [tools.h] *)

(** Modelled from the spec: the [clamp] macro of [tools.h], which is not
    among the sources.  "Clamp [iformat] into [[1, num_formats]] - using
    unsigned clamp": the value is raised to the lower bound, then lowered
    to the upper bound, all three operands being [unsigned int]. *)
Definition clamp (val min max : Z) : Z :=
  let v := if val <? min then min else val in
  if max <? v then max else v.

(** ** Request processing: [uvc_fill_streaming_control] *)

(** The [for] loop over [frame->intervals]: returns the loop counter [i]
    and [ival] as they are when the loop is left, either by [break] or
    because [i] reached [num_intervals].  With no interval at all the
    index [num_intervals - 1] that follows the loop wraps to [UINT_MAX] in
    C and is [-1] here: outside the array either way. *)
Fixpoint interval_loop (rest : list Z) (i ival : Z) : Z * Z :=
  match rest with
  | [] => (i, ival)
  | x :: rest' =>
      if ival <=? x then (i, x) else interval_loop rest' (i + 1) ival
  end.

Definition uvc_fill_streaming_control (fc : uvc_function_config)
    (iformat iframe ival : Z) : option uvc_streaming_control :=
  let iformat := to_int (clamp (to_uint iformat) 1 (num_formats fc)) in
  format <- array_at (formats fc) (iformat - 1) ;;
  let iframe := to_int (clamp (to_uint iframe) 1 (num_frames format)) in
  frame <- array_at (frames format) (iframe - 1) ;;
  let '(i, ival) := interval_loop (intervals frame) 0 ival in
  ival <- (if i =? num_intervals frame
           then array_at (intervals frame) (num_intervals frame - 1)
           else Some ival) ;;
  Some {| bmHint := 1;
          bFormatIndex := to_u8 iformat;
          bFrameIndex := to_u8 iframe;
          dwFrameInterval := ival;
          wKeyFrameRate := 0;
          wPFrameRate := 0;
          wCompQuality := 0;
          wCompWindowSize := 0;
          wDelay := 0;
          dwMaxVideoFrameSize :=
            (if (fcc format =? V4L2_PIX_FMT_YUYV)
                || (fcc format =? V4L2_PIX_FMT_MJPEG)
             then to_uint (width frame * height frame * 2)
             else 0);
          dwMaxPayloadTransferSize := wMaxPacketSize fc;
          dwClockFrequency := 0;
          bmFramingInfo := 3;
          bPreferedVersion := 1;
          bMinVersion := 0;
          bMaxVersion := 1 |}.

(** The indices, the format and the frame that lines 148-152 select. *)
Definition format_index (fc : uvc_function_config) (iformat : Z) : Z :=
  to_int (clamp (to_uint iformat) 1 (num_formats fc)).

Definition frame_index (format : uvc_function_config_format) (iframe : Z)
    : Z :=
  to_int (clamp (to_uint iframe) 1 (num_frames format)).

Definition selected_format (fc : uvc_function_config) (iformat : Z)
    : option uvc_function_config_format :=
  array_at (formats fc) (format_index fc iformat - 1).

Definition selected_frame (fc : uvc_function_config) (iformat iframe : Z)
    : option uvc_function_config_frame :=
  format <- selected_format fc iformat ;;
  array_at (frames format) (frame_index format iframe - 1).

(** ** Requests, responses and the device *)

(** [struct usb_ctrlrequest] *)
Record usb_ctrlrequest := {
  bRequestType : Z;  (* __u8  *)
  bRequest : Z;      (* __u8  *)
  wValue : Z;        (* __le16 *)
  wIndex : Z;        (* __le16 *)
  wLength : Z        (* __le16 *)
}.

(** [struct uvc_request_data { __s32 length; __u8 data[60]; }] *)
Record uvc_request_data := {
  req_length : Z;
  req_data : list Z
}.

Module V4L2.
(** The members of [struct v4l2_pix_format] that [uvc.c] sets; the
    others stay zero after the [memset]. *)
Record v4l2_pix_format := {
  width : Z;
  height : Z;
  pixelformat : Z;
  field : Z;
  sizeimage : Z
}.
End V4L2.

(** What [uvc.c] asks of its collaborators, in call order. *)
Inductive uvc_call :=
| StreamSetFormat (pixfmt : V4L2.v4l2_pix_format)  (* uvc_stream_set_format *)
| StreamSetFrameRate (fps : Z)                     (* uvc_stream_set_frame_rate *)
| StreamEnable (enable : Z)                        (* uvc_stream_enable *)
| SendResponse (resp : uvc_request_data).          (* UVCIOC_SEND_RESPONSE *)

(** [struct uvc_device] without the handles of the V4L2 device and of the
    stream. *)
Record uvc_device := {
  fc : uvc_function_config;
  probe : uvc_streaming_control;
  commit : uvc_streaming_control;
  control : Z;
  dev_fcc : Z;
  dev_width : Z;
  dev_height : Z
}.

Definition set_probe (dev : uvc_device) (c : uvc_streaming_control) :=
  {| fc := fc dev; probe := c; commit := commit dev; control := control dev;
     dev_fcc := dev_fcc dev; dev_width := dev_width dev;
     dev_height := dev_height dev |}.

Definition set_commit (dev : uvc_device) (c : uvc_streaming_control) :=
  {| fc := fc dev; probe := probe dev; commit := c; control := control dev;
     dev_fcc := dev_fcc dev; dev_width := dev_width dev;
     dev_height := dev_height dev |}.

Definition set_control (dev : uvc_device) (v : Z) :=
  {| fc := fc dev; probe := probe dev; commit := commit dev; control := v;
     dev_fcc := dev_fcc dev; dev_width := dev_width dev;
     dev_height := dev_height dev |}.

Definition set_format_fields (dev : uvc_device) (f w h : Z) :=
  {| fc := fc dev; probe := probe dev; commit := commit dev;
     control := control dev; dev_fcc := f; dev_width := w; dev_height := h |}.

Definition set_length (resp : uvc_request_data) (len : Z) :=
  {| req_length := len; req_data := req_data resp |}.

Definition set_data (resp : uvc_request_data) (d : list Z) :=
  {| req_length := req_length resp; req_data := d |}.

(** [uvc_open] followed by [uvc_set_config]: a zeroed device that knows
    its configuration. *)
Definition uvc_open (cfg : uvc_function_config) : uvc_device :=
  {| fc := cfg; probe := ctrl_zero; commit := ctrl_zero; control := 0;
     dev_fcc := 0; dev_width := 0; dev_height := 0 |}.

(** ** The frame rate of a committed interval *)

Module Fps.

(** Conversion of a [double] to [unsigned int]: the fractional part is
    dropped; the conversion is undefined when the truncated value does
    not fit.  [frshiftexp d] is [(m, e)] with [d = m * 2^(e - 2101)] and
    [1/2 <= |m| < 1]; [normfr_mantissa m] is the integer [m * 2^53]; so
    [d = mantissa * 2^(e - 2154)]. *)
Definition double_to_uint63 (d : float) : option int :=
  if PrimFloat.is_nan d || PrimFloat.is_infinity d then None
  else if PrimFloat.ltb d 0%float then
    (if PrimFloat.ltb (-1)%float d then Some 0%uint63 else None)
  else
    let (m, e) := PrimFloat.frshiftexp d in
    if Uint63.leb e 2101%uint63 then Some 0%uint63          (* d < 1 *)
    else if Uint63.ltb 2133%uint63 e then None              (* d >= 2^32 *)
    else Some (Uint63.lsr (PrimFloat.normfr_mantissa m)
                          (Uint63.sub 2154%uint63 e)).

(** [1.0 / (dwFrameInterval / 10000000.0)], in IEEE 754 double
    precision with rounding to nearest, each operation rounded to
    [double] (as on x86-64 and ARM).  The conversion of the [__u32]
    member to [double] is exact. *)
Definition fps_double (iv : int) : float :=
  PrimFloat.div 1%float
    (PrimFloat.div (PrimFloat.of_uint63 iv) 10000000%float).

(** [fps = 1.0 / (target->dwFrameInterval / 10000000.0)] for the value
    [iv] of the [__u32] member. *)
Definition uvc_fps (iv : Z) : option Z :=
  option_map Uint63.to_Z (double_to_uint63 (fps_double (Uint63.of_Z iv))).

(** The same conversion read off the standard library's view of a
    [double] as sign, mantissa and exponent ([Prim2SF]): the value is
    [m * 2^e], and its integer part is a shift of [m]. *)
Definition double_to_uint_spec (d : float) : option Z :=
  match Prim2SF d with
  | S754_zero _ => Some 0
  | S754_finite s m e =>
      let mag := if 0 <=? e then Z.shiftl (Zpos m) e
                 else Z.shiftr (Zpos m) (- e) in
      if s then (if mag =? 0 then Some 0 else None)
      else if mag <=? UINT_MAX then Some mag else None
  | S754_infinity _ | S754_nan => None
  end.

Definition same_result (a b : option Z) : bool :=
  match a, b with
  | Some x, Some y => x =? y
  | None, None => true
  | _, _ => false
  end.

(** Doubles on which the two conversions are compared: values around the
    boundaries 0, 1 and 2^32, and the rates of a range of intervals. *)
Definition conversion_samples : list float :=
  [0%float; (-0)%float; 0.5%float; (-0.5)%float; (-1)%float; 1%float;
   0x1.fffffffffffffp-1%float; 0x1.869ffffffffffp+11%float; 3125%float;
   4294967295%float; 4294967295.5%float; 4294967296%float;
   0x1.7e43c8800759cp+996%float; (-0x1.7e43c8800759cp+996)%float; 0x0.0000000000001p-1022%float;
   PrimFloat.div 1%float 0%float; PrimFloat.div 0%float 0%float]
  ++ map (fun iv => fps_double (Uint63.of_Z iv))
         ([1; 2; 3; 7; 25; 333333; 9999999; 10000000; 10000001; 4294967295]
          ++ map Z.of_nat (seq 3000 400)).

(** Agreement of the computed rate with the integer quotient on one
    interval, and on the block of [p] intervals that starts at [lo]. *)
Definition agrees (iv : int) : bool :=
  match double_to_uint63 (fps_double iv) with
  | Some v => Uint63.eqb v (Uint63.div 10000000%uint63 iv)
  | None => false
  end.

Fixpoint agrees_block (p : positive) (lo : int) : bool :=
  match p with
  | xH => agrees lo
  | xO q =>
      agrees_block q lo && agrees_block q (Uint63.add lo (Uint63.of_pos q))
  | xI q =>
      agrees lo && agrees_block q (Uint63.add lo 1%uint63)
      && agrees_block q (Uint63.add (Uint63.add lo 1%uint63) (Uint63.of_pos q))
  end.

End Fps.
Import Fps.

(** ** Event processing *)

(** [uvc_events_process_control]; [req], [cs] and [len] are [uint8_t]
    parameters. *)
Definition uvc_events_process_control (req cs len : Z)
    (resp : uvc_request_data) : uvc_request_data :=
  let resp := set_data resp (set_byte 0 0x03 (req_data resp)) in
  set_length resp len.

Definition uvc_events_process_streaming (dev : uvc_device) (req cs : Z)
    (resp : uvc_request_data) : option (uvc_device * uvc_request_data) :=
  if negb (cs =? UVC_VS_PROBE_CONTROL) && negb (cs =? UVC_VS_COMMIT_CONTROL)
  then Some (dev, resp)
  else
    let resp := set_length resp sizeof_ctrl in
    if req =? UVC_SET_CUR then
      Some (set_control dev cs, set_length resp 34)
    else if req =? UVC_GET_CUR then
      if cs =? UVC_VS_PROBE_CONTROL
      then Some (dev, set_data resp
                        (write_prefix (encode (probe dev)) (req_data resp)))
      else Some (dev, set_data resp
                        (write_prefix (encode (commit dev)) (req_data resp)))
    else if (req =? UVC_GET_MIN) || (req =? UVC_GET_MAX)
            || (req =? UVC_GET_DEF) then
      ctrl <- (if req =? UVC_GET_MAX
               then uvc_fill_streaming_control (fc dev) (-1) (-1) UINT_MAX
               else uvc_fill_streaming_control (fc dev) 1 1 0) ;;
      Some (dev, set_data resp (write_prefix (encode ctrl) (req_data resp)))
    else if req =? UVC_GET_RES then
      Some (dev, set_data resp
                   (write_prefix (encode ctrl_zero) (req_data resp)))
    else if req =? UVC_GET_LEN then
      let resp := set_data resp (set_byte 0 0x00 (req_data resp)) in
      let resp := set_data resp (set_byte 1 0x22 (req_data resp)) in
      Some (dev, set_length resp 2)
    else if req =? UVC_GET_INFO then
      let resp := set_data resp (set_byte 0 0x03 (req_data resp)) in
      Some (dev, set_length resp 1)
    else Some (dev, resp).

Definition uvc_events_process_class (dev : uvc_device)
    (ctrl : usb_ctrlrequest) (resp : uvc_request_data)
    : option (uvc_device * uvc_request_data) :=
  let interface := Z.land (wIndex ctrl) 0xff in
  if negb (Z.land (bRequestType ctrl) USB_RECIP_MASK =? USB_RECIP_INTERFACE)
  then Some (dev, resp)
  else if interface =? control_bInterfaceNumber (fc dev) then
    Some (dev, uvc_events_process_control
                 (to_u8 (bRequest ctrl)) (to_u8 (Z.shiftr (wValue ctrl) 8))
                 (to_u8 (wLength ctrl)) resp)
  else if interface =? streaming_bInterfaceNumber (fc dev) then
    uvc_events_process_streaming dev
      (to_u8 (bRequest ctrl)) (to_u8 (Z.shiftr (wValue ctrl) 8)) resp
  else Some (dev, resp).

Definition uvc_events_process_setup (dev : uvc_device)
    (ctrl : usb_ctrlrequest) (resp : uvc_request_data)
    : option (uvc_device * uvc_request_data) :=
  let dev := set_control dev 0 in
  let type := Z.land (bRequestType ctrl) USB_TYPE_MASK in
  if type =? USB_TYPE_STANDARD then Some (dev, resp)  (* process_standard *)
  else if type =? USB_TYPE_CLASS then uvc_events_process_class dev ctrl resp
  else Some (dev, resp).

Definition uvc_events_process_data (dev : uvc_device)
    (data : uvc_request_data) : option (uvc_device * list uvc_call) :=
  let ctrl := decode (req_data data) in
  if negb (control dev =? UVC_VS_PROBE_CONTROL)
     && negb (control dev =? UVC_VS_COMMIT_CONTROL)
  then Some (dev, [])
  else
    target <- uvc_fill_streaming_control (fc dev) (bFormatIndex ctrl)
                (bFrameIndex ctrl) (dwFrameInterval ctrl) ;;
    let dev := if control dev =? UVC_VS_PROBE_CONTROL
               then set_probe dev target else set_commit dev target in
    if control dev =? UVC_VS_COMMIT_CONTROL then
      format <- array_at (formats (fc dev)) (bFormatIndex target - 1) ;;
      frame <- array_at (frames format) (bFrameIndex target - 1) ;;
      let dev := set_format_fields dev (fcc format) (width frame)
                                   (height frame) in
      let pixfmt :=
        {| V4L2.width := width frame;
           V4L2.height := height frame;
           V4L2.pixelformat := fcc format;
           V4L2.field := V4L2_FIELD_NONE;
           V4L2.sizeimage := (if fcc format =? V4L2_PIX_FMT_MJPEG
                              then dwMaxVideoFrameSize target else 0) |} in
      fps <- uvc_fps (dwFrameInterval target) ;;
      Some (dev, [StreamSetFormat pixfmt; StreamSetFrameRate fps])
    else Some (dev, []).

(** The events that [VIDIOC_DQEVENT] hands to [uvc_events_process]. *)
Inductive uvc_event :=
| UVC_EVENT_CONNECT
| UVC_EVENT_DISCONNECT
| UVC_EVENT_SETUP (req : usb_ctrlrequest)
| UVC_EVENT_DATA (data : uvc_request_data)
| UVC_EVENT_STREAMON
| UVC_EVENT_STREAMOFF.

(** [memset(&resp, 0, sizeof resp); resp.length = -EL2HLT;] *)
Definition resp_init : uvc_request_data :=
  {| req_length := - EL2HLT; req_data := repeat 0 60 |}.

(** [uvc_events_process] once an event has been dequeued. *)
Definition uvc_events_process (dev : uvc_device) (ev : uvc_event)
    : option (uvc_device * list uvc_call) :=
  match ev with
  | UVC_EVENT_CONNECT | UVC_EVENT_DISCONNECT => Some (dev, [])
  | UVC_EVENT_SETUP req =>
      r <- uvc_events_process_setup dev req resp_init ;;
      Some (fst r, [SendResponse (snd r)])
  | UVC_EVENT_DATA data => uvc_events_process_data dev data
  | UVC_EVENT_STREAMON => Some (dev, [StreamEnable 1])
  | UVC_EVENT_STREAMOFF => Some (dev, [StreamEnable 0])
  end.

(** [uvc_events_init]: "Default to the minimum values." *)
Definition uvc_events_init (dev : uvc_device) : option uvc_device :=
  p <- uvc_fill_streaming_control (fc dev) 1 1 0 ;;
  let dev := set_probe dev p in
  c <- uvc_fill_streaming_control (fc dev) 1 1 0 ;;
  Some (set_commit dev c).

(** ** The static test source ([test-source.c]) *)

Module TestSource.

Record test_source := {
  width : Z;
  height : Z;
  pixelformat : Z
}.

(** [test_video_source_create]: the structure is zeroed. *)
Definition test_video_source_create : test_source :=
  {| width := 0; height := 0; pixelformat := 0 |}.

(** [test_source_set_format]: the new state and the returned [int]. *)
Definition test_source_set_format (src : test_source)
    (fmt : V4L2.v4l2_pix_format) : test_source * Z :=
  let src := {| width := V4L2.width fmt;
                height := V4L2.height fmt;
                pixelformat := V4L2.pixelformat fmt |} in
  if negb (pixelformat src =? v4l2_fourcc 89 85 89 86)
  then (src, - EINVAL)
  else (src, 0).

End TestSource.

(** ** Properties of the configuration *)

(** A configuration "with at least one format, each with at least one
    frame and one interval", whose counters fit the [int] variables that
    index the arrays and whose intervals are [unsigned int] values. *)
Definition frame_ok (f : uvc_function_config_frame) : bool :=
  (1 <=? num_intervals f) && forallb is_u32b (intervals f).

Definition format_ok (f : uvc_function_config_format) : bool :=
  (1 <=? num_frames f) && (num_frames f <=? INT_MAX)
  && forallb frame_ok (frames f).

Definition config_ok (cfg : uvc_function_config) : bool :=
  (1 <=? num_formats cfg) && (num_formats cfg <=? INT_MAX)
  && forallb format_ok (formats cfg).

(** Every interval of the configuration lies in [[lo, hi]]. *)
Definition intervals_within (lo hi : Z) (cfg : uvc_function_config) : bool :=
  forallb (fun fmt =>
    forallb (fun frm =>
      forallb (fun iv => (lo <=? iv) && (iv <=? hi)) (intervals frm))
      (frames fmt))
    (formats cfg).

(** ** Interval selection, as the specification words it *)

(** [r] is the first entry of [l], in declared order, that is [>= ival];
    or the last entry when no entry is. *)
Definition first_fit_or_last (ival : Z) (l : list Z) (r : Z) : Prop :=
  (exists pre post,
      l = pre ++ r :: post /\ Forall (fun y => y < ival) pre /\ ival <= r)
  \/ (Forall (fun y => y < ival) l /\ last_error l = Some r).

(** [r] is "the minimum element of the set that is [>= ival], or the
    maximum element of the set if no element is [>= ival]". *)
Definition min_ge_or_max (ival : Z) (l : list Z) (r : Z) : Prop :=
  In r l /\
  ((ival <= r /\ forall y, In y l -> ival <= y -> r <= y)
   \/ ((forall y, In y l -> y < ival) /\ forall y, In y l -> y <= r)).

(** [r] is the largest element of [l]. *)
Definition is_max (l : list Z) (r : Z) : Prop :=
  In r l /\ forall y, In y l -> y <= r.

(** ** Requests as the host issues them *)

(** A streaming request served from a fresh response buffer, as
    [uvc_events_process] provides it. *)
Definition streaming_request (dev : uvc_device) (req cs : Z)
    : option (uvc_device * uvc_request_data) :=
  uvc_events_process_streaming dev req cs resp_init.

(** The block a response carries. *)
Definition response_block (resp : uvc_request_data) : uvc_streaming_control :=
  decode (req_data resp).

(** The frame rate named by the specification: ten million over the
    interval, "integer division after clamping to >= 1". *)
Definition spec_fps (iv : Z) : Z := 10000000 / Z.max iv 1.

(** ** Sample configurations *)

Module Samples.

(** The intervals that the gadget set-up script writes for every frame. *)
Definition script_intervals : list Z := [166666; 200000; 333333; 500000].

Definition frame_of (w h : Z) (ivs : list Z) : uvc_function_config_frame :=
  {| width := w; height := h; intervals := ivs |}.

Definition config_of (fmts : list uvc_function_config_format)
    : uvc_function_config :=
  {| control_bInterfaceNumber := 0; streaming_bInterfaceNumber := 1;
     wMaxPacketSize := 2048; formats := fmts |}.

(** The function the set-up script creates: one uncompressed format with
    three frame sizes. *)
Definition cfg_script : uvc_function_config :=
  config_of
    [ {| fcc := V4L2_PIX_FMT_YUYV;
         frames := [ frame_of 640 360 script_intervals;
                     frame_of 1280 720 script_intervals;
                     frame_of 1920 1080 script_intervals ] |} ].

(** The configuration of the specification's scenarios: one YUYV format
    with two frame sizes. *)
Definition cfg_two_frames : uvc_function_config :=
  config_of
    [ {| fcc := V4L2_PIX_FMT_YUYV;
         frames := [ frame_of 640 360 script_intervals;
                     frame_of 1280 720 script_intervals ] |} ].

(** The same intervals declared in descending order. *)
Definition cfg_descending : uvc_function_config :=
  config_of
    [ {| fcc := V4L2_PIX_FMT_YUYV;
         frames := [ frame_of 640 360 [500000; 333333; 200000; 166666] ] |} ].

(** The largest frame that 16-bit dimensions allow. *)
Definition cfg_large : uvc_function_config :=
  config_of
    [ {| fcc := V4L2_PIX_FMT_YUYV;
         frames := [ frame_of 65535 65535 script_intervals ] |} ].

(** A frame with the single interval 3200 (0.32 ms). *)
Definition cfg_fast : uvc_function_config :=
  config_of
    [ {| fcc := V4L2_PIX_FMT_YUYV;
         frames := [ frame_of 640 360 [3200] ] |} ].

(** The device once [uvc_events_init] has run. *)
Definition booted (cfg : uvc_function_config) : uvc_device :=
  match uvc_events_init (uvc_open cfg) with
  | Some dev => dev
  | None => uvc_open cfg
  end.

(** A data-phase payload that asks for [(iformat, iframe, ival)]. *)
Definition payload (iformat iframe ival : Z) : uvc_request_data :=
  {| req_length := 34;
     req_data :=
       write_prefix
         (encode {| bmHint := 0; bFormatIndex := iformat;
                    bFrameIndex := iframe; dwFrameInterval := ival;
                    wKeyFrameRate := 0; wPFrameRate := 0;
                    wCompQuality := 0; wCompWindowSize := 0; wDelay := 0;
                    dwMaxVideoFrameSize := 0;
                    dwMaxPayloadTransferSize := 0; dwClockFrequency := 0;
                    bmFramingInfo := 0; bPreferedVersion := 0;
                    bMinVersion := 0; bMaxVersion := 0 |})
         (repeat 0 60) |}.

(** A class request to an interface. *)
Definition class_request (dir_in : bool) (req cs intf len : Z)
    : usb_ctrlrequest :=
  {| bRequestType := (if dir_in then 0xA1 else 0x21);
     bRequest := req;
     wValue := Z.shiftl cs 8;
     wIndex := intf;
     wLength := len |}.

End Samples.

(** ** Further properties of the configuration *)

(** A list in ascending order. *)
Fixpoint ascending (l : list Z) : bool :=
  match l with
  | x :: (y :: _) as rest => (x <=? y) && ascending rest
  | _ => true
  end.

(** Every frame declares its intervals in ascending order. *)
Definition intervals_ascending (cfg : uvc_function_config) : bool :=
  forallb (fun fmt => forallb (fun frm => ascending (intervals frm))
                              (frames fmt))
          (formats cfg).

(** The format and frame counts fit the one-byte index members. *)
Definition counts_fit_byte (cfg : uvc_function_config) : bool :=
  (num_formats cfg <=? 255)
  && forallb (fun fmt => num_frames fmt <=? 255) (formats cfg).

(** The block that lines 166-189 write for the format [format] at index
    [iformat], the frame [frame] at index [iframe] and the interval
    [ival]. *)
Definition filled_block (cfg : uvc_function_config) (iformat iframe : Z)
    (format : uvc_function_config_format) (frame : uvc_function_config_frame)
    (ival : Z) : uvc_streaming_control :=
  {| bmHint := 1;
     bFormatIndex := to_u8 iformat;
     bFrameIndex := to_u8 iframe;
     dwFrameInterval := ival;
     wKeyFrameRate := 0;
     wPFrameRate := 0;
     wCompQuality := 0;
     wCompWindowSize := 0;
     wDelay := 0;
     dwMaxVideoFrameSize :=
       (if (fcc format =? V4L2_PIX_FMT_YUYV)
           || (fcc format =? V4L2_PIX_FMT_MJPEG)
        then to_uint (width frame * height frame * 2)
        else 0);
     dwMaxPayloadTransferSize := wMaxPacketSize cfg;
     dwClockFrequency := 0;
     bmFramingInfo := 3;
     bPreferedVersion := 1;
     bMinVersion := 0;
     bMaxVersion := 1 |}.

(** ** Request and control names ([uvc.c], lines 44-92) *)

Module Names.

(** An array written with designated initializers: its size is the
    largest designator plus one, and an element without a designator is
    zero - for an array of strings, a null pointer ([None]).  No
    designator is repeated in the tables below. *)
Definition designated {A : Type} (entries : list (Z * A)) : list (option A) :=
  let size := fold_right (fun e m => Z.max (fst e + 1) m) 0 entries in
  map (fun i => option_map snd (find (fun e => fst e =? Z.of_nat i) entries))
      (seq 0 (Z.to_nat size)).

(** The [ARRAY_SIZE] macro of [tools.h], which is not among the sources:
    the number of elements of an array. *)
Definition ARRAY_SIZE {A : Type} (a : list A) : Z := Z.of_nat (length a).

(** [linux/usb/video.h] *)
Definition UVC_RC_UNDEFINED : Z := 0x00.
Definition UVC_PU_CONTROL_UNDEFINED : Z := 0x00.
Definition UVC_PU_BACKLIGHT_COMPENSATION_CONTROL : Z := 0x01.
Definition UVC_PU_BRIGHTNESS_CONTROL : Z := 0x02.
Definition UVC_PU_CONTRAST_CONTROL : Z := 0x03.
Definition UVC_PU_GAIN_CONTROL : Z := 0x04.
Definition UVC_PU_POWER_LINE_FREQUENCY_CONTROL : Z := 0x05.
Definition UVC_PU_HUE_CONTROL : Z := 0x06.
Definition UVC_PU_SATURATION_CONTROL : Z := 0x07.
Definition UVC_PU_SHARPNESS_CONTROL : Z := 0x08.
Definition UVC_PU_GAMMA_CONTROL : Z := 0x09.
Definition UVC_PU_WHITE_BALANCE_TEMPERATURE_CONTROL : Z := 0x0a.
Definition UVC_PU_WHITE_BALANCE_TEMPERATURE_AUTO_CONTROL : Z := 0x0b.
Definition UVC_PU_WHITE_BALANCE_COMPONENT_CONTROL : Z := 0x0c.
Definition UVC_PU_WHITE_BALANCE_COMPONENT_AUTO_CONTROL : Z := 0x0d.
Definition UVC_PU_DIGITAL_MULTIPLIER_CONTROL : Z := 0x0e.
Definition UVC_PU_DIGITAL_MULTIPLIER_LIMIT_CONTROL : Z := 0x0f.
Definition UVC_PU_HUE_AUTO_CONTROL : Z := 0x10.
Definition UVC_PU_ANALOG_VIDEO_STANDARD_CONTROL : Z := 0x11.
Definition UVC_PU_ANALOG_LOCK_STATUS_CONTROL : Z := 0x12.

Definition uvc_request_names : list (option String.string) :=
  designated
    [ (UVC_RC_UNDEFINED, "UNDEFINED"%string);
      (UVC_SET_CUR, "SET_CUR"%string);
      (UVC_GET_CUR, "GET_CUR"%string);
      (UVC_GET_MIN, "GET_MIN"%string);
      (UVC_GET_MAX, "GET_MAX"%string);
      (UVC_GET_RES, "GET_RES"%string);
      (UVC_GET_LEN, "GET_LEN"%string);
      (UVC_GET_INFO, "GET_INFO"%string);
      (UVC_GET_DEF, "GET_DEF"%string) ].

(** [uvc_request_name]; the argument is a [uint8_t]. *)
Definition uvc_request_name (req : Z) : option String.string :=
  if req <? ARRAY_SIZE uvc_request_names
  then nth (Z.to_nat req) uvc_request_names None
  else Some "UNKNOWN"%string.

Definition uvc_pu_control_names : list (option String.string) :=
  designated
    [ (UVC_PU_CONTROL_UNDEFINED, "UNDEFINED"%string);
      (UVC_PU_BACKLIGHT_COMPENSATION_CONTROL, "BACKLIGHT_COMPENSATION"%string);
      (UVC_PU_BRIGHTNESS_CONTROL, "BRIGHTNESS"%string);
      (UVC_PU_CONTRAST_CONTROL, "CONTRAST"%string);
      (UVC_PU_GAIN_CONTROL, "GAIN"%string);
      (UVC_PU_POWER_LINE_FREQUENCY_CONTROL, "POWER_LINE_FREQUENCY"%string);
      (UVC_PU_HUE_CONTROL, "HUE"%string);
      (UVC_PU_SATURATION_CONTROL, "SATURATION"%string);
      (UVC_PU_SHARPNESS_CONTROL, "SHARPNESS"%string);
      (UVC_PU_GAMMA_CONTROL, "GAMMA"%string);
      (UVC_PU_WHITE_BALANCE_TEMPERATURE_CONTROL,
       "WHITE_BALANCE_TEMPERATURE"%string);
      (UVC_PU_WHITE_BALANCE_TEMPERATURE_AUTO_CONTROL,
       "WHITE_BALANCE_TEMPERATURE_AUTO"%string);
      (UVC_PU_WHITE_BALANCE_COMPONENT_CONTROL,
       "WHITE_BALANCE_COMPONENT"%string);
      (UVC_PU_WHITE_BALANCE_COMPONENT_AUTO_CONTROL,
       "WHITE_BALANCE_COMPONENT_AUTO"%string);
      (UVC_PU_DIGITAL_MULTIPLIER_CONTROL, "DIGITAL_MULTIPLIER"%string);
      (UVC_PU_DIGITAL_MULTIPLIER_LIMIT_CONTROL,
       "DIGITAL_MULTIPLIER_LIMIT"%string);
      (UVC_PU_HUE_AUTO_CONTROL, "HUE_AUTO"%string);
      (UVC_PU_ANALOG_VIDEO_STANDARD_CONTROL, "ANALOG_VIDEO_STANDARD"%string);
      (UVC_PU_ANALOG_LOCK_STATUS_CONTROL, "ANALOG_LOCK_STATUS"%string) ].

(** [pu_control_name]; the argument is a [uint8_t]. *)
Definition pu_control_name (cs : Z) : option String.string :=
  if cs <? ARRAY_SIZE uvc_pu_control_names
  then nth (Z.to_nat cs) uvc_pu_control_names None
  else Some "UNKNOWN"%string.

(** The request codes that have a name of their own. *)
Definition named_requests : list Z :=
  [UVC_RC_UNDEFINED; UVC_SET_CUR; UVC_GET_CUR; UVC_GET_MIN; UVC_GET_MAX;
   UVC_GET_RES; UVC_GET_LEN; UVC_GET_INFO; UVC_GET_DEF].

(** What a caller can tell apart about a returned name. *)
Definition is_null (name : option String.string) : bool :=
  match name with None => true | Some _ => false end.

Definition is_unknown (name : option String.string) : bool :=
  match name with
  | Some s => if String.string_dec s "UNKNOWN"%string then true else false
  | None => false
  end.

(** The three cases of [uvc_request_name], decided for one code. *)
Definition request_name_check (req : Z) : bool :=
  if 0x88 <=? req then is_unknown (uvc_request_name req)
  else if existsb (Z.eqb req) named_requests
       then negb (is_null (uvc_request_name req))
            && negb (is_unknown (uvc_request_name req))
       else is_null (uvc_request_name req).

(** The two cases of [pu_control_name], decided for one selector. *)
Definition control_name_check (cs : Z) : bool :=
  if 0x13 <=? cs then is_unknown (pu_control_name cs)
  else negb (is_null (pu_control_name cs))
       && negb (is_unknown (pu_control_name cs)).

End Names.

(** ** The checkerboard of the test source ([test_source_fill_buffer]) *)

Module TestFill.

Definition WHITE : Z := 0x80eb80eb.
Definition GRAY : Z := 0x807F7F7F.

(** [struct video_buffer] of [video-buffers.h], which is not among the
    sources, as far as the test source uses it: the mapped memory, one
    byte per address from 0 to [size - 1] (the buffer's capacity), and
    [bytesused]. *)
Record video_buffer := {
  mem : Z -> Z;
  size : Z;
  bytesused : Z
}.

(** How a run can go wrong. *)
Inductive fault :=
| OutOfBounds      (* a store outside the mapped memory *)
| DivisionByZero   (* [% src->width] with a zero width *)
| NoEnd.           (* the column counter wraps before it reaches [bpl] *)

Inductive outcome (A : Type) :=
| Done (a : A)
| Fault (f : fault).

Arguments Done {A} a.
Arguments Fault {A} f.

Definition obind' {A B : Type} (o : outcome A) (k : A -> outcome B)
    : outcome B :=
  match o with
  | Done a => k a
  | Fault f => Fault f
  end.

Notation "x <~ e ;; k" := (obind' e (fun x => k))
  (at level 61, e at next level, right associativity).

(** The store of the 32-bit value [v] at [mem + off], on a little-endian
    machine. *)
Definition store32 (buf : video_buffer) (off v : Z) : outcome video_buffer :=
  if (0 <=? off) && (off + 4 <=? size buf) then
    Done {| mem := fun a =>
                     if (off <=? a) && (a <? off + 4)
                     then nth (Z.to_nat (a - off)) (le_bytes 4 v) 0
                     else mem buf a;
            size := size buf;
            bytesused := bytesused buf |}
  else Fault OutOfBounds.

Definition square_size : Z := 32.

(** [frame_count % (square_size * 2)] *)
Definition horizontal_offset (frame_count : Z) : Z :=
  frame_count mod (square_size * 2).

(** The colour of the pixel pair at byte column [j] of row [i]. *)
Definition pixel_color (src : TestSource.test_source) (frame_count i j : Z)
    : outcome Z :=
  let x := j / 2 in
  if TestSource.width src =? 0 then Fault DivisionByZero
  else
    let shifted_x :=
      to_uint (x + horizontal_offset frame_count) mod TestSource.width src in
    Done (if to_uint (i / square_size + shifted_x / square_size) mod 2 =? 0
          then WHITE else GRAY).

(** The loop over [j], entered with [fuel] turns left. *)
Fixpoint fill_row (fuel : nat) (src : TestSource.test_source)
    (frame_count bpl i j : Z) (buf : video_buffer) : outcome video_buffer :=
  match fuel with
  | O => Fault NoEnd
  | S k =>
      if j <? bpl then
        color <~ pixel_color src frame_count i j ;;
        buf' <~ store32 buf (to_uint (i * bpl) + j) color ;;
        fill_row k src frame_count bpl i (to_uint (j + 4)) buf'
      else Done buf
  end.

(** One more turn than a row of [bpl] bytes takes when [j] does not
    wrap. *)
Definition row_fuel (bpl : Z) : nat := S (Z.to_nat ((bpl + 3) / 4)).

(** The loop over [i], with [rows] rows left from row [i] on. *)
Fixpoint fill_rows (rows : nat) (src : TestSource.test_source)
    (frame_count bpl i : Z) (buf : video_buffer) : outcome video_buffer :=
  match rows with
  | O => Done buf
  | S k =>
      buf' <~ fill_row (row_fuel bpl) src frame_count bpl i 0 buf ;;
      fill_rows k src frame_count bpl (i + 1) buf'
  end.

(** [test_source_fill_buffer]: the buffer and the global [frame_count]
    after the call. *)
Definition test_source_fill_buffer (src : TestSource.test_source)
    (frame_count : Z) (buf : video_buffer) : outcome (video_buffer * Z) :=
  let bpl := to_uint (TestSource.width src * 2) in
  buf' <~ fill_rows (Z.to_nat (TestSource.height src)) src frame_count bpl 0
                    buf ;;
  Done ({| mem := mem buf'; size := size buf';
           bytesused := to_uint (bpl * TestSource.height src) |},
        to_uint (frame_count + 1)).

(** The byte that the pattern puts at byte column [o] of row [i]. *)
Definition pattern_byte (src : TestSource.test_source) (frame_count i o : Z)
    : Z :=
  match pixel_color src frame_count i (4 * (o / 4)) with
  | Done c => nth (Z.to_nat (o mod 4)) (le_bytes 4 c) 0
  | Fault _ => 0
  end.

(** A buffer of [n] zero bytes. *)
Definition blank (n : Z) : video_buffer :=
  {| mem := fun _ => 0; size := n; bytesused := 0 |}.

End TestFill.

(** ** Intervals whose frame rate is rounded down *)

(** The intervals from 1 to 3200 at which the quotient computed in double
    precision falls just below a whole number, so that the truncated rate
    is one less than the integer quotient. *)
Definition rounding_intervals : list Z :=
  [25; 50; 100; 200; 400; 800; 1600; 3200].

(** The computed rate of one interval against the integer quotient,
    lowered by one on [rounding_intervals]. *)
Definition fps_below_3201_check (iv : Z) : bool :=
  same_result (uvc_fps iv)
    (Some (10000000 / iv
           - (if existsb (Z.eqb iv) rounding_intervals then 1 else 0))).

(** * Properties *)

(** ** Integer conversions and arrays *)

Lemma is_u32b_spec v : is_u32b v = true <-> is_u32 v.
Proof.
  unfold is_u32b, is_u32. rewrite andb_true_iff, Z.leb_le, Z.leb_le. tauto.
Qed.

Lemma to_uint_small v : 0 <= v <= UINT_MAX -> to_uint v = v.
Proof. unfold to_uint, UINT_MAX. intros. apply Z.mod_small. lia. Qed.

Lemma to_int_small v : 0 <= v <= INT_MAX -> to_int v = v.
Proof.
  unfold to_int, INT_MAX. intros H. rewrite Z.mod_small by lia.
  destruct (Z.ltb_spec v 2147483648); lia.
Qed.

Lemma to_u8_small v : 0 <= v <= 255 -> to_u8 v = v.
Proof. unfold to_u8. intros. apply Z.mod_small. lia. Qed.

Lemma clamp_cases val lo hi :
  lo <= hi ->
  (val < lo /\ clamp val lo hi = lo)
  \/ (lo <= val <= hi /\ clamp val lo hi = val)
  \/ (hi < val /\ clamp val lo hi = hi).
Proof.
  intros Hle. unfold clamp.
  destruct (Z.ltb_spec val lo); destruct (Z.ltb_spec hi lo);
    destruct (Z.ltb_spec hi val); lia.
Qed.

Lemma clamp_range val lo hi : lo <= hi -> lo <= clamp val lo hi <= hi.
Proof. intros H. destruct (clamp_cases val lo hi H) as [?|[?|?]]; lia. Qed.

Lemma array_at_Some {A} (a : list A) i x :
  array_at a i = Some x -> 0 <= i < Z.of_nat (length a) /\ In x a.
Proof.
  unfold array_at. destruct (Z.ltb_spec i 0); [discriminate|].
  intros Hn. split.
  - assert (Hlt : (Z.to_nat i < length a)%nat)
      by (apply nth_error_Some; congruence).
    lia.
  - eapply nth_error_In; eauto.
Qed.

Lemma array_at_defined {A} (a : list A) i :
  0 <= i < Z.of_nat (length a) -> exists x, array_at a i = Some x.
Proof.
  intros H. unfold array_at. destruct (Z.ltb_spec i 0); [lia|].
  destruct (nth_error a (Z.to_nat i)) eqn:E; [eauto|].
  apply nth_error_None in E. lia.
Qed.

Lemma array_at_app_mid {A} (pre post : list A) x :
  array_at (pre ++ x :: post) (Z.of_nat (length pre)) = Some x.
Proof.
  unfold array_at. destruct (Z.ltb_spec (Z.of_nat (length pre)) 0); [lia|].
  rewrite Nat2Z.id, nth_error_app2 by lia.
  now rewrite Nat.sub_diag.
Qed.

Lemma last_error_app {A} (pre : list A) x : last_error (pre ++ [x]) = Some x.
Proof.
  unfold last_error. rewrite length_app. cbn [length].
  replace (Z.of_nat (length pre + 1) - 1) with (Z.of_nat (length pre)) by lia.
  apply array_at_app_mid.
Qed.

Lemma last_error_defined {A} (a : list A) :
  a <> [] -> exists x, last_error a = Some x.
Proof.
  intros H. apply array_at_defined.
  destruct a; [congruence|]. cbn [length]. lia.
Qed.

Lemma last_error_inv {A} (a : list A) x :
  last_error a = Some x -> exists pre, a = pre ++ [x].
Proof.
  intros H. destruct a as [|h t]; [discriminate H|].
  destruct (exists_last (l := h :: t)) as [pre [y E]]; [congruence|].
  rewrite E, last_error_app in H. injection H as ->. eauto.
Qed.

(** ** The interval loop *)

Lemma interval_loop_spec l : forall i ival,
  (exists pre v post,
      l = pre ++ v :: post /\ Forall (fun y => y < ival) pre /\ ival <= v
      /\ interval_loop l i ival = (i + Z.of_nat (length pre), v))
  \/ (Forall (fun y => y < ival) l
      /\ interval_loop l i ival = (i + Z.of_nat (length l), ival)).
Proof.
  induction l as [|x l IH]; intros i ival; cbn [interval_loop].
  - right. split; [constructor|]. cbn. f_equal. lia.
  - destruct (Z.leb_spec ival x) as [Hle|Hlt].
    + left. exists [], x, l. cbn. repeat split; auto. f_equal. lia.
    + destruct (IH (i + 1) ival) as [(pre & v & post & -> & Hpre & Hv & E)|[Hall E]].
      * left. exists (x :: pre), v, post. cbn [app length].
        repeat split; auto. rewrite E. f_equal. lia.
      * right. split; [constructor; auto|]. rewrite E. cbn [length]. f_equal. lia.
Qed.

(** What lines 154-164 leave in [ival]. *)
Lemma interval_choice l ival :
  l <> [] ->
  exists r,
    (let '(i, v) := interval_loop l 0 ival in
     if i =? Z.of_nat (length l)
     then array_at l (Z.of_nat (length l) - 1) else Some v) = Some r
    /\ first_fit_or_last ival l r.
Proof.
  intros Hne.
  destruct (interval_loop_spec l 0 ival)
    as [(pre & v & post & E & Hpre & Hv & ->)|[Hall ->]].
  - exists v. split.
    + destruct (Z.eqb_spec (0 + Z.of_nat (length pre)) (Z.of_nat (length l)))
        as [Heq|]; [|reflexivity].
      rewrite E, length_app in Heq. cbn [length] in Heq. lia.
    + left. eauto.
  - destruct (last_error_defined l Hne) as [r Hr]. exists r. split.
    + rewrite Z.add_0_l, Z.eqb_refl. exact Hr.
    + right. auto.
Qed.

Lemma first_fit_or_last_In ival l r : first_fit_or_last ival l r -> In r l.
Proof.
  intros [(pre & post & -> & _)|[_ H]].
  - apply in_or_app. right. left. reflexivity.
  - apply array_at_Some in H. tauto.
Qed.

Lemma sorted_last_max l r :
  StronglySorted Z.le l -> last_error l = Some r ->
  forall y, In y l -> y <= r.
Proof.
  intros Hs Hl. apply last_error_inv in Hl as [pre ->].
  induction pre as [|x pre IH]; cbn [app] in *; intros y Hy.
  - destruct Hy as [<-|[]]. lia.
  - inversion Hs as [|? ? Hs' Hall]; subst.
    destruct Hy as [<-|Hy]; [|auto].
    rewrite Forall_forall in Hall. apply Hall.
    apply in_or_app. right. left. reflexivity.
Qed.

Lemma sorted_app_tail pre x post :
  StronglySorted Z.le (pre ++ x :: post) -> forall y, In y post -> x <= y.
Proof.
  induction pre as [|a pre IH]; cbn [app]; intros Hs y Hy;
    inversion Hs as [|? ? Hs' Hall]; subst.
  - rewrite Forall_forall in Hall. auto.
  - eauto.
Qed.

(** On a list in ascending order the first fit is the least fit, and the
    last entry is the greatest. *)
Lemma first_fit_sorted ival l r :
  StronglySorted Z.le l -> first_fit_or_last ival l r -> min_ge_or_max ival l r.
Proof.
  intros Hs H. split; [eapply first_fit_or_last_In; eauto|].
  destruct H as [(pre & post & -> & Hpre & Hr)|[Hall Hl]].
  - left. split; [assumption|]. intros y Hy Hge.
    apply in_app_or in Hy as [Hy|[<-|Hy]].
    + rewrite Forall_forall in Hpre. specialize (Hpre y Hy). lia.
    + lia.
    + eapply sorted_app_tail; eauto.
  - right. split.
    + rewrite Forall_forall in Hall. auto.
    + eapply sorted_last_max; eauto.
Qed.

(** ** The fill algorithm *)

Ltac split_andb :=
  repeat match goal with
    | H : _ && _ = true |- _ => apply andb_true_iff in H; destruct H
    | H : (_ <=? _) = true |- _ => apply Z.leb_le in H
    | H : forallb _ _ = true |- _ => rewrite forallb_forall in H
    end.

Lemma fill_selected cfg iformat iframe ival fmt frm :
  selected_format cfg iformat = Some fmt ->
  array_at (frames fmt) (frame_index fmt iframe - 1) = Some frm ->
  intervals frm <> [] ->
  exists ctrl,
    uvc_fill_streaming_control cfg iformat iframe ival = Some ctrl
    /\ first_fit_or_last ival (intervals frm) (dwFrameInterval ctrl)
    /\ bFormatIndex ctrl = to_u8 (format_index cfg iformat)
    /\ bFrameIndex ctrl = to_u8 (frame_index fmt iframe)
    /\ dwMaxVideoFrameSize ctrl =
         (if (fcc fmt =? V4L2_PIX_FMT_YUYV) || (fcc fmt =? V4L2_PIX_FMT_MJPEG)
          then to_uint (width frm * height frm * 2) else 0).
Proof.
  unfold selected_format, format_index, frame_index.
  intros Hfmt Hfrm Hne.
  destruct (interval_choice (intervals frm) ival Hne) as [r [Hr Hfit]].
  unfold uvc_fill_streaming_control.
  rewrite Hfmt. cbn [obind]. rewrite Hfrm. cbn [obind].
  unfold num_intervals.
  destruct (interval_loop (intervals frm) 0 ival) as [i v].
  rewrite Hr. cbn [obind].
  eexists. split; [reflexivity|]. cbn. auto.
Qed.

Lemma selected_frame_unfold cfg iformat iframe fmt :
  selected_format cfg iformat = Some fmt ->
  selected_frame cfg iformat iframe
  = array_at (frames fmt) (frame_index fmt iframe - 1).
Proof. unfold selected_frame. intros ->. reflexivity. Qed.

Lemma selected_frame_inv cfg iformat iframe frm :
  selected_frame cfg iformat iframe = Some frm ->
  exists fmt,
    selected_format cfg iformat = Some fmt
    /\ array_at (frames fmt) (frame_index fmt iframe - 1) = Some frm.
Proof.
  unfold selected_frame.
  destruct (selected_format cfg iformat) as [fmt|]; [|discriminate].
  cbn [obind]. eauto.
Qed.

Lemma index_range x n :
  1 <= n <= INT_MAX -> 1 <= to_int (clamp (to_uint x) 1 n) <= n.
Proof.
  intros Hn. pose proof (clamp_range (to_uint x) 1 n ltac:(lia)).
  rewrite to_int_small by lia. lia.
Qed.

Lemma index_of_one n : 1 <= n <= INT_MAX -> to_int (clamp (to_uint 1) 1 n) = 1.
Proof.
  intros Hn. change (to_uint 1) with 1.
  destruct (clamp_cases 1 1 n ltac:(lia)) as [[? ->]|[[? ->]|[? ->]]];
    try lia; apply to_int_small; unfold INT_MAX in *; lia.
Qed.

Lemma index_of_minus_one n :
  1 <= n <= INT_MAX -> to_int (clamp (to_uint (-1)) 1 n) = n.
Proof.
  intros Hn. change (to_uint (-1)) with UINT_MAX.
  destruct (clamp_cases UINT_MAX 1 n ltac:(lia)) as [[? ->]|[[? ->]|[? ->]]];
    unfold UINT_MAX, INT_MAX in *; try lia.
  apply to_int_small. unfold INT_MAX. lia.
Qed.

Lemma index_of_byte x n :
  0 <= x <= 255 -> 1 <= n <= INT_MAX ->
  1 <= to_int (clamp (to_uint x) 1 n) <= 255.
Proof.
  intros Hx Hn. rewrite to_uint_small by (unfold UINT_MAX; lia).
  destruct (clamp_cases x 1 n ltac:(lia)) as [[? ->]|[[? ->]|[? ->]]];
    rewrite to_int_small; unfold INT_MAX in *; lia.
Qed.

Lemma selected_format_total cfg iformat :
  config_ok cfg = true ->
  exists fmt,
    selected_format cfg iformat = Some fmt
    /\ format_ok fmt = true
    /\ 1 <= format_index cfg iformat <= num_formats cfg.
Proof.
  unfold config_ok. intros H. split_andb.
  match goal with Hf : forall x, In x _ -> _ |- _ => rename Hf into Hall end.
  pose proof (index_range iformat (num_formats cfg) ltac:(lia)) as Hi.
  destruct (array_at_defined (formats cfg) (format_index cfg iformat - 1))
    as [fmt Hfmt].
  { unfold format_index, num_formats in *. lia. }
  exists fmt. repeat split; auto; try (unfold format_index; lia).
  apply Hall. apply array_at_Some in Hfmt. tauto.
Qed.

Lemma frame_total fmt iframe :
  format_ok fmt = true ->
  exists frm,
    array_at (frames fmt) (frame_index fmt iframe - 1) = Some frm
    /\ frame_ok frm = true
    /\ 1 <= frame_index fmt iframe <= num_frames fmt.
Proof.
  unfold format_ok. intros H. split_andb.
  match goal with Hf : forall x, In x _ -> _ |- _ => rename Hf into Hall end.
  pose proof (index_range iframe (num_frames fmt) ltac:(lia)) as Hi.
  destruct (array_at_defined (frames fmt) (frame_index fmt iframe - 1))
    as [frm Hfrm].
  { unfold frame_index, num_frames in *. lia. }
  exists frm. repeat split; auto; try (unfold frame_index; lia).
  apply Hall. apply array_at_Some in Hfrm. tauto.
Qed.

Lemma frame_ok_nonempty frm : frame_ok frm = true -> intervals frm <> [].
Proof.
  unfold frame_ok, num_intervals. intros H. split_andb.
  destruct (intervals frm); [cbn in *; lia|congruence].
Qed.

Lemma frame_ok_u32 frm :
  frame_ok frm = true -> forall y, In y (intervals frm) -> is_u32 y.
Proof.
  unfold frame_ok. intros H y Hy. split_andb.
  apply is_u32b_spec. auto.
Qed.

(** On a configuration with at least one format, frame and interval
    everywhere, the fill algorithm always produces a block. *)
Lemma fill_total cfg iformat iframe ival :
  config_ok cfg = true ->
  exists ctrl fmt frm,
    uvc_fill_streaming_control cfg iformat iframe ival = Some ctrl
    /\ selected_format cfg iformat = Some fmt
    /\ array_at (frames fmt) (frame_index fmt iframe - 1) = Some frm
    /\ format_ok fmt = true /\ frame_ok frm = true
    /\ first_fit_or_last ival (intervals frm) (dwFrameInterval ctrl)
    /\ bFormatIndex ctrl = to_u8 (format_index cfg iformat)
    /\ bFrameIndex ctrl = to_u8 (frame_index fmt iframe).
Proof.
  intros Hok.
  destruct (selected_format_total cfg iformat Hok) as (fmt & Hfmt & Hfok & _).
  destruct (frame_total fmt iframe Hfok) as (frm & Hfrm & Hrok & _).
  destruct (fill_selected cfg iformat iframe ival fmt frm Hfmt Hfrm
              (frame_ok_nonempty frm Hrok)) as (ctrl & E & Hfit & Hb1 & Hb2 & _).
  exists ctrl, fmt, frm. repeat split; auto.
Qed.

(** ** Interval selection (claim C1) *)

(** C1, as amended.  For every invocation of the fill algorithm on a frame
    whose interval list is non-empty, a block is produced and its
    [dwFrameInterval] is the first entry of the list, in declared order,
    that is [>= ival], or the last entry when no entry is.  Whenever the
    list is in ascending order this is the minimum element that is
    [>= ival], or the maximum element if no element is [>= ival]. *)
Theorem fill_interval_first_fit cfg iformat iframe ival frm :
  selected_frame cfg iformat iframe = Some frm ->
  intervals frm <> [] ->
  exists ctrl,
    uvc_fill_streaming_control cfg iformat iframe ival = Some ctrl
    /\ first_fit_or_last ival (intervals frm) (dwFrameInterval ctrl)
    /\ (StronglySorted Z.le (intervals frm) ->
        min_ge_or_max ival (intervals frm) (dwFrameInterval ctrl)).
Proof.
  intros Hsel Hne.
  apply selected_frame_inv in Hsel as (fmt & Hfmt & Hfrm).
  destruct (fill_selected cfg iformat iframe ival fmt frm Hfmt Hfrm Hne)
    as (ctrl & E & Hfit & _).
  exists ctrl. split; [exact E|]. split; [exact Hfit|].
  intros Hs. eapply first_fit_sorted; eauto.
Qed.

Lemma fill_interval_first_fit_witness :
  exists ctrl,
    uvc_fill_streaming_control Samples.cfg_script 1 2 250000 = Some ctrl
    /\ first_fit_or_last 250000 Samples.script_intervals (dwFrameInterval ctrl)
    /\ (StronglySorted Z.le Samples.script_intervals ->
        min_ge_or_max 250000 Samples.script_intervals (dwFrameInterval ctrl)).
Proof.
  apply (fill_interval_first_fit Samples.cfg_script 1 2 250000
           (Samples.frame_of 1280 720 Samples.script_intervals)).
  - reflexivity.
  - discriminate.
Defined.

(** C1 as stated fails when the intervals are not declared in ascending
    order: asked for 100000 on the list 500000, 333333, 200000, 166666 the
    algorithm stops at the first entry, 500000, while the least interval
    that is [>= 100000] is 166666. *)
Lemma fill_interval_not_minimum :
  exists ctrl,
    selected_frame Samples.cfg_descending 1 1
    = Some (Samples.frame_of 640 360 [500000; 333333; 200000; 166666])
    /\ uvc_fill_streaming_control Samples.cfg_descending 1 1 100000 = Some ctrl
    /\ dwFrameInterval ctrl = 500000
    /\ ~ min_ge_or_max 100000 [500000; 333333; 200000; 166666]
                       (dwFrameInterval ctrl).
Proof.
  eexists. split; [reflexivity|]. split; [reflexivity|]. split; [reflexivity|].
  cbn [dwFrameInterval]. intros [_ [[_ H]|[H _]]].
  - specialize (H 166666). cbn [In] in H.
    assert (500000 <= 166666) by (apply H; [tauto|lia]). lia.
  - specialize (H 500000). cbn [In] in H.
    assert (500000 < 100000) by (apply H; tauto). lia.
Qed.

(** ** The maximum frame size (claim C3) *)

(** C3, as amended.  For every format and frame selected by the fill
    algorithm, whether the format's FourCC is YUYV or MJPEG, the filled
    block's [dwMaxVideoFrameSize] is width x height x 2 reduced modulo
    2^32 (the product is computed in [unsigned int]); it is exactly
    width x height x 2 whenever that product is at most [UINT_MAX]. *)
Theorem fill_max_video_frame_size cfg iformat iframe ival fmt frm :
  selected_format cfg iformat = Some fmt ->
  selected_frame cfg iformat iframe = Some frm ->
  intervals frm <> [] ->
  fcc fmt = V4L2_PIX_FMT_YUYV \/ fcc fmt = V4L2_PIX_FMT_MJPEG ->
  exists ctrl,
    uvc_fill_streaming_control cfg iformat iframe ival = Some ctrl
    /\ dwMaxVideoFrameSize ctrl = (width frm * height frm * 2) mod 2 ^ 32
    /\ (0 <= width frm * height frm * 2 <= UINT_MAX ->
        dwMaxVideoFrameSize ctrl = width frm * height frm * 2).
Proof.
  intros Hfmt Hsel Hne Hfcc.
  rewrite (selected_frame_unfold _ _ _ _ Hfmt) in Hsel.
  destruct (fill_selected cfg iformat iframe ival fmt frm Hfmt Hsel Hne)
    as (ctrl & E & _ & _ & _ & Hsz).
  assert (Hmod : dwMaxVideoFrameSize ctrl = (width frm * height frm * 2) mod 2 ^ 32).
  { rewrite Hsz. destruct Hfcc as [-> | ->]; reflexivity. }
  exists ctrl. split; [exact E|]. split; [exact Hmod|].
  intros Hfit. rewrite Hmod. apply Z.mod_small. unfold UINT_MAX in Hfit. lia.
Qed.

Lemma fill_max_video_frame_size_witness :
  exists ctrl,
    uvc_fill_streaming_control Samples.cfg_script 1 2 250000 = Some ctrl
    /\ dwMaxVideoFrameSize ctrl = (1280 * 720 * 2) mod 2 ^ 32
    /\ (0 <= 1280 * 720 * 2 <= UINT_MAX ->
        dwMaxVideoFrameSize ctrl = 1280 * 720 * 2).
Proof.
  apply (fill_max_video_frame_size Samples.cfg_script 1 2 250000
           {| fcc := V4L2_PIX_FMT_YUYV;
              frames := [ Samples.frame_of 640 360 Samples.script_intervals;
                          Samples.frame_of 1280 720 Samples.script_intervals;
                          Samples.frame_of 1920 1080 Samples.script_intervals ] |}
           (Samples.frame_of 1280 720 Samples.script_intervals)).
  - reflexivity.
  - reflexivity.
  - discriminate.
  - left. reflexivity.
Defined.

(** C3 as stated fails when the product does not fit 32 bits: for a YUYV
    frame of 65535 x 65535 the block holds 4294705154, not
    65535 x 65535 x 2 = 8589672450. *)
Lemma fill_max_video_frame_size_wraps :
  exists ctrl,
    selected_format Samples.cfg_large 1
    = Some {| fcc := V4L2_PIX_FMT_YUYV;
              frames := [ Samples.frame_of 65535 65535 Samples.script_intervals ] |}
    /\ selected_frame Samples.cfg_large 1 1
       = Some (Samples.frame_of 65535 65535 Samples.script_intervals)
    /\ uvc_fill_streaming_control Samples.cfg_large 1 1 0 = Some ctrl
    /\ dwMaxVideoFrameSize ctrl = 4294705154
    /\ dwMaxVideoFrameSize ctrl <> 65535 * 65535 * 2.
Proof.
  eexists. repeat (split; [reflexivity|]). cbn. discriminate.
Qed.

(** ** The block in the response buffer *)

Lemma length_encode c : length (encode c) = 34%nat.
Proof. destruct c. reflexivity. Qed.

Lemma write_prefix_encode c buf :
  (34 <= length buf)%nat ->
  write_prefix (encode c) buf = encode c ++ skipn 34 buf.
Proof.
  intros H. unfold write_prefix. rewrite length_encode.
  apply firstn_all2. rewrite length_app, length_encode, length_skipn. lia.
Qed.

Lemma length_write_prefix bs buf : length (write_prefix bs buf) = length buf.
Proof.
  unfold write_prefix. rewrite length_firstn, length_app, length_skipn. lia.
Qed.

Lemma le_value_byte v : (v mod 256) mod 256 + 256 * 0 = v mod 256.
Proof. rewrite Z.mod_mod by lia. lia. Qed.

Lemma le_value_dword v :
  (v mod 256) mod 256
  + 256 * ((v / 256 mod 256) mod 256
  + 256 * ((v / 256 / 256 mod 256) mod 256
  + 256 * ((v / 256 / 256 / 256 mod 256) mod 256 + 256 * 0)))
  = v mod 2 ^ 32.
Proof.
  rewrite !Z.mod_mod by lia. change (2 ^ 32) with 4294967296.
  Z.div_mod_to_equations. lia.
Qed.

(** Reading back, through the structure, the members that the fill
    algorithm negotiates. *)
Lemma decode_encode_fields c rest :
  bFormatIndex (decode (encode c ++ rest)) = bFormatIndex c mod 256
  /\ bFrameIndex (decode (encode c ++ rest)) = bFrameIndex c mod 256
  /\ dwFrameInterval (decode (encode c ++ rest)) = dwFrameInterval c mod 2 ^ 32.
Proof.
  destruct c. unfold decode, get_le, slice, encode.
  cbn [bFormatIndex bFrameIndex dwFrameInterval
       le_bytes app skipn firstn le_value].
  repeat split.
  - apply le_value_byte.
  - apply le_value_byte.
  - apply le_value_dword.
Qed.

Lemma response_block_fields c buf :
  (34 <= length buf)%nat ->
  0 <= bFormatIndex c <= 255 -> 0 <= bFrameIndex c <= 255 ->
  is_u32 (dwFrameInterval c) ->
  let d := decode (write_prefix (encode c) buf) in
  bFormatIndex d = bFormatIndex c /\ bFrameIndex d = bFrameIndex c
  /\ dwFrameInterval d = dwFrameInterval c.
Proof.
  intros Hlen H1 H2 H3. cbv zeta. rewrite write_prefix_encode by assumption.
  destruct (decode_encode_fields c (skipn 34 buf)) as (-> & -> & ->).
  unfold is_u32, UINT_MAX in H3.
  rewrite !Z.mod_small by lia. auto.
Qed.

(** A byte read from a buffer is between 0 and 255. *)
Lemma decode_byte_ranges buf :
  0 <= bFormatIndex (decode buf) <= 255 /\ 0 <= bFrameIndex (decode buf) <= 255.
Proof.
  unfold decode, get_le, slice. cbn [bFormatIndex bFrameIndex].
  split.
  - destruct (firstn 1 (skipn 2 buf)) as [|b [|? ?]] eqn:E; cbn [le_value].
    + lia.
    + pose proof (Z.mod_pos_bound b 256). lia.
    + apply (f_equal (@length Z)) in E. rewrite length_firstn in E.
      cbn [length] in E. lia.
  - destruct (firstn 1 (skipn 3 buf)) as [|b [|? ?]] eqn:E; cbn [le_value].
    + lia.
    + pose proof (Z.mod_pos_bound b 256). lia.
    + apply (f_equal (@length Z)) in E. rewrite length_firstn in E.
      cbn [length] in E. lia.
Qed.

(** ** GET requests on the streaming interface *)

Lemma streaming_get_max dev cs :
  cs = UVC_VS_PROBE_CONTROL \/ cs = UVC_VS_COMMIT_CONTROL ->
  streaming_request dev UVC_GET_MAX cs
  = (ctrl <- uvc_fill_streaming_control (fc dev) (-1) (-1) UINT_MAX ;;
     Some (dev, {| req_length := 34;
                   req_data := write_prefix (encode ctrl) (repeat 0 60) |})).
Proof. intros [-> | ->]; reflexivity. Qed.

Lemma streaming_get_min dev :
  streaming_request dev UVC_GET_MIN UVC_VS_PROBE_CONTROL
  = (ctrl <- uvc_fill_streaming_control (fc dev) 1 1 0 ;;
     Some (dev, {| req_length := 34;
                   req_data := write_prefix (encode ctrl) (repeat 0 60) |})).
Proof. reflexivity. Qed.

Lemma streaming_get_cur_probe dev :
  streaming_request dev UVC_GET_CUR UVC_VS_PROBE_CONTROL
  = Some (dev, {| req_length := 34;
                  req_data := write_prefix (encode (probe dev)) (repeat 0 60) |}).
Proof. reflexivity. Qed.

Lemma first_fit_zero l r iv0 :
  (forall y, In y l -> 0 <= y) ->
  array_at l 0 = Some iv0 ->
  first_fit_or_last 0 l r -> r = iv0.
Proof.
  intros Hpos Hhd [(pre & post & -> & Hpre & _)|[Hall _]].
  - destruct pre as [|x pre].
    + cbn in Hhd. congruence.
    + inversion Hpre; subst. specialize (Hpos x (or_introl eq_refl)). lia.
  - destruct l as [|x l]; [discriminate Hhd|].
    inversion Hall; subst. specialize (Hpos x (or_introl eq_refl)). lia.
Qed.

Lemma first_fit_uint_max l r :
  (forall y, In y l -> is_u32 y) ->
  first_fit_or_last UINT_MAX l r ->
  (last_error l = Some r \/ r = UINT_MAX)
  /\ (StronglySorted Z.le l -> is_max l r).
Proof.
  intros Hu Hfit.
  pose proof (first_fit_or_last_In _ _ _ Hfit) as Hin.
  destruct Hfit as [(pre & post & E & _ & Hr)|[_ Hl]].
  - assert (r = UINT_MAX) as -> by (specialize (Hu r Hin); unfold is_u32 in Hu; lia).
    split; [auto|]. intros _. split; [assumption|].
    intros y Hy. specialize (Hu y Hy). unfold is_u32 in Hu. lia.
  - split; [auto|]. intros Hs. split; [assumption|].
    eapply sorted_last_max; eauto.
Qed.

(** ** GET_MAX (claim C2) *)

(** C2, as amended.  For every GET_MAX request on the streaming interface
    with selector PROBE or COMMIT, given a configuration with between 1
    and 255 formats whose last format has between 1 and 255 frames and
    whose last frame has at least one interval, the response block holds
    the last format ([bFormatIndex = num_formats]), the last frame of that
    format ([bFrameIndex] = that format's [num_frames]) and, as interval,
    the last entry of that frame's list (or [UINT_MAX] when the list
    contains it); this is the largest interval of the frame whenever the
    list is in ascending order. *)
Theorem get_max_selects_last dev cs fmt frm :
  cs = UVC_VS_PROBE_CONTROL \/ cs = UVC_VS_COMMIT_CONTROL ->
  last_error (formats (fc dev)) = Some fmt ->
  num_formats (fc dev) <= 255 ->
  last_error (frames fmt) = Some frm ->
  num_frames fmt <= 255 ->
  intervals frm <> [] ->
  (forall y, In y (intervals frm) -> is_u32 y) ->
  exists resp,
    streaming_request dev UVC_GET_MAX cs = Some (dev, resp)
    /\ req_length resp = 34
    /\ bFormatIndex (response_block resp) = num_formats (fc dev)
    /\ bFrameIndex (response_block resp) = num_frames fmt
    /\ (last_error (intervals frm)
          = Some (dwFrameInterval (response_block resp))
        \/ (dwFrameInterval (response_block resp) = UINT_MAX
            /\ In UINT_MAX (intervals frm)))
    /\ (StronglySorted Z.le (intervals frm) ->
        is_max (intervals frm) (dwFrameInterval (response_block resp))).
Proof.
  intros Hcs Hfmt Hnf Hfrm Hnr Hne Hu.
  pose proof (array_at_Some _ _ _ Hfmt) as [Hf1 _].
  pose proof (array_at_Some _ _ _ Hfrm) as [Hr1 _].
  fold (num_formats (fc dev)) in Hf1. fold (num_frames fmt) in Hr1.
  assert (Hfi : format_index (fc dev) (-1) = num_formats (fc dev))
    by (apply index_of_minus_one; unfold INT_MAX; lia).
  assert (Hri : frame_index fmt (-1) = num_frames fmt)
    by (apply index_of_minus_one; unfold INT_MAX; lia).
  assert (Hsf : selected_format (fc dev) (-1) = Some fmt)
    by (unfold selected_format; rewrite Hfi; exact Hfmt).
  assert (Hsr : array_at (frames fmt) (frame_index fmt (-1) - 1) = Some frm)
    by (rewrite Hri; exact Hfrm).
  destruct (fill_selected (fc dev) (-1) (-1) UINT_MAX fmt frm Hsf Hsr Hne)
    as (ctrl & E & Hfit & Hb1 & Hb2 & _).
  rewrite Hfi in Hb1. rewrite Hri in Hb2.
  rewrite to_u8_small in Hb1, Hb2 by lia.
  destruct (first_fit_uint_max _ _ Hu Hfit) as [Hlast0 Hmax].
  pose proof (first_fit_or_last_In _ _ _ Hfit) as Hmem.
  pose proof (Hu _ Hmem) as Hiv.
  assert (Hlast : last_error (intervals frm) = Some (dwFrameInterval ctrl)
                  \/ (dwFrameInterval ctrl = UINT_MAX
                      /\ In UINT_MAX (intervals frm))).
  { destruct Hlast0 as [H|H]; [left; exact H|right].
    split; [exact H|]. rewrite <- H. exact Hmem. }
  clear Hlast0.
  rewrite (streaming_get_max dev cs Hcs), E. cbn [obind].
  eexists. split; [reflexivity|]. unfold response_block. cbn [req_length req_data].
  destruct (response_block_fields ctrl (repeat 0 60)) as (-> & -> & ->);
    try lia; auto.
  rewrite repeat_length. lia.
Qed.

Lemma get_max_selects_last_witness :
  exists resp,
    streaming_request (Samples.booted Samples.cfg_script) UVC_GET_MAX
                      UVC_VS_PROBE_CONTROL
    = Some (Samples.booted Samples.cfg_script, resp)
    /\ req_length resp = 34
    /\ bFormatIndex (response_block resp) = 1
    /\ bFrameIndex (response_block resp) = 3
    /\ (last_error Samples.script_intervals
          = Some (dwFrameInterval (response_block resp))
        \/ (dwFrameInterval (response_block resp) = UINT_MAX
            /\ In UINT_MAX Samples.script_intervals))
    /\ (StronglySorted Z.le Samples.script_intervals ->
        is_max Samples.script_intervals (dwFrameInterval (response_block resp))).
Proof.
  apply (get_max_selects_last (Samples.booted Samples.cfg_script)
           UVC_VS_PROBE_CONTROL
           {| fcc := V4L2_PIX_FMT_YUYV;
              frames := [ Samples.frame_of 640 360 Samples.script_intervals;
                          Samples.frame_of 1280 720 Samples.script_intervals;
                          Samples.frame_of 1920 1080 Samples.script_intervals ] |}
           (Samples.frame_of 1920 1080 Samples.script_intervals)).
  - left. reflexivity.
  - reflexivity.
  - vm_compute. discriminate.
  - reflexivity.
  - vm_compute. discriminate.
  - discriminate.
  - intros y Hy. unfold is_u32, UINT_MAX. cbn in Hy.
    repeat (destruct Hy as [<-|Hy]; [lia|]). contradiction.
Defined.

(** C2 as stated fails when the intervals of the last frame are not in
    ascending order: with the list 500000, 333333, 200000, 166666 the
    GET_MAX block carries the last entry, 166666, not the largest
    interval, 500000. *)
Lemma get_max_not_largest :
  exists resp,
    streaming_request (Samples.booted Samples.cfg_descending) UVC_GET_MAX
                      UVC_VS_PROBE_CONTROL
    = Some (Samples.booted Samples.cfg_descending, resp)
    /\ selected_frame Samples.cfg_descending (-1) (-1)
       = Some (Samples.frame_of 640 360 [500000; 333333; 200000; 166666])
    /\ dwFrameInterval (response_block resp) = 166666
    /\ ~ is_max [500000; 333333; 200000; 166666]
                (dwFrameInterval (response_block resp)).
Proof.
  eexists. split; [vm_compute; reflexivity|].
  split; [reflexivity|]. split; [reflexivity|].
  intros [_ H]. specialize (H 500000 (or_introl eq_refl)).
  vm_compute in H. apply H. reflexivity.
Qed.

(** ** GET_MIN, GET_MAX, GET_CUR after initialization (claim C8) *)

(** C8.  After initialization (probe and commit both filled from
    format 1, frame 1, interval 0), GET_MIN, then GET_MAX, then GET_CUR on
    the PROBE selector: the GET_CUR response is the default block, with
    [bFormatIndex = 1], [bFrameIndex = 1] and [dwFrameInterval] equal to
    the first interval of format 1's frame 1; GET_MIN and GET_MAX fill
    only their response buffer and hand back the device unchanged. *)
Theorem get_cur_after_min_max cfg fmt1 frm1 iv0 :
  config_ok cfg = true ->
  array_at (formats cfg) 0 = Some fmt1 ->
  array_at (frames fmt1) 0 = Some frm1 ->
  array_at (intervals frm1) 0 = Some iv0 ->
  exists dev0 r1 r2 r3,
    uvc_events_init (uvc_open cfg) = Some dev0
    /\ streaming_request dev0 UVC_GET_MIN UVC_VS_PROBE_CONTROL = Some (dev0, r1)
    /\ streaming_request dev0 UVC_GET_MAX UVC_VS_PROBE_CONTROL = Some (dev0, r2)
    /\ streaming_request dev0 UVC_GET_CUR UVC_VS_PROBE_CONTROL = Some (dev0, r3)
    /\ req_length r3 = 34
    /\ slice 0 34 (req_data r3) = encode (probe dev0)
    /\ bFormatIndex (response_block r3) = 1
    /\ bFrameIndex (response_block r3) = 1
    /\ dwFrameInterval (response_block r3) = iv0.
Proof.
  intros Hok Hf Hr Hi.
  destruct (fill_total cfg 1 1 0 Hok)
    as (p & fmt & frm & Ep & Hsf & Hsr & Hfok & Hrok & Hfit & Hb1 & Hb2).
  destruct (fill_total cfg (-1) (-1) UINT_MAX Hok) as (m & _ & _ & Em & _).
  assert (Hn : 1 <= num_formats cfg <= INT_MAX)
    by (unfold config_ok in Hok; split_andb; lia).
  assert (Hfi : format_index cfg 1 = 1) by (apply index_of_one; exact Hn).
  unfold selected_format in Hsf. rewrite Hfi in Hsf, Hb1.
  change (1 - 1) with 0 in Hsf. assert (fmt = fmt1) as -> by congruence.
  assert (Hm : 1 <= num_frames fmt1 <= INT_MAX)
    by (unfold format_ok in Hfok; split_andb; lia).
  assert (Hri : frame_index fmt1 1 = 1) by (apply index_of_one; exact Hm).
  rewrite Hri in Hsr, Hb2.
  change (1 - 1) with 0 in Hsr. assert (frm = frm1) as -> by congruence.
  assert (Hiv : dwFrameInterval p = iv0).
  { eapply first_fit_zero; eauto.
    intros y Hy. apply (frame_ok_u32 _ Hrok) in Hy. unfold is_u32 in Hy. lia. }
  assert (Hu : is_u32 (dwFrameInterval p)).
  { apply (frame_ok_u32 _ Hrok). eapply first_fit_or_last_In; eauto. }
  change (to_u8 1) with 1 in Hb1, Hb2.
  set (dev0 := set_commit (set_probe (uvc_open cfg) p) p).
  exists dev0. do 3 eexists.
  split.
  { unfold uvc_events_init. cbn [fc uvc_open set_probe]. rewrite Ep.
    cbn [obind]. reflexivity. }
  split.
  { rewrite streaming_get_min. cbn [fc dev0 set_commit set_probe uvc_open].
    rewrite Ep. reflexivity. }
  split.
  { rewrite streaming_get_max by (left; reflexivity).
    cbn [fc dev0 set_commit set_probe uvc_open]. rewrite Em. reflexivity. }
  split; [apply streaming_get_cur_probe|].
  cbn [req_length req_data probe dev0 set_commit set_probe].
  split; [reflexivity|].
  split.
  { rewrite write_prefix_encode by (rewrite repeat_length; lia).
    unfold slice. cbn [skipn]. rewrite <- (length_encode p).
    rewrite firstn_app, Nat.sub_diag, firstn_all. cbn [firstn].
    apply app_nil_r. }
  unfold response_block. cbn [req_data].
  destruct (response_block_fields p (repeat 0 60)) as (-> & -> & ->);
    try lia; auto.
  rewrite repeat_length. lia.
Qed.

Lemma get_cur_after_min_max_witness :
  exists dev0 r1 r2 r3,
    uvc_events_init (uvc_open Samples.cfg_script) = Some dev0
    /\ streaming_request dev0 UVC_GET_MIN UVC_VS_PROBE_CONTROL = Some (dev0, r1)
    /\ streaming_request dev0 UVC_GET_MAX UVC_VS_PROBE_CONTROL = Some (dev0, r2)
    /\ streaming_request dev0 UVC_GET_CUR UVC_VS_PROBE_CONTROL = Some (dev0, r3)
    /\ req_length r3 = 34
    /\ slice 0 34 (req_data r3) = encode (probe dev0)
    /\ bFormatIndex (response_block r3) = 1
    /\ bFrameIndex (response_block r3) = 1
    /\ dwFrameInterval (response_block r3) = 166666.
Proof.
  apply (get_cur_after_min_max Samples.cfg_script
           {| fcc := V4L2_PIX_FMT_YUYV;
              frames := [ Samples.frame_of 640 360 Samples.script_intervals;
                          Samples.frame_of 1280 720 Samples.script_intervals;
                          Samples.frame_of 1920 1080 Samples.script_intervals ] |}
           (Samples.frame_of 640 360 Samples.script_intervals) 166666);
    reflexivity.
Defined.

(** ** The frame rate of a committed interval *)

Lemma agrees_block_sound p : forall lo,
  agrees_block p lo = true ->
  Uint63.to_Z lo + Zpos p <= wB ->
  forall i, Uint63.to_Z lo <= Uint63.to_Z i < Uint63.to_Z lo + Zpos p ->
  agrees i = true.
Proof.
  induction p as [q IH|q IH|]; intros lo Hb Hfit i Hi; cbn [agrees_block] in Hb.
  - apply andb_true_iff in Hb as [Hb H2]. apply andb_true_iff in Hb as [H0 H1].
    pose proof (Uint63.to_Z_bounded lo) as Hlo.
    assert (E1 : Uint63.to_Z (Uint63.add lo 1%uint63) = Uint63.to_Z lo + 1).
    { rewrite Uint63.add_spec. change (Uint63.to_Z 1%uint63) with 1.
      apply Z.mod_small. lia. }
    assert (E2 : Uint63.to_Z (Uint63.add (Uint63.add lo 1%uint63) (Uint63.of_pos q))
                 = Uint63.to_Z lo + 1 + Zpos q).
    { rewrite Uint63.add_spec, E1. change (Uint63.of_pos q) with (Uint63.of_Z (Zpos q)).
      rewrite Uint63.of_Z_spec, (Z.mod_small (Zpos q)) by lia.
      apply Z.mod_small. lia. }
    destruct (Z.eq_dec (Uint63.to_Z i) (Uint63.to_Z lo)) as [Heq|Hne].
    + apply Uint63.to_Z_inj in Heq. subst i. exact H0.
    + destruct (Z_lt_le_dec (Uint63.to_Z i) (Uint63.to_Z lo + 1 + Zpos q)).
      * apply (IH _ H1); lia.
      * apply (IH _ H2); lia.
  - apply andb_true_iff in Hb as [H1 H2].
    pose proof (Uint63.to_Z_bounded lo) as Hlo.
    assert (E2 : Uint63.to_Z (Uint63.add lo (Uint63.of_pos q))
                 = Uint63.to_Z lo + Zpos q).
    { rewrite Uint63.add_spec. change (Uint63.of_pos q) with (Uint63.of_Z (Zpos q)).
      rewrite Uint63.of_Z_spec, (Z.mod_small (Zpos q)) by lia.
      apply Z.mod_small. lia. }
    destruct (Z_lt_le_dec (Uint63.to_Z i) (Uint63.to_Z lo + Zpos q)).
    + apply (IH _ H1); lia.
    + apply (IH _ H2); lia.
  - assert (Heq : Uint63.to_Z i = Uint63.to_Z lo) by lia.
    apply Uint63.to_Z_inj in Heq. subst i. exact Hb.
Qed.

Lemma uvc_fps_of_agrees iv :
  0 <= iv < wB -> agrees (Uint63.of_Z iv) = true ->
  uvc_fps iv = Some (10000000 / iv).
Proof.
  intros Hiv. unfold agrees, uvc_fps.
  destruct (double_to_uint63 (fps_double (Uint63.of_Z iv))) as [v|];
    [|discriminate].
  intros H. apply Uint63.eqb_spec in H. subst v. cbn [option_map]. f_equal.
  rewrite Uint63.div_spec, Uint63.of_Z_spec, Z.mod_small by lia.
  reflexivity.
Qed.

(** The conversion through the primitive operations gives what the
    sign-mantissa-exponent reading gives, on every sample. *)
Lemma double_to_uint63_matches_spec :
  forallb (fun d => same_result (option_map Uint63.to_Z (double_to_uint63 d))
                                (double_to_uint_spec d))
          conversion_samples = true.
Proof. vm_compute. reflexivity. Qed.

(** Every interval from 3201 to 10000000: the block of 9996800 values that
    starts at 3201 is checked by evaluation. *)
Lemma agrees_from_3201 : agrees_block 9996800 3201%uint63 = true.
Proof. vm_compute. reflexivity. Qed.

Lemma uvc_fps_integer_quotient iv :
  3201 <= iv <= 10000000 -> uvc_fps iv = Some (10000000 / iv).
Proof.
  intros Hiv.
  assert (HwB : wB = 9223372036854775808) by reflexivity.
  apply uvc_fps_of_agrees; [lia|].
  apply (agrees_block_sound 9996800 3201%uint63 agrees_from_3201).
  - change (Uint63.to_Z 3201%uint63) with 3201. lia.
  - rewrite Uint63.of_Z_spec, Z.mod_small by lia.
    change (Uint63.to_Z 3201%uint63) with 3201. lia.
Qed.

(** Rounding shows below that range: 10000000 / 3200 = 3125, but the
    quotient computed in double precision is just under 3125. *)
Lemma uvc_fps_3200 : uvc_fps 3200 = Some 3124.
Proof. vm_compute. reflexivity. Qed.

(** A zero interval divides by zero; the infinite quotient has no
    [unsigned int] value. *)
Lemma uvc_fps_zero : uvc_fps 0 = None.
Proof. vm_compute. reflexivity. Qed.

Lemma same_result_Some a y : same_result a (Some y) = true -> a = Some y.
Proof.
  destruct a as [x|]; cbn [same_result]; [|discriminate].
  intros H. apply Z.eqb_eq in H. now subst.
Qed.

Lemma fps_below_3201_checked :
  forallb (fun n => fps_below_3201_check (Z.of_nat n)) (seq 1 3200) = true.
Proof. vm_compute. reflexivity. Qed.

(** Below 3201 the rate is the integer quotient except at eight
    intervals, where it is one less. *)
Lemma uvc_fps_below_3201 iv :
  1 <= iv <= 3200 ->
  uvc_fps iv
  = Some (10000000 / iv
          - (if existsb (Z.eqb iv) rounding_intervals then 1 else 0)).
Proof.
  intros Hiv. pose proof fps_below_3201_checked as Hall.
  rewrite forallb_forall in Hall.
  specialize (Hall (Z.to_nat iv) ltac:(apply in_seq; lia)).
  rewrite Z2Nat.id in Hall by lia.
  apply same_result_Some. exact Hall.
Qed.

(** ** The data phase *)

Lemma intervals_within_In lo hi cfg fmt frm iv :
  intervals_within lo hi cfg = true ->
  In fmt (formats cfg) -> In frm (frames fmt) -> In iv (intervals frm) ->
  lo <= iv <= hi.
Proof.
  unfold intervals_within. intros H Hf Hr Hi.
  rewrite forallb_forall in H. specialize (H fmt Hf).
  rewrite forallb_forall in H. specialize (H frm Hr).
  rewrite forallb_forall in H. specialize (H iv Hi).
  apply andb_true_iff in H as [H1 H2].
  apply Z.leb_le in H1. apply Z.leb_le in H2. lia.
Qed.

(** A DATA event with COMMIT pending: the commit block is filled from the
    payload, the format and the frame are looked up again through the
    indices stored in the block, and the stream is given the format and
    then the frame rate. *)
Lemma process_data_commit dev data :
  config_ok (fc dev) = true ->
  control dev = UVC_VS_COMMIT_CONTROL ->
  exists target fmt frm,
    uvc_fill_streaming_control (fc dev)
      (bFormatIndex (decode (req_data data)))
      (bFrameIndex (decode (req_data data)))
      (dwFrameInterval (decode (req_data data))) = Some target
    /\ In fmt (formats (fc dev)) /\ In frm (frames fmt)
    /\ In (dwFrameInterval target) (intervals frm)
    /\ uvc_events_process_data dev data
       = (fps <- uvc_fps (dwFrameInterval target) ;;
          Some (set_format_fields (set_commit dev target)
                  (fcc fmt) (width frm) (height frm),
                [StreamSetFormat
                   {| V4L2.width := width frm;
                      V4L2.height := height frm;
                      V4L2.pixelformat := fcc fmt;
                      V4L2.field := V4L2_FIELD_NONE;
                      V4L2.sizeimage :=
                        (if fcc fmt =? V4L2_PIX_FMT_MJPEG
                         then dwMaxVideoFrameSize target else 0) |};
                 StreamSetFrameRate fps])).
Proof.
  intros Hok Hc.
  destruct (decode_byte_ranges (req_data data)) as [Hx Hy].
  set (x := bFormatIndex (decode (req_data data))) in *.
  set (y := bFrameIndex (decode (req_data data))) in *.
  set (z := dwFrameInterval (decode (req_data data))).
  destruct (fill_total (fc dev) x y z Hok)
    as (target & fmt & frm & E & Hsf & Hsr & Hfok & Hrok & Hfit & Hb1 & Hb2).
  assert (Hn : 1 <= num_formats (fc dev) <= INT_MAX)
    by (unfold config_ok in Hok; split_andb; lia).
  assert (Hm : 1 <= num_frames fmt <= INT_MAX)
    by (unfold format_ok in Hfok; split_andb; lia).
  pose proof (index_of_byte x _ Hx Hn) as Hfi.
  pose proof (index_of_byte y _ Hy Hm) as Hri.
  fold (format_index (fc dev) x) in Hfi. fold (frame_index fmt y) in Hri.
  rewrite to_u8_small in Hb1, Hb2 by lia.
  exists target, fmt, frm.
  split; [exact E|].
  split; [apply array_at_Some in Hsf; tauto|].
  split; [apply array_at_Some in Hsr; tauto|].
  split; [eapply first_fit_or_last_In; eauto|].
  unfold uvc_events_process_data. rewrite Hc.
  change (negb (UVC_VS_COMMIT_CONTROL =? UVC_VS_PROBE_CONTROL)
          && negb (UVC_VS_COMMIT_CONTROL =? UVC_VS_COMMIT_CONTROL)) with false.
  change (UVC_VS_COMMIT_CONTROL =? UVC_VS_PROBE_CONTROL) with false.
  cbv iota. fold x y z. rewrite E. cbn [obind control set_commit fc].
  rewrite Hc. change (UVC_VS_COMMIT_CONTROL =? UVC_VS_COMMIT_CONTROL) with true.
  cbv iota. rewrite Hb1. unfold selected_format in Hsf. rewrite Hsf.
  cbn [obind]. rewrite Hb2, Hsr. cbn [obind]. reflexivity.
Qed.

(** ** The committed frame rate (claim C4) *)

(** Where the code does what the specification says.  For every DATA
    event processed while [pending_control = COMMIT], on a configuration
    with at least one format, frame and interval everywhere whose
    intervals all lie between 3201 and 10000000, the stream is given a
    format and then a frame rate, and that frame rate equals 10000000
    divided by the committed [dwFrameInterval] using integer division.
    (The rate is the quotient [1.0 / (dwFrameInterval / 10000000.0)]
    computed in double precision and truncated; no clamp of the interval
    is applied.) *)
Theorem commit_frame_rate dev data :
  config_ok (fc dev) = true ->
  intervals_within 3201 10000000 (fc dev) = true ->
  control dev = UVC_VS_COMMIT_CONTROL ->
  exists dev' pixfmt,
    uvc_events_process dev (UVC_EVENT_DATA data)
    = Some (dev', [StreamSetFormat pixfmt;
                   StreamSetFrameRate
                     (10000000 / dwFrameInterval (commit dev'))])
    /\ uvc_fps (dwFrameInterval (commit dev'))
       = Some (10000000 / dwFrameInterval (commit dev'))
    /\ uvc_fill_streaming_control (fc dev)
         (bFormatIndex (decode (req_data data)))
         (bFrameIndex (decode (req_data data)))
         (dwFrameInterval (decode (req_data data))) = Some (commit dev').
Proof.
  intros Hok Hin Hc.
  destruct (process_data_commit dev data Hok Hc)
    as (target & fmt & frm & E & Hf & Hr & Hi & Hp).
  pose proof (intervals_within_In _ _ _ _ _ _ Hin Hf Hr Hi) as Hrange.
  pose proof (uvc_fps_integer_quotient _ Hrange) as Hfps.
  cbn [uvc_events_process]. rewrite Hp, Hfps. cbn [obind].
  exists (set_format_fields (set_commit dev target)
            (fcc fmt) (width frm) (height frm)).
  eexists. cbn [commit set_format_fields set_commit].
  split; [reflexivity|]. auto.
Qed.

Lemma commit_frame_rate_witness :
  exists dev' pixfmt,
    uvc_events_process
      (set_control (Samples.booted Samples.cfg_script) UVC_VS_COMMIT_CONTROL)
      (UVC_EVENT_DATA (Samples.payload 1 2 250000))
    = Some (dev', [StreamSetFormat pixfmt;
                   StreamSetFrameRate
                     (10000000 / dwFrameInterval (commit dev'))])
    /\ uvc_fps (dwFrameInterval (commit dev'))
       = Some (10000000 / dwFrameInterval (commit dev'))
    /\ uvc_fill_streaming_control Samples.cfg_script
         (bFormatIndex (decode (req_data (Samples.payload 1 2 250000))))
         (bFrameIndex (decode (req_data (Samples.payload 1 2 250000))))
         (dwFrameInterval (decode (req_data (Samples.payload 1 2 250000))))
       = Some (commit dev').
Proof.
  apply (commit_frame_rate
           (set_control (Samples.booted Samples.cfg_script)
                        UVC_VS_COMMIT_CONTROL)
           (Samples.payload 1 2 250000)); reflexivity.
Defined.

(** C4, the code at the interval 3200.  A DATA event processed while
    [pending_control = COMMIT] commits [dwFrameInterval = 3200]; ten
    million divided by 3200 is 3125, and the stream is given the frame
    rate 3124: the quotient computed in double precision is just under
    3125 and the conversion to [unsigned int] drops the fraction. *)
Lemma commit_frame_rate_rounds_down :
  exists dev' pixfmt fps,
    uvc_events_process
      (set_control (Samples.booted Samples.cfg_fast) UVC_VS_COMMIT_CONTROL)
      (UVC_EVENT_DATA (Samples.payload 1 1 3200))
    = Some (dev', [StreamSetFormat pixfmt; StreamSetFrameRate fps])
    /\ dwFrameInterval (commit dev') = 3200
    /\ fps = 3124
    /\ spec_fps (dwFrameInterval (commit dev')) = 3125
    /\ fps <> spec_fps (dwFrameInterval (commit dev')).
Proof.
  do 3 eexists. split; [vm_compute; reflexivity|].
  repeat split; vm_compute; discriminate.
Qed.

(** ** DATA without a pending control (claim C7) *)

(** C7.  For every DATA event that arrives while [pending_control] is
    none (neither PROBE nor COMMIT), the event is discarded and the state
    is unchanged: the device, with its probe and commit blocks, is handed
    back as it was, and no call is made - no format or frame rate reaches
    the stream and no response is sent. *)
Theorem data_without_pending_control dev data :
  control dev <> UVC_VS_PROBE_CONTROL ->
  control dev <> UVC_VS_COMMIT_CONTROL ->
  uvc_events_process dev (UVC_EVENT_DATA data) = Some (dev, []).
Proof.
  intros Hp Hc. cbn [uvc_events_process]. unfold uvc_events_process_data.
  destruct (Z.eqb_spec (control dev) UVC_VS_PROBE_CONTROL); [contradiction|].
  destruct (Z.eqb_spec (control dev) UVC_VS_COMMIT_CONTROL); [contradiction|].
  reflexivity.
Qed.

Lemma data_without_pending_control_witness :
  uvc_events_process (Samples.booted Samples.cfg_script)
                     (UVC_EVENT_DATA (Samples.payload 1 2 250000))
  = Some (Samples.booted Samples.cfg_script, []).
Proof.
  apply (data_without_pending_control (Samples.booted Samples.cfg_script)
           (Samples.payload 1 2 250000)).
  - vm_compute. discriminate.
  - vm_compute. discriminate.
Defined.

(** ** GET_LEN (claim C5) *)

(** C5, the code at a GET_LEN request.  With selector PROBE or COMMIT the
    response has length 2 and its bytes are [0x00] then [0x22]: read in
    little-endian order they are 8704, not 34; they are 34 only when read
    most significant byte first. *)
Theorem get_len_response dev :
  let resp := {| req_length := 2; req_data := 0x00 :: 0x22 :: repeat 0 58 |} in
  streaming_request dev UVC_GET_LEN UVC_VS_PROBE_CONTROL = Some (dev, resp)
  /\ streaming_request dev UVC_GET_LEN UVC_VS_COMMIT_CONTROL = Some (dev, resp)
  /\ slice 0 2 (req_data resp) = [0x00; 0x22]
  /\ le_value (slice 0 2 (req_data resp)) = 8704
  /\ le_value (slice 0 2 (req_data resp)) <> 34
  /\ be_value (slice 0 2 (req_data resp)) = 34
  /\ le_bytes 2 34 = [0x22; 0x00].
Proof.
  cbv zeta. repeat split; try reflexivity. vm_compute. discriminate.
Qed.

(** ** Requests to the control interface (claim C6) *)

(** The stub answer to a class request addressed to the control
    interface: first byte 3, and as length the low byte of [wLength]. *)
Lemma control_request_response dev (r : usb_ctrlrequest) :
  Z.land (bRequestType r) USB_TYPE_MASK = USB_TYPE_CLASS ->
  Z.land (bRequestType r) USB_RECIP_MASK = USB_RECIP_INTERFACE ->
  Z.land (wIndex r) 0xff = control_bInterfaceNumber (fc dev) ->
  uvc_events_process dev (UVC_EVENT_SETUP r)
  = Some (set_control dev 0,
          [SendResponse {| req_length := wLength r mod 256;
                           req_data := 0x03 :: repeat 0 59 |}]).
Proof.
  intros Ht Hr Hi. cbn [uvc_events_process]. unfold uvc_events_process_setup.
  rewrite Ht. change (USB_TYPE_CLASS =? USB_TYPE_STANDARD) with false.
  change (USB_TYPE_CLASS =? USB_TYPE_CLASS) with true. cbv iota.
  unfold uvc_events_process_class. rewrite Hr.
  change (negb (USB_RECIP_INTERFACE =? USB_RECIP_INTERFACE)) with false.
  cbv iota. cbn [fc set_control]. rewrite Hi, Z.eqb_refl.
  reflexivity.
Qed.

(** C6, the code at [wLength = 256].  A class request (GET_CUR, IN) to
    the control interface that asks for 256 bytes is answered with first
    byte [0x03] and response length 0, not 256: [wLength] is passed
    through a [uint8_t] parameter. *)
Theorem control_request_length_256 :
  let r := Samples.class_request true UVC_GET_CUR 3 0 256 in
  Z.land (bRequestType r) USB_TYPE_MASK = USB_TYPE_CLASS
  /\ Z.land (wIndex r) 0xff
     = control_bInterfaceNumber (fc (Samples.booted Samples.cfg_script))
  /\ wLength r = 256
  /\ uvc_events_process (Samples.booted Samples.cfg_script) (UVC_EVENT_SETUP r)
     = Some (Samples.booted Samples.cfg_script,
             [SendResponse {| req_length := 0;
                              req_data := 0x03 :: repeat 0 59 |}]).
Proof. cbv zeta. repeat split; vm_compute; reflexivity. Qed.

(** ** The static test source (claims C9 and C10) *)

(** C9.  For every requested pixel format whose FourCC is not YUYV,
    [test_source_set_format] fails with [-EINVAL]; for a YUYV format it
    returns 0. *)
Theorem test_source_set_format_result src (fmt : V4L2.v4l2_pix_format) :
  (V4L2.pixelformat fmt <> V4L2_PIX_FMT_YUYV ->
   snd (TestSource.test_source_set_format src fmt) = - EINVAL)
  /\ (V4L2.pixelformat fmt = V4L2_PIX_FMT_YUYV ->
      snd (TestSource.test_source_set_format src fmt) = 0).
Proof.
  unfold TestSource.test_source_set_format. cbn [TestSource.pixelformat].
  change (v4l2_fourcc 89 85 89 86) with V4L2_PIX_FMT_YUYV.
  destruct (Z.eqb_spec (V4L2.pixelformat fmt) V4L2_PIX_FMT_YUYV);
    cbn [negb snd]; split; intros; congruence.
Qed.

Lemma test_source_set_format_result_witness :
  snd (TestSource.test_source_set_format TestSource.test_video_source_create
         {| V4L2.width := 1280; V4L2.height := 720;
            V4L2.pixelformat := V4L2_PIX_FMT_MJPEG;
            V4L2.field := V4L2_FIELD_NONE; V4L2.sizeimage := 1843200 |})
  = - EINVAL
  /\ snd (TestSource.test_source_set_format TestSource.test_video_source_create
            {| V4L2.width := 640; V4L2.height := 360;
               V4L2.pixelformat := V4L2_PIX_FMT_YUYV;
               V4L2.field := V4L2_FIELD_NONE; V4L2.sizeimage := 0 |})
     = 0.
Proof.
  split.
  - apply (proj1 (test_source_set_format_result
                    TestSource.test_video_source_create
                    {| V4L2.width := 1280; V4L2.height := 720;
                       V4L2.pixelformat := V4L2_PIX_FMT_MJPEG;
                       V4L2.field := V4L2_FIELD_NONE;
                       V4L2.sizeimage := 1843200 |})).
    vm_compute. discriminate.
  - apply (proj2 (test_source_set_format_result
                    TestSource.test_video_source_create
                    {| V4L2.width := 640; V4L2.height := 360;
                       V4L2.pixelformat := V4L2_PIX_FMT_YUYV;
                       V4L2.field := V4L2_FIELD_NONE;
                       V4L2.sizeimage := 0 |})).
    reflexivity.
Defined.

(** C10.  [test_source_set_format] stores the requested width, height and
    pixel format before it validates the FourCC: when it rejects a
    non-YUYV format with [-EINVAL], the source already holds the rejected
    request, whatever it held before. *)
Theorem test_source_set_format_overwrites src (fmt : V4L2.v4l2_pix_format) :
  V4L2.pixelformat fmt <> V4L2_PIX_FMT_YUYV ->
  snd (TestSource.test_source_set_format src fmt) = - EINVAL
  /\ fst (TestSource.test_source_set_format src fmt)
     = {| TestSource.width := V4L2.width fmt;
          TestSource.height := V4L2.height fmt;
          TestSource.pixelformat := V4L2.pixelformat fmt |}.
Proof.
  intros Hne. unfold TestSource.test_source_set_format.
  cbn [TestSource.pixelformat].
  change (v4l2_fourcc 89 85 89 86) with V4L2_PIX_FMT_YUYV.
  destruct (Z.eqb_spec (V4L2.pixelformat fmt) V4L2_PIX_FMT_YUYV);
    [contradiction|]. cbn [negb fst snd]. auto.
Qed.

(** The state is not preserved on failure: a source set to 640 x 360 YUYV
    that rejects 1280 x 720 MJPEG is left holding 1280 x 720 MJPEG. *)
Lemma test_source_set_format_overwrites_witness :
  let src := {| TestSource.width := 640; TestSource.height := 360;
                TestSource.pixelformat := V4L2_PIX_FMT_YUYV |} in
  let fmt := {| V4L2.width := 1280; V4L2.height := 720;
                V4L2.pixelformat := V4L2_PIX_FMT_MJPEG;
                V4L2.field := V4L2_FIELD_NONE; V4L2.sizeimage := 1843200 |} in
  (snd (TestSource.test_source_set_format src fmt) = - EINVAL
   /\ fst (TestSource.test_source_set_format src fmt)
      = {| TestSource.width := 1280; TestSource.height := 720;
           TestSource.pixelformat := V4L2_PIX_FMT_MJPEG |})
  /\ fst (TestSource.test_source_set_format src fmt) <> src.
Proof.
  cbv zeta. split.
  - apply (test_source_set_format_overwrites
             {| TestSource.width := 640; TestSource.height := 360;
                TestSource.pixelformat := V4L2_PIX_FMT_YUYV |}
             {| V4L2.width := 1280; V4L2.height := 720;
                V4L2.pixelformat := V4L2_PIX_FMT_MJPEG;
                V4L2.field := V4L2_FIELD_NONE; V4L2.sizeimage := 1843200 |}).
    vm_compute. discriminate.
  - vm_compute. discriminate.
Defined.

(** ** From a SETUP event to the streaming responder *)

(** A class request addressed to the streaming interface reaches
    [uvc_events_process_streaming] with a fresh response buffer, after the
    pending control has been cleared, and the response is sent. *)
Lemma setup_reaches_streaming dev (r : usb_ctrlrequest) :
  Z.land (bRequestType r) USB_TYPE_MASK = USB_TYPE_CLASS ->
  Z.land (bRequestType r) USB_RECIP_MASK = USB_RECIP_INTERFACE ->
  Z.land (wIndex r) 0xff = streaming_bInterfaceNumber (fc dev) ->
  streaming_bInterfaceNumber (fc dev) <> control_bInterfaceNumber (fc dev) ->
  uvc_events_process dev (UVC_EVENT_SETUP r)
  = (x <- streaming_request (set_control dev 0) (to_u8 (bRequest r))
            (to_u8 (Z.shiftr (wValue r) 8)) ;;
     Some (fst x, [SendResponse (snd x)])).
Proof.
  intros Ht Hr Hi Hne. cbn [uvc_events_process].
  unfold uvc_events_process_setup.
  rewrite Ht. change (USB_TYPE_CLASS =? USB_TYPE_STANDARD) with false.
  change (USB_TYPE_CLASS =? USB_TYPE_CLASS) with true. cbv iota.
  unfold uvc_events_process_class. rewrite Hr.
  change (negb (USB_RECIP_INTERFACE =? USB_RECIP_INTERFACE)) with false.
  cbv iota. cbn [fc set_control]. rewrite Hi, Z.eqb_refl.
  destruct (Z.eqb_spec (streaming_bInterfaceNumber (fc dev))
                       (control_bInterfaceNumber (fc dev))); [contradiction|].
  reflexivity.
Qed.

(** Any SETUP event other than a SET_CUR on PROBE or COMMIT leaves no
    control pending: the next DATA event finds [control = 0]. *)
Lemma setup_clears_pending_control dev (r : usb_ctrlrequest) dev' calls :
  uvc_events_process dev (UVC_EVENT_SETUP r) = Some (dev', calls) ->
  control dev' = 0
  \/ (to_u8 (bRequest r) = UVC_SET_CUR
      /\ control dev' = to_u8 (Z.shiftr (wValue r) 8)
      /\ (control dev' = UVC_VS_PROBE_CONTROL
          \/ control dev' = UVC_VS_COMMIT_CONTROL)).
Proof.
  cbn [uvc_events_process]. unfold uvc_events_process_setup.
  destruct (_ =? USB_TYPE_STANDARD);
    [cbn [obind fst]; intros [= <- _]; left; reflexivity|].
  destruct (_ =? USB_TYPE_CLASS);
    [|cbn [obind fst]; intros [= <- _]; left; reflexivity].
  unfold uvc_events_process_class.
  destruct (negb _);
    [cbn [obind fst]; intros [= <- _]; left; reflexivity|].
  destruct (_ =? control_bInterfaceNumber _);
    [cbn [obind fst]; intros [= <- _]; left; reflexivity|].
  destruct (_ =? streaming_bInterfaceNumber _);
    [|cbn [obind fst]; intros [= <- _]; left; reflexivity].
  unfold uvc_events_process_streaming.
  set (cs := to_u8 (Z.shiftr (wValue r) 8)).
  set (rq := to_u8 (bRequest r)).
  destruct (Z.eqb_spec cs UVC_VS_PROBE_CONTROL) as [Hp|Hp];
    destruct (Z.eqb_spec cs UVC_VS_COMMIT_CONTROL) as [Hc|Hc];
    cbn [negb andb];
    try (cbn [obind fst]; intros [= <- _]; left; reflexivity);
    (destruct (Z.eqb_spec rq UVC_SET_CUR) as [Hs|Hs];
     [cbn [obind fst]; intros [= <- _]; right; cbn [control set_control]; auto|]);
    (destruct (rq =? UVC_GET_CUR);
     [cbn [obind fst]; intros [= <- _]; left; reflexivity|]);
    (destruct ((rq =? UVC_GET_MIN) || (rq =? UVC_GET_MAX) || (rq =? UVC_GET_DEF));
     [destruct (if rq =? UVC_GET_MAX then _ else _);
      cbn [obind fst]; [intros [= <- _]; left; reflexivity|discriminate]|]);
    (destruct (rq =? UVC_GET_RES);
     [cbn [obind fst]; intros [= <- _]; left; reflexivity|]);
    (destruct (rq =? UVC_GET_LEN);
     [cbn [obind fst]; intros [= <- _]; left; reflexivity|]);
    (destruct (rq =? UVC_GET_INFO);
     cbn [obind fst]; intros [= <- _]; left; reflexivity).
Qed.

(** ** Scenarios of the specification, run on the model *)

Module Scenarios.

(** S1: GET_DEF(PROBE) answers format 1, frame 1, interval 166666 and a
    frame size of 640 * 360 * 2 = 460800, in little-endian bytes. *)
Example s1_get_def :
  exists resp,
    uvc_events_process (Samples.booted Samples.cfg_two_frames)
      (UVC_EVENT_SETUP (Samples.class_request true UVC_GET_DEF 1 1 34))
    = Some ((Samples.booted Samples.cfg_two_frames), [SendResponse resp])
    /\ req_length resp = 34
    /\ slice 2 6 (req_data resp) = [0x01; 0x01; 0x0A; 0x8B; 0x02; 0x00]
    /\ slice 18 4 (req_data resp) = [0x00; 0x08; 0x07; 0x00].
Proof. eexists. repeat split; vm_compute; reflexivity. Qed.

(** S2: GET_MAX(PROBE) answers format 1, frame 2, interval 500000 and a
    frame size of 1280 * 720 * 2 = 1843200. *)
Example s2_get_max :
  exists resp,
    uvc_events_process (Samples.booted Samples.cfg_two_frames)
      (UVC_EVENT_SETUP (Samples.class_request true UVC_GET_MAX 1 1 34))
    = Some ((Samples.booted Samples.cfg_two_frames), [SendResponse resp])
    /\ bFormatIndex (response_block resp) = 1
    /\ bFrameIndex (response_block resp) = 2
    /\ dwFrameInterval (response_block resp) = 500000
    /\ dwMaxVideoFrameSize (response_block resp) = 1843200.
Proof. eexists. repeat split; vm_compute; reflexivity. Qed.

(** S3: SET_CUR(COMMIT) followed by DATA asking for format 1, frame 2,
    interval 250000 commits the interval 333333 and gives the stream
    1280 x 720 YUYV at 30 frames per second. *)
Example s3_commit :
  exists dev1 resp dev2,
    uvc_events_process (Samples.booted Samples.cfg_two_frames)
      (UVC_EVENT_SETUP (Samples.class_request false UVC_SET_CUR 2 1 34))
    = Some (dev1, [SendResponse resp])
    /\ control dev1 = UVC_VS_COMMIT_CONTROL
    /\ uvc_events_process dev1 (UVC_EVENT_DATA (Samples.payload 1 2 250000))
       = Some (dev2,
               [StreamSetFormat
                  {| V4L2.width := 1280; V4L2.height := 720;
                     V4L2.pixelformat := V4L2_PIX_FMT_YUYV;
                     V4L2.field := V4L2_FIELD_NONE; V4L2.sizeimage := 0 |};
                StreamSetFrameRate 30])
    /\ dwFrameInterval (commit dev2) = 333333
    /\ bFrameIndex (commit dev2) = 2.
Proof. do 3 eexists. repeat split; vm_compute; reflexivity. Qed.

(** With 256 formats the one-byte [bFormatIndex] of a GET_MAX block
    wraps to 0. *)
Example get_max_256_formats :
  let cfg :=
    Samples.config_of
      (repeat {| fcc := V4L2_PIX_FMT_YUYV;
                 frames := [ Samples.frame_of 640 360 Samples.script_intervals ] |}
              256) in
  option_map (fun r => bFormatIndex (response_block (snd r)))
    (streaming_request (Samples.booted cfg) UVC_GET_MAX UVC_VS_PROBE_CONTROL)
  = Some 0.
Proof. vm_compute. reflexivity. Qed.

End Scenarios.

(** * Further properties of the code *)

(** ** More on the fill algorithm *)

Lemma fill_unfold cfg iformat iframe ival fmt frm :
  selected_format cfg iformat = Some fmt ->
  array_at (frames fmt) (frame_index fmt iframe - 1) = Some frm ->
  intervals frm <> [] ->
  exists r,
    first_fit_or_last ival (intervals frm) r
    /\ uvc_fill_streaming_control cfg iformat iframe ival
       = Some (filled_block cfg (format_index cfg iformat)
                 (frame_index fmt iframe) fmt frm r).
Proof.
  unfold selected_format, format_index, frame_index.
  intros Hfmt Hfrm Hne.
  destruct (interval_choice (intervals frm) ival Hne) as [r [Hr Hfit]].
  exists r. split; [exact Hfit|].
  unfold uvc_fill_streaming_control.
  rewrite Hfmt. cbn [obind]. rewrite Hfrm. cbn [obind].
  unfold num_intervals.
  destruct (interval_loop (intervals frm) 0 ival) as [i v].
  rewrite Hr. reflexivity.
Qed.

Lemma index_identity x n :
  1 <= x <= n -> n <= INT_MAX -> to_int (clamp (to_uint x) 1 n) = x.
Proof.
  intros Hx Hn. rewrite to_uint_small by (unfold UINT_MAX, INT_MAX in *; lia).
  destruct (clamp_cases x 1 n ltac:(lia)) as [[? ->]|[[? ->]|[? ->]]];
    try lia; apply to_int_small; lia.
Qed.

Lemma index_monotone a b n :
  1 <= n <= INT_MAX -> 0 <= a <= b -> b <= UINT_MAX ->
  to_int (clamp (to_uint a) 1 n) <= to_int (clamp (to_uint b) 1 n)
  /\ (n <= b -> to_int (clamp (to_uint b) 1 n) = n)
  /\ (a = 0 -> to_int (clamp (to_uint a) 1 n) = 1).
Proof.
  intros Hn Hab Hb. rewrite !to_uint_small by lia.
  pose proof (clamp_range a 1 n ltac:(lia)).
  pose proof (clamp_range b 1 n ltac:(lia)).
  rewrite !to_int_small by lia.
  destruct (clamp_cases a 1 n ltac:(lia)) as [[? Ea]|[[? Ea]|[? Ea]]];
    destruct (clamp_cases b 1 n ltac:(lia)) as [[? Eb]|[[? Eb]|[? Eb]]];
    rewrite Ea, Eb; lia.
Qed.

Lemma ascending_sorted l : ascending l = true -> StronglySorted Z.le l.
Proof.
  intros H. apply Sorted_StronglySorted; [intros x y z; apply Z.le_trans|].
  induction l as [|x [|y l] IH].
  - constructor.
  - repeat constructor.
  - cbn [ascending] in H. apply andb_true_iff in H as [Hxy Hrest].
    apply Z.leb_le in Hxy. constructor; [auto|]. constructor. exact Hxy.
Qed.

(** On an ascending list, asking for an interval that the list contains
    gives that interval back. *)
Lemma first_fit_of_member l r r' :
  StronglySorted Z.le l -> In r l -> first_fit_or_last r l r' -> r' = r.
Proof.
  intros Hs Hin [(pre & post & E & Hpre & Hr)|[Hall _]].
  - subst l. apply in_app_or in Hin as [Hin|[Heq|Hin]].
    + rewrite Forall_forall in Hpre. specialize (Hpre r Hin). lia.
    + exact Heq.
    + pose proof (sorted_app_tail _ _ _ Hs r Hin). lia.
  - rewrite Forall_forall in Hall. specialize (Hall r Hin). lia.
Qed.

Lemma intervals_ascending_In cfg fmt frm :
  intervals_ascending cfg = true ->
  In fmt (formats cfg) -> In frm (frames fmt) ->
  StronglySorted Z.le (intervals frm).
Proof.
  unfold intervals_ascending. intros H Hf Hr.
  rewrite forallb_forall in H. specialize (H fmt Hf).
  rewrite forallb_forall in H. specialize (H frm Hr).
  apply ascending_sorted. exact H.
Qed.

Lemma counts_fit_byte_In cfg fmt :
  counts_fit_byte cfg = true ->
  num_formats cfg <= 255 /\ (In fmt (formats cfg) -> num_frames fmt <= 255).
Proof.
  unfold counts_fit_byte. intros H. apply andb_true_iff in H as [H1 H2].
  apply Z.leb_le in H1. split; [exact H1|]. intros Hin.
  rewrite forallb_forall in H2. apply Z.leb_le. auto.
Qed.

(** X1.  On a configuration with at least one format, frame and interval
    everywhere, whatever format, frame and interval are asked for, the
    fill algorithm produces a block whose [dwFrameInterval] is one of the
    intervals that the selected frame declares. *)
Theorem fill_interval_is_declared cfg iformat iframe ival :
  config_ok cfg = true ->
  exists ctrl frm,
    uvc_fill_streaming_control cfg iformat iframe ival = Some ctrl
    /\ selected_frame cfg iformat iframe = Some frm
    /\ In (dwFrameInterval ctrl) (intervals frm).
Proof.
  intros Hok.
  destruct (fill_total cfg iformat iframe ival Hok)
    as (ctrl & fmt & frm & E & Hsf & Hsr & _ & _ & Hfit & _).
  exists ctrl, frm. split; [exact E|]. split.
  - rewrite (selected_frame_unfold _ _ _ _ Hsf). exact Hsr.
  - eapply first_fit_or_last_In; eauto.
Qed.

Lemma fill_interval_is_declared_witness :
  exists ctrl frm,
    uvc_fill_streaming_control Samples.cfg_script 7 0 123 = Some ctrl
    /\ selected_frame Samples.cfg_script 7 0 = Some frm
    /\ In (dwFrameInterval ctrl) (intervals frm).
Proof.
  apply (fill_interval_is_declared Samples.cfg_script 7 0 123). reflexivity.
Defined.

(** X2.  For indices that arrive in one byte (0 to 255), as in a data
    phase, the indices stored in the block lie between 1 and the counts
    and designate, when looked up again, exactly the format and the frame
    from which the block was filled. *)
Theorem fill_indices_designate_selection cfg iformat iframe ival :
  config_ok cfg = true ->
  0 <= iformat <= 255 -> 0 <= iframe <= 255 ->
  exists ctrl fmt frm,
    uvc_fill_streaming_control cfg iformat iframe ival = Some ctrl
    /\ 1 <= bFormatIndex ctrl <= num_formats cfg
    /\ array_at (formats cfg) (bFormatIndex ctrl - 1) = Some fmt
    /\ 1 <= bFrameIndex ctrl <= num_frames fmt
    /\ array_at (frames fmt) (bFrameIndex ctrl - 1) = Some frm
    /\ selected_format cfg iformat = Some fmt
    /\ selected_frame cfg iformat iframe = Some frm.
Proof.
  intros Hok Hx Hy.
  destruct (fill_total cfg iformat iframe ival Hok)
    as (ctrl & fmt & frm & E & Hsf & Hsr & Hfok & _ & _ & Hb1 & Hb2).
  destruct (selected_format_total cfg iformat Hok) as (fmt' & Hsf' & _ & Hfi).
  assert (fmt' = fmt) as -> by congruence.
  destruct (frame_total fmt iframe Hfok) as (frm' & Hsr' & _ & Hri).
  assert (Hn : 1 <= num_formats cfg <= INT_MAX)
    by (unfold config_ok in Hok; split_andb; lia).
  assert (Hm : 1 <= num_frames fmt <= INT_MAX)
    by (unfold format_ok in Hfok; split_andb; lia).
  pose proof (index_of_byte iformat _ Hx Hn) as Hfb.
  pose proof (index_of_byte iframe _ Hy Hm) as Hrb.
  fold (format_index cfg iformat) in Hfb. fold (frame_index fmt iframe) in Hrb.
  rewrite to_u8_small in Hb1, Hb2 by lia.
  exists ctrl, fmt, frm. rewrite Hb1, Hb2.
  repeat (split; [first [exact E|exact Hsf|exact Hsr|lia]|]).
  rewrite (selected_frame_unfold _ _ _ _ Hsf). exact Hsr.
Qed.

Lemma fill_indices_designate_selection_witness :
  exists ctrl fmt frm,
    uvc_fill_streaming_control Samples.cfg_script 0 200 250000 = Some ctrl
    /\ 1 <= bFormatIndex ctrl <= num_formats Samples.cfg_script
    /\ array_at (formats Samples.cfg_script) (bFormatIndex ctrl - 1) = Some fmt
    /\ 1 <= bFrameIndex ctrl <= num_frames fmt
    /\ array_at (frames fmt) (bFrameIndex ctrl - 1) = Some frm
    /\ selected_format Samples.cfg_script 0 = Some fmt
    /\ selected_frame Samples.cfg_script 0 200 = Some frm.
Proof.
  apply (fill_indices_designate_selection Samples.cfg_script 0 200 250000).
  - reflexivity.
  - lia.
  - lia.
Defined.

(** X3.  With at most 255 formats, the format index of the block does
    not decrease when the requested index (read as unsigned) increases;
    a request of 0 gives format 1, and any request of [num_formats] or
    more gives the last format. *)
Theorem fill_format_index_monotone cfg a b iframe ival :
  config_ok cfg = true ->
  num_formats cfg <= 255 ->
  0 <= a <= b -> b <= UINT_MAX ->
  exists ca cb,
    uvc_fill_streaming_control cfg a iframe ival = Some ca
    /\ uvc_fill_streaming_control cfg b iframe ival = Some cb
    /\ bFormatIndex ca <= bFormatIndex cb
    /\ (num_formats cfg <= b -> bFormatIndex cb = num_formats cfg)
    /\ (a = 0 -> bFormatIndex ca = 1).
Proof.
  intros Hok Hn255 Hab Hb.
  destruct (fill_total cfg a iframe ival Hok)
    as (ca & _ & _ & Ea & _ & _ & _ & _ & _ & Ha1 & _).
  destruct (fill_total cfg b iframe ival Hok)
    as (cb & _ & _ & Eb & _ & _ & _ & _ & _ & Hb1 & _).
  assert (Hn : 1 <= num_formats cfg <= INT_MAX)
    by (unfold config_ok in Hok; split_andb; lia).
  pose proof (index_range a _ Hn) as Ra. pose proof (index_range b _ Hn) as Rb.
  destruct (index_monotone a b _ Hn Hab Hb) as (Hle & Hlast & Hfirst).
  unfold format_index in Ha1, Hb1.
  rewrite to_u8_small in Ha1, Hb1 by lia.
  exists ca, cb. rewrite Ha1, Hb1. auto.
Qed.

Lemma fill_format_index_monotone_witness :
  exists ca cb,
    uvc_fill_streaming_control Samples.cfg_script 0 1 0 = Some ca
    /\ uvc_fill_streaming_control Samples.cfg_script 9 1 0 = Some cb
    /\ bFormatIndex ca <= bFormatIndex cb
    /\ (num_formats Samples.cfg_script <= 9
        -> bFormatIndex cb = num_formats Samples.cfg_script)
    /\ (0 = 0 -> bFormatIndex ca = 1).
Proof.
  apply (fill_format_index_monotone Samples.cfg_script 0 9 1 0).
  - reflexivity.
  - vm_compute. discriminate.
  - lia.
  - unfold UINT_MAX. lia.
Defined.

(** X4.  When every frame declares its intervals in ascending order and
    the counts fit one byte, a block produced by the fill algorithm is a
    fixed point of it: filling again from the block's own format index,
    frame index and interval gives the same block. *)
Theorem fill_refill_fixed_point cfg iformat iframe ival :
  config_ok cfg = true ->
  counts_fit_byte cfg = true ->
  intervals_ascending cfg = true ->
  exists ctrl,
    uvc_fill_streaming_control cfg iformat iframe ival = Some ctrl
    /\ uvc_fill_streaming_control cfg (bFormatIndex ctrl) (bFrameIndex ctrl)
         (dwFrameInterval ctrl) = Some ctrl.
Proof.
  intros Hok Hfit Hasc.
  destruct (selected_format_total cfg iformat Hok) as (fmt & Hsf & Hfok & Hfi).
  destruct (frame_total fmt iframe Hfok) as (frm & Hsr & Hrok & Hri).
  pose proof (frame_ok_nonempty frm Hrok) as Hne.
  destruct (fill_unfold cfg iformat iframe ival fmt frm Hsf Hsr Hne)
    as (r & Hr & E).
  pose proof (array_at_Some _ _ _ Hsf) as [_ Hfin].
  pose proof (array_at_Some _ _ _ Hsr) as [_ Hrin].
  destruct (counts_fit_byte_In cfg fmt Hfit) as [Hn255 Hm255].
  specialize (Hm255 Hfin).
  assert (Hn : 1 <= num_formats cfg <= INT_MAX)
    by (unfold config_ok in Hok; split_andb; lia).
  assert (Hm : 1 <= num_frames fmt <= INT_MAX)
    by (unfold format_ok in Hfok; split_andb; lia).
  eexists. split; [exact E|].
  cbn [filled_block bFormatIndex bFrameIndex dwFrameInterval].
  rewrite !to_u8_small by lia.
  assert (Hfi' : format_index cfg (format_index cfg iformat)
                 = format_index cfg iformat)
    by (apply index_identity; lia).
  assert (Hsf' : selected_format cfg (format_index cfg iformat) = Some fmt)
    by (unfold selected_format; rewrite Hfi'; exact Hsf).
  assert (Hri' : frame_index fmt (frame_index fmt iframe)
                 = frame_index fmt iframe)
    by (apply index_identity; lia).
  assert (Hsr' : array_at (frames fmt)
                   (frame_index fmt (frame_index fmt iframe) - 1) = Some frm)
    by (rewrite Hri'; exact Hsr).
  destruct (fill_unfold cfg (format_index cfg iformat) (frame_index fmt iframe)
              r fmt frm Hsf' Hsr' Hne) as (r' & Hr' & E').
  rewrite E', Hfi', Hri'.
  assert (r' = r) as ->; [|reflexivity].
  eapply first_fit_of_member; eauto.
  - eapply intervals_ascending_In; eauto.
  - eapply first_fit_or_last_In; eauto.
Qed.

Lemma fill_refill_fixed_point_witness :
  exists ctrl,
    uvc_fill_streaming_control Samples.cfg_script (-1) 2 250000 = Some ctrl
    /\ uvc_fill_streaming_control Samples.cfg_script (bFormatIndex ctrl)
         (bFrameIndex ctrl) (dwFrameInterval ctrl) = Some ctrl.
Proof.
  apply (fill_refill_fixed_point Samples.cfg_script (-1) 2 250000);
    reflexivity.
Defined.

(** X5.  The fill algorithm has no guard for an empty array: with no
    format, with a selected format that has no frame, or with a selected
    frame that has no interval, it indexes outside the array and no block
    is defined. *)
Theorem fill_without_guard cfg iformat iframe ival :
  formats cfg = []
  \/ (exists fmt, selected_format cfg iformat = Some fmt /\ frames fmt = [])
  \/ (exists frm, selected_frame cfg iformat iframe = Some frm
                  /\ intervals frm = []) ->
  uvc_fill_streaming_control cfg iformat iframe ival = None.
Proof.
  unfold uvc_fill_streaming_control.
  intros [Hnil|[(fmt & Hsf & Hnil)|(frm & Hsel & Hnil)]].
  - rewrite Hnil. unfold array_at.
    destruct (_ <? 0); [reflexivity|]. now rewrite nth_error_nil.
  - unfold selected_format, format_index in Hsf. rewrite Hsf. cbn [obind].
    rewrite Hnil. unfold array_at.
    destruct (_ <? 0); [reflexivity|]. now rewrite nth_error_nil.
  - apply selected_frame_inv in Hsel as (fmt & Hsf & Hsr).
    unfold selected_format, format_index in Hsf. rewrite Hsf. cbn [obind].
    unfold frame_index in Hsr. rewrite Hsr. cbn [obind].
    unfold num_intervals. rewrite Hnil. reflexivity.
Qed.

Lemma fill_without_guard_witness :
  uvc_fill_streaming_control
    (Samples.config_of
       [ {| fcc := V4L2_PIX_FMT_YUYV;
            frames := [ Samples.frame_of 640 360 [] ] |} ]) 1 1 0 = None.
Proof.
  apply (fill_without_guard
           (Samples.config_of
              [ {| fcc := V4L2_PIX_FMT_YUYV;
                   frames := [ Samples.frame_of 640 360 [] ] |} ]) 1 1 0).
  right. right. exists (Samples.frame_of 640 360 []).
  split; reflexivity.
Defined.

(** X6.  For a selected format whose FourCC is neither YUYV nor MJPEG
    the size switch has no case: the block is produced with
    [dwMaxVideoFrameSize = 0]. *)
Theorem fill_unknown_fourcc_size_zero cfg iformat iframe ival fmt frm :
  selected_format cfg iformat = Some fmt ->
  selected_frame cfg iformat iframe = Some frm ->
  intervals frm <> [] ->
  fcc fmt <> V4L2_PIX_FMT_YUYV ->
  fcc fmt <> V4L2_PIX_FMT_MJPEG ->
  exists ctrl,
    uvc_fill_streaming_control cfg iformat iframe ival = Some ctrl
    /\ dwMaxVideoFrameSize ctrl = 0.
Proof.
  intros Hsf Hsel Hne Hy Hm.
  rewrite (selected_frame_unfold _ _ _ _ Hsf) in Hsel.
  destruct (fill_selected cfg iformat iframe ival fmt frm Hsf Hsel Hne)
    as (ctrl & E & _ & _ & _ & Hsz).
  exists ctrl. split; [exact E|]. rewrite Hsz.
  destruct (Z.eqb_spec (fcc fmt) V4L2_PIX_FMT_YUYV); [contradiction|].
  destruct (Z.eqb_spec (fcc fmt) V4L2_PIX_FMT_MJPEG); [contradiction|].
  reflexivity.
Qed.

Lemma fill_unknown_fourcc_size_zero_witness :
  exists ctrl,
    uvc_fill_streaming_control
      (Samples.config_of
         [ {| fcc := v4l2_fourcc 78 86 49 50;
              frames := [ Samples.frame_of 640 360 Samples.script_intervals ] |} ])
      1 1 0 = Some ctrl
    /\ dwMaxVideoFrameSize ctrl = 0.
Proof.
  apply (fill_unknown_fourcc_size_zero
           (Samples.config_of
              [ {| fcc := v4l2_fourcc 78 86 49 50;
                   frames := [ Samples.frame_of 640 360
                                 Samples.script_intervals ] |} ])
           1 1 0
           {| fcc := v4l2_fourcc 78 86 49 50;
              frames := [ Samples.frame_of 640 360 Samples.script_intervals ] |}
           (Samples.frame_of 640 360 Samples.script_intervals)).
  - reflexivity.
  - reflexivity.
  - discriminate.
  - vm_compute. discriminate.
  - vm_compute. discriminate.
Defined.

(** ** SETUP events *)

Lemma length_set_byte i b buf : length (set_byte i b buf) = length buf.
Proof.
  revert i. induction buf as [|x buf IH]; intros [|i]; cbn [set_byte length];
    auto.
Qed.

(** The streaming responder on a well-formed configuration: it always
    answers, keeps the response buffer at its size and the negotiated
    state as it is, and changes the device only for SET_CUR. *)
Lemma streaming_invariants dev req cs resp :
  config_ok (fc dev) = true ->
  length (req_data resp) = 60%nat ->
  exists dev' resp',
    uvc_events_process_streaming dev req cs resp = Some (dev', resp')
    /\ length (req_data resp') = 60%nat
    /\ (dev' = dev \/ (req = UVC_SET_CUR /\ dev' = set_control dev cs)).
Proof.
  intros Hok Hlen. unfold uvc_events_process_streaming.
  destruct (negb (cs =? UVC_VS_PROBE_CONTROL)
            && negb (cs =? UVC_VS_COMMIT_CONTROL)).
  { exists dev, resp. auto. }
  destruct (Z.eqb_spec req UVC_SET_CUR) as [->|Hs].
  { do 2 eexists. split; [reflexivity|]. cbn [req_data set_length]. auto. }
  destruct (req =? UVC_GET_CUR).
  { destruct (cs =? UVC_VS_PROBE_CONTROL); do 2 eexists;
      (split; [reflexivity|]); cbn [req_data set_data set_length];
      rewrite length_write_prefix; auto. }
  destruct ((req =? UVC_GET_MIN) || (req =? UVC_GET_MAX) || (req =? UVC_GET_DEF)).
  { destruct (fill_total (fc dev) (-1) (-1) UINT_MAX Hok) as (m & _ & _ & Em & _).
    destruct (fill_total (fc dev) 1 1 0 Hok) as (p & _ & _ & Ep & _).
    destruct (req =? UVC_GET_MAX); [rewrite Em|rewrite Ep]; cbn [obind];
      do 2 eexists; (split; [reflexivity|]);
      cbn [req_data set_data set_length]; rewrite length_write_prefix; auto. }
  destruct (req =? UVC_GET_RES).
  { do 2 eexists. split; [reflexivity|]. cbn [req_data set_data set_length].
    rewrite length_write_prefix. auto. }
  destruct (req =? UVC_GET_LEN).
  { do 2 eexists. split; [reflexivity|]. cbn [req_data set_data set_length].
    rewrite !length_set_byte. auto. }
  destruct (req =? UVC_GET_INFO).
  { do 2 eexists. split; [reflexivity|]. cbn [req_data set_data set_length].
    rewrite !length_set_byte. auto. }
  do 2 eexists. split; [reflexivity|]. cbn [req_data set_length]. auto.
Qed.

(** X7.  On a well-formed configuration every SETUP event is answered
    exactly once, from a response buffer of 60 bytes, and leaves the
    configuration, the probe block, the commit block and the recorded
    format as they were: a SETUP event can only change the pending
    control. *)
Theorem setup_keeps_negotiated_state dev (r : usb_ctrlrequest) :
  config_ok (fc dev) = true ->
  exists c resp,
    uvc_events_process dev (UVC_EVENT_SETUP r)
    = Some (set_control dev c, [SendResponse resp])
    /\ length (req_data resp) = 60%nat.
Proof.
  intros Hok. cbn [uvc_events_process]. unfold uvc_events_process_setup.
  destruct (_ =? USB_TYPE_STANDARD).
  { cbn [obind fst snd]. do 2 eexists. split; reflexivity. }
  destruct (_ =? USB_TYPE_CLASS);
    [|cbn [obind fst snd]; do 2 eexists; split; reflexivity].
  unfold uvc_events_process_class.
  destruct (negb _);
    [cbn [obind fst snd]; do 2 eexists; split; reflexivity|].
  destruct (_ =? control_bInterfaceNumber _).
  { cbn [obind fst snd]. do 2 eexists. split; [reflexivity|].
    unfold uvc_events_process_control. cbn [req_data set_data set_length].
    rewrite length_set_byte. reflexivity. }
  destruct (_ =? streaming_bInterfaceNumber _);
    [|cbn [obind fst snd]; do 2 eexists; split; reflexivity].
  destruct (streaming_invariants (set_control dev 0)
              (to_u8 (bRequest r)) (to_u8 (Z.shiftr (wValue r) 8)) resp_init
              Hok eq_refl) as (dev' & resp' & E & Hlen & Hdev).
  rewrite E. cbn [obind fst snd].
  destruct Hdev as [-> | [_ ->]].
  - exists 0, resp'. split; [reflexivity|exact Hlen].
  - exists (to_u8 (Z.shiftr (wValue r) 8)), resp'.
    split; [reflexivity|exact Hlen].
Qed.

Lemma setup_keeps_negotiated_state_witness :
  exists c resp,
    uvc_events_process (Samples.booted Samples.cfg_script)
      (UVC_EVENT_SETUP (Samples.class_request true UVC_GET_MAX 1 1 34))
    = Some (set_control (Samples.booted Samples.cfg_script) c,
            [SendResponse resp])
    /\ length (req_data resp) = 60%nat.
Proof.
  apply (setup_keeps_negotiated_state (Samples.booted Samples.cfg_script)
           (Samples.class_request true UVC_GET_MAX 1 1 34)).
  reflexivity.
Defined.

(** X8.  Requests that the code does not process are still answered, with
    the length [-EL2HLT] set before the dispatch and an all-zero buffer:
    requests whose type is not "class" (standard, vendor), class requests
    whose recipient is not an interface, and class requests to an
    interface that is neither the control nor the streaming interface.
    They clear the pending control. *)
Theorem unprocessed_request_answer dev (r : usb_ctrlrequest) :
  Z.land (bRequestType r) USB_TYPE_MASK <> USB_TYPE_CLASS
  \/ Z.land (bRequestType r) USB_RECIP_MASK <> USB_RECIP_INTERFACE
  \/ (Z.land (wIndex r) 0xff <> control_bInterfaceNumber (fc dev)
      /\ Z.land (wIndex r) 0xff <> streaming_bInterfaceNumber (fc dev)) ->
  uvc_events_process dev (UVC_EVENT_SETUP r)
  = Some (set_control dev 0,
          [SendResponse {| req_length := - EL2HLT; req_data := repeat 0 60 |}]).
Proof.
  intros H. cbn [uvc_events_process]. unfold uvc_events_process_setup.
  destruct (_ =? USB_TYPE_STANDARD); [reflexivity|].
  destruct (Z.eqb_spec (Z.land (bRequestType r) USB_TYPE_MASK) USB_TYPE_CLASS)
    as [Hc|Hc]; [|reflexivity].
  unfold uvc_events_process_class. cbn [fc set_control].
  destruct (Z.eqb_spec (Z.land (bRequestType r) USB_RECIP_MASK)
                       USB_RECIP_INTERFACE) as [Hr|Hr]; [|reflexivity].
  cbn [negb].
  destruct (Z.eqb_spec (Z.land (wIndex r) 255) (control_bInterfaceNumber (fc dev)));
    [tauto|].
  destruct (Z.eqb_spec (Z.land (wIndex r) 255) (streaming_bInterfaceNumber (fc dev)));
    [tauto|].
  reflexivity.
Qed.

Lemma unprocessed_request_answer_witness :
  uvc_events_process (Samples.booted Samples.cfg_script)
    (UVC_EVENT_SETUP {| bRequestType := 0x80; bRequest := 6; wValue := 0x0100;
                        wIndex := 0; wLength := 18 |})
  = Some (set_control (Samples.booted Samples.cfg_script) 0,
          [SendResponse {| req_length := - EL2HLT; req_data := repeat 0 60 |}]).
Proof.
  apply (unprocessed_request_answer (Samples.booted Samples.cfg_script)
           {| bRequestType := 0x80; bRequest := 6; wValue := 0x0100;
              wIndex := 0; wLength := 18 |}).
  left. vm_compute. discriminate.
Defined.

(** X9.  A class request to the streaming interface whose control
    selector ([wValue >> 8]) is neither PROBE nor COMMIT is not processed,
    whatever the request code: it is answered with length [-EL2HLT] and
    an all-zero buffer; in particular a SET_CUR on such a selector records
    no pending control. *)
Theorem streaming_invalid_selector_ignored dev (r : usb_ctrlrequest) :
  Z.land (bRequestType r) USB_TYPE_MASK = USB_TYPE_CLASS ->
  Z.land (bRequestType r) USB_RECIP_MASK = USB_RECIP_INTERFACE ->
  Z.land (wIndex r) 0xff = streaming_bInterfaceNumber (fc dev) ->
  streaming_bInterfaceNumber (fc dev) <> control_bInterfaceNumber (fc dev) ->
  to_u8 (Z.shiftr (wValue r) 8) <> UVC_VS_PROBE_CONTROL ->
  to_u8 (Z.shiftr (wValue r) 8) <> UVC_VS_COMMIT_CONTROL ->
  uvc_events_process dev (UVC_EVENT_SETUP r)
  = Some (set_control dev 0,
          [SendResponse {| req_length := - EL2HLT; req_data := repeat 0 60 |}]).
Proof.
  intros Ht Hr Hi Hne Hp Hc.
  rewrite (setup_reaches_streaming dev r Ht Hr Hi Hne).
  unfold streaming_request, uvc_events_process_streaming.
  destruct (Z.eqb_spec (to_u8 (Z.shiftr (wValue r) 8)) UVC_VS_PROBE_CONTROL);
    [contradiction|].
  destruct (Z.eqb_spec (to_u8 (Z.shiftr (wValue r) 8)) UVC_VS_COMMIT_CONTROL);
    [contradiction|].
  reflexivity.
Qed.

Lemma streaming_invalid_selector_ignored_witness :
  uvc_events_process (Samples.booted Samples.cfg_script)
    (UVC_EVENT_SETUP (Samples.class_request false UVC_SET_CUR 3 1 34))
  = Some (set_control (Samples.booted Samples.cfg_script) 0,
          [SendResponse {| req_length := - EL2HLT; req_data := repeat 0 60 |}]).
Proof.
  apply (streaming_invalid_selector_ignored
           (Samples.booted Samples.cfg_script)
           (Samples.class_request false UVC_SET_CUR 3 1 34));
    try reflexivity; vm_compute; discriminate.
Defined.

(** X10.  A SET_CUR request to the streaming interface with selector
    PROBE or COMMIT records that selector as the pending control, alters
    nothing else in the device, and is answered with length 34 and an
    all-zero buffer. *)
Theorem set_cur_records_selector dev (r : usb_ctrlrequest) :
  Z.land (bRequestType r) USB_TYPE_MASK = USB_TYPE_CLASS ->
  Z.land (bRequestType r) USB_RECIP_MASK = USB_RECIP_INTERFACE ->
  Z.land (wIndex r) 0xff = streaming_bInterfaceNumber (fc dev) ->
  streaming_bInterfaceNumber (fc dev) <> control_bInterfaceNumber (fc dev) ->
  to_u8 (bRequest r) = UVC_SET_CUR ->
  to_u8 (Z.shiftr (wValue r) 8) = UVC_VS_PROBE_CONTROL
  \/ to_u8 (Z.shiftr (wValue r) 8) = UVC_VS_COMMIT_CONTROL ->
  uvc_events_process dev (UVC_EVENT_SETUP r)
  = Some (set_control dev (to_u8 (Z.shiftr (wValue r) 8)),
          [SendResponse {| req_length := 34; req_data := repeat 0 60 |}]).
Proof.
  intros Ht Hr Hi Hne Hs Hcs.
  rewrite (setup_reaches_streaming dev r Ht Hr Hi Hne), Hs.
  unfold streaming_request, uvc_events_process_streaming.
  destruct Hcs as [-> | ->]; reflexivity.
Qed.

Lemma set_cur_records_selector_witness :
  uvc_events_process (Samples.booted Samples.cfg_script)
    (UVC_EVENT_SETUP (Samples.class_request false UVC_SET_CUR 2 1 34))
  = Some (set_control (Samples.booted Samples.cfg_script)
            (to_u8 (Z.shiftr
                      (wValue (Samples.class_request false UVC_SET_CUR 2 1 34))
                      8)),
          [SendResponse {| req_length := 34; req_data := repeat 0 60 |}]).
Proof.
  apply (set_cur_records_selector (Samples.booted Samples.cfg_script)
           (Samples.class_request false UVC_SET_CUR 2 1 34));
    try reflexivity.
  - vm_compute. discriminate.
  - right. reflexivity.
Defined.

(** ** DATA events *)

Lemma process_data_discard dev data :
  control dev <> UVC_VS_PROBE_CONTROL ->
  control dev <> UVC_VS_COMMIT_CONTROL ->
  uvc_events_process_data dev data = Some (dev, []).
Proof.
  intros Hp Hc. unfold uvc_events_process_data.
  destruct (Z.eqb_spec (control dev) UVC_VS_PROBE_CONTROL); [contradiction|].
  destruct (Z.eqb_spec (control dev) UVC_VS_COMMIT_CONTROL); [contradiction|].
  reflexivity.
Qed.

Lemma process_data_probe dev data :
  config_ok (fc dev) = true ->
  control dev = UVC_VS_PROBE_CONTROL ->
  exists target,
    uvc_fill_streaming_control (fc dev)
      (bFormatIndex (decode (req_data data)))
      (bFrameIndex (decode (req_data data)))
      (dwFrameInterval (decode (req_data data))) = Some target
    /\ uvc_events_process_data dev data = Some (set_probe dev target, []).
Proof.
  intros Hok Hc.
  destruct (fill_total (fc dev) (bFormatIndex (decode (req_data data)))
              (bFrameIndex (decode (req_data data)))
              (dwFrameInterval (decode (req_data data))) Hok)
    as (target & _ & _ & E & _).
  exists target. split; [exact E|].
  unfold uvc_events_process_data. rewrite Hc, E.
  change (negb (UVC_VS_PROBE_CONTROL =? UVC_VS_PROBE_CONTROL)
          && negb (UVC_VS_PROBE_CONTROL =? UVC_VS_COMMIT_CONTROL)) with false.
  change (UVC_VS_PROBE_CONTROL =? UVC_VS_PROBE_CONTROL) with true.
  cbv iota. cbn [obind control set_probe]. rewrite Hc. reflexivity.
Qed.

Lemma process_data_commit_selected dev data :
  config_ok (fc dev) = true ->
  control dev = UVC_VS_COMMIT_CONTROL ->
  exists target fmt frm,
    uvc_fill_streaming_control (fc dev)
      (bFormatIndex (decode (req_data data)))
      (bFrameIndex (decode (req_data data)))
      (dwFrameInterval (decode (req_data data))) = Some target
    /\ selected_format (fc dev) (bFormatIndex (decode (req_data data)))
       = Some fmt
    /\ selected_frame (fc dev) (bFormatIndex (decode (req_data data)))
         (bFrameIndex (decode (req_data data))) = Some frm
    /\ In fmt (formats (fc dev)) /\ In frm (frames fmt)
    /\ In (dwFrameInterval target) (intervals frm)
    /\ dwMaxVideoFrameSize target
       = (if (fcc fmt =? V4L2_PIX_FMT_YUYV) || (fcc fmt =? V4L2_PIX_FMT_MJPEG)
          then to_uint (width frm * height frm * 2) else 0)
    /\ uvc_events_process_data dev data
       = (fps <- uvc_fps (dwFrameInterval target) ;;
          Some (set_format_fields (set_commit dev target)
                  (fcc fmt) (width frm) (height frm),
                [StreamSetFormat
                   {| V4L2.width := width frm;
                      V4L2.height := height frm;
                      V4L2.pixelformat := fcc fmt;
                      V4L2.field := V4L2_FIELD_NONE;
                      V4L2.sizeimage :=
                        (if fcc fmt =? V4L2_PIX_FMT_MJPEG
                         then dwMaxVideoFrameSize target else 0) |};
                 StreamSetFrameRate fps])).
Proof.
  intros Hok Hc.
  destruct (decode_byte_ranges (req_data data)) as [Hx Hy].
  set (x := bFormatIndex (decode (req_data data))) in *.
  set (y := bFrameIndex (decode (req_data data))) in *.
  set (z := dwFrameInterval (decode (req_data data))).
  destruct (selected_format_total (fc dev) x Hok) as (fmt & Hsf & Hfok & _).
  destruct (frame_total fmt y Hfok) as (frm & Hsr & Hrok & _).
  destruct (fill_selected (fc dev) x y z fmt frm Hsf Hsr
              (frame_ok_nonempty frm Hrok))
    as (target & E & Hfit & Hb1 & Hb2 & Hsz).
  assert (Hn : 1 <= num_formats (fc dev) <= INT_MAX)
    by (unfold config_ok in Hok; split_andb; lia).
  assert (Hm : 1 <= num_frames fmt <= INT_MAX)
    by (unfold format_ok in Hfok; split_andb; lia).
  pose proof (index_of_byte x _ Hx Hn) as Hfi.
  pose proof (index_of_byte y _ Hy Hm) as Hri.
  fold (format_index (fc dev) x) in Hfi. fold (frame_index fmt y) in Hri.
  rewrite to_u8_small in Hb1, Hb2 by lia.
  exists target, fmt, frm.
  split; [exact E|]. split; [exact Hsf|].
  split; [rewrite (selected_frame_unfold _ _ _ _ Hsf); exact Hsr|].
  split; [apply array_at_Some in Hsf; tauto|].
  split; [apply array_at_Some in Hsr; tauto|].
  split; [eapply first_fit_or_last_In; eauto|].
  split; [exact Hsz|].
  unfold uvc_events_process_data. rewrite Hc.
  change (negb (UVC_VS_COMMIT_CONTROL =? UVC_VS_PROBE_CONTROL)
          && negb (UVC_VS_COMMIT_CONTROL =? UVC_VS_COMMIT_CONTROL)) with false.
  change (UVC_VS_COMMIT_CONTROL =? UVC_VS_PROBE_CONTROL) with false.
  cbv iota. fold x y z. rewrite E. cbn [obind control set_commit fc].
  rewrite Hc. change (UVC_VS_COMMIT_CONTROL =? UVC_VS_COMMIT_CONTROL) with true.
  cbv iota. rewrite Hb1. unfold selected_format in Hsf. rewrite Hsf.
  cbn [obind]. rewrite Hb2, Hsr. cbn [obind]. reflexivity.
Qed.

Lemma slice_write_prefix_encode c :
  slice 0 34 (write_prefix (encode c) (repeat 0 60)) = encode c.
Proof.
  rewrite write_prefix_encode by (rewrite repeat_length; lia).
  unfold slice. cbn [skipn]. rewrite <- (length_encode c).
  rewrite firstn_app, Nat.sub_diag, firstn_all. cbn [firstn].
  apply app_nil_r.
Qed.

Lemma land_byte s : 0 <= s <= 255 -> Z.land s 0xff = s.
Proof.
  intros H. change 0xff with (Z.ones 8). rewrite Z.land_ones by lia.
  apply Z.mod_small. change (2 ^ 8) with 256. lia.
Qed.

(** X11.  A DATA event with PROBE pending fills the probe block from the
    format index, frame index and interval of the payload and does
    nothing else: the commit block and the recorded format stay as they
    were, nothing is asked of the stream and no response is sent. *)
Theorem probe_data_updates_probe_only dev data :
  config_ok (fc dev) = true ->
  control dev = UVC_VS_PROBE_CONTROL ->
  exists target,
    uvc_fill_streaming_control (fc dev)
      (bFormatIndex (decode (req_data data)))
      (bFrameIndex (decode (req_data data)))
      (dwFrameInterval (decode (req_data data))) = Some target
    /\ uvc_events_process dev (UVC_EVENT_DATA data)
       = Some (set_probe dev target, []).
Proof.
  intros Hok Hc. cbn [uvc_events_process].
  apply process_data_probe; assumption.
Qed.

Lemma probe_data_updates_probe_only_witness :
  exists target,
    uvc_fill_streaming_control Samples.cfg_script
      (bFormatIndex (decode (req_data (Samples.payload 1 2 250000))))
      (bFrameIndex (decode (req_data (Samples.payload 1 2 250000))))
      (dwFrameInterval (decode (req_data (Samples.payload 1 2 250000))))
    = Some target
    /\ uvc_events_process
         (set_control (Samples.booted Samples.cfg_script) UVC_VS_PROBE_CONTROL)
         (UVC_EVENT_DATA (Samples.payload 1 2 250000))
       = Some (set_probe
                 (set_control (Samples.booted Samples.cfg_script)
                              UVC_VS_PROBE_CONTROL) target, []).
Proof.
  apply (probe_data_updates_probe_only
           (set_control (Samples.booted Samples.cfg_script) UVC_VS_PROBE_CONTROL)
           (Samples.payload 1 2 250000)); reflexivity.
Defined.

(** X12.  The data phase does not consume the pending control: after a
    DATA event has been applied to the probe block, a second DATA event
    that arrives without a new SET_CUR is applied to the probe block
    again. *)
Theorem data_does_not_consume_pending dev d1 d2 :
  config_ok (fc dev) = true ->
  control dev = UVC_VS_PROBE_CONTROL ->
  exists t1 t2,
    uvc_events_process dev (UVC_EVENT_DATA d1) = Some (set_probe dev t1, [])
    /\ uvc_fill_streaming_control (fc dev)
         (bFormatIndex (decode (req_data d2)))
         (bFrameIndex (decode (req_data d2)))
         (dwFrameInterval (decode (req_data d2))) = Some t2
    /\ uvc_events_process (set_probe dev t1) (UVC_EVENT_DATA d2)
       = Some (set_probe dev t2, []).
Proof.
  intros Hok Hc. cbn [uvc_events_process].
  destruct (process_data_probe dev d1 Hok Hc) as (t1 & _ & E1).
  destruct (process_data_probe (set_probe dev t1) d2 Hok Hc) as (t2 & F2 & E2).
  exists t1, t2. split; [exact E1|]. split; [exact F2|]. exact E2.
Qed.

Lemma data_does_not_consume_pending_witness :
  exists t1 t2,
    uvc_events_process
      (set_control (Samples.booted Samples.cfg_script) UVC_VS_PROBE_CONTROL)
      (UVC_EVENT_DATA (Samples.payload 1 2 250000))
    = Some (set_probe (set_control (Samples.booted Samples.cfg_script)
                                   UVC_VS_PROBE_CONTROL) t1, [])
    /\ uvc_fill_streaming_control Samples.cfg_script
         (bFormatIndex (decode (req_data (Samples.payload 1 3 0))))
         (bFrameIndex (decode (req_data (Samples.payload 1 3 0))))
         (dwFrameInterval (decode (req_data (Samples.payload 1 3 0))))
       = Some t2
    /\ uvc_events_process
         (set_probe (set_control (Samples.booted Samples.cfg_script)
                                 UVC_VS_PROBE_CONTROL) t1)
         (UVC_EVENT_DATA (Samples.payload 1 3 0))
       = Some (set_probe (set_control (Samples.booted Samples.cfg_script)
                                      UVC_VS_PROBE_CONTROL) t2, []).
Proof.
  apply (data_does_not_consume_pending
           (set_control (Samples.booted Samples.cfg_script) UVC_VS_PROBE_CONTROL)
           (Samples.payload 1 2 250000) (Samples.payload 1 3 0)); reflexivity.
Defined.

(** X13.  SET_CUR(PROBE), then DATA, then GET_CUR(PROBE), each addressed
    to the streaming interface: the SET_CUR is answered with length 34,
    the DATA event stores the block filled from the payload, and GET_CUR
    returns exactly that block in its first 34 bytes, the commit block
    being untouched throughout. *)
Theorem probe_set_cur_data_get_cur dev data :
  config_ok (fc dev) = true ->
  0 <= streaming_bInterfaceNumber (fc dev) <= 255 ->
  streaming_bInterfaceNumber (fc dev) <> control_bInterfaceNumber (fc dev) ->
  let s := streaming_bInterfaceNumber (fc dev) in
  let dev1 := set_control dev UVC_VS_PROBE_CONTROL in
  exists target resp,
    uvc_events_process dev
      (UVC_EVENT_SETUP
         (Samples.class_request false UVC_SET_CUR UVC_VS_PROBE_CONTROL s 34))
    = Some (dev1, [SendResponse {| req_length := 34;
                                   req_data := repeat 0 60 |}])
    /\ uvc_fill_streaming_control (fc dev)
         (bFormatIndex (decode (req_data data)))
         (bFrameIndex (decode (req_data data)))
         (dwFrameInterval (decode (req_data data))) = Some target
    /\ uvc_events_process dev1 (UVC_EVENT_DATA data)
       = Some (set_probe dev1 target, [])
    /\ uvc_events_process (set_probe dev1 target)
         (UVC_EVENT_SETUP
            (Samples.class_request true UVC_GET_CUR UVC_VS_PROBE_CONTROL s 34))
       = Some (set_probe (set_control dev 0) target, [SendResponse resp])
    /\ req_length resp = 34
    /\ slice 0 34 (req_data resp) = encode target
    /\ commit (set_probe dev1 target) = commit dev.
Proof.
  intros Hok Hs Hne s dev1.
  destruct (process_data_probe dev1 data Hok eq_refl) as (target & F & E).
  exists target. eexists.
  split.
  { rewrite setup_reaches_streaming;
      [reflexivity|reflexivity|reflexivity| |exact Hne].
    cbn [wIndex Samples.class_request]. apply land_byte. exact Hs. }
  split; [exact F|].
  split; [exact E|].
  split.
  { rewrite setup_reaches_streaming;
      [reflexivity|reflexivity|reflexivity| |exact Hne].
    cbn [wIndex Samples.class_request fc set_probe set_control dev1].
    apply land_byte. exact Hs. }
  cbn [req_length req_data snd probe set_probe set_control commit dev1].
  split; [reflexivity|]. split; [|reflexivity].
  apply slice_write_prefix_encode.
Qed.

Lemma probe_set_cur_data_get_cur_witness :
  let dev := Samples.booted Samples.cfg_script in
  let data := Samples.payload 1 2 250000 in
  let s := streaming_bInterfaceNumber (fc dev) in
  let dev1 := set_control dev UVC_VS_PROBE_CONTROL in
  exists target resp,
    uvc_events_process dev
      (UVC_EVENT_SETUP
         (Samples.class_request false UVC_SET_CUR UVC_VS_PROBE_CONTROL s 34))
    = Some (dev1, [SendResponse {| req_length := 34;
                                   req_data := repeat 0 60 |}])
    /\ uvc_fill_streaming_control (fc dev)
         (bFormatIndex (decode (req_data data)))
         (bFrameIndex (decode (req_data data)))
         (dwFrameInterval (decode (req_data data))) = Some target
    /\ uvc_events_process dev1 (UVC_EVENT_DATA data)
       = Some (set_probe dev1 target, [])
    /\ uvc_events_process (set_probe dev1 target)
         (UVC_EVENT_SETUP
            (Samples.class_request true UVC_GET_CUR UVC_VS_PROBE_CONTROL s 34))
       = Some (set_probe (set_control dev 0) target, [SendResponse resp])
    /\ req_length resp = 34
    /\ slice 0 34 (req_data resp) = encode target
    /\ commit (set_probe dev1 target) = commit dev.
Proof.
  apply (probe_set_cur_data_get_cur (Samples.booted Samples.cfg_script)
           (Samples.payload 1 2 250000)).
  - reflexivity.
  - vm_compute. split; discriminate.
  - vm_compute. discriminate.
Defined.

(** X14.  A SETUP event cancels a pending control: after any SETUP event
    whose request code is not SET_CUR - whatever was pending before it -
    a DATA event is discarded and changes nothing. *)
Theorem setup_cancels_pending_control dev (r : usb_ctrlrequest) dev1 calls data :
  uvc_events_process dev (UVC_EVENT_SETUP r) = Some (dev1, calls) ->
  to_u8 (bRequest r) <> UVC_SET_CUR ->
  control dev1 = 0
  /\ uvc_events_process dev1 (UVC_EVENT_DATA data) = Some (dev1, []).
Proof.
  intros E Hs.
  destruct (setup_clears_pending_control dev r dev1 calls E) as [H0|[H _]];
    [|contradiction].
  split; [exact H0|]. cbn [uvc_events_process].
  apply process_data_discard; rewrite H0; discriminate.
Qed.

Lemma setup_cancels_pending_control_witness :
  control (Samples.booted Samples.cfg_script) = 0
  /\ uvc_events_process (Samples.booted Samples.cfg_script)
       (UVC_EVENT_DATA (Samples.payload 1 2 250000))
     = Some (Samples.booted Samples.cfg_script, []).
Proof.
  apply (setup_cancels_pending_control
           (set_control (Samples.booted Samples.cfg_script) UVC_VS_COMMIT_CONTROL)
           (Samples.class_request true UVC_GET_INFO 1 1 1)
           (Samples.booted Samples.cfg_script)
           [SendResponse {| req_length := 1;
                            req_data := 0x03 :: repeat 0 59 |}]
           (Samples.payload 1 2 250000)).
  - vm_compute. reflexivity.
  - vm_compute. discriminate.
Defined.

(** X15.  A DATA event with COMMIT pending, on a configuration whose
    intervals lie between 3201 and 10000000: the format given to the
    stream and recorded in the device is the selected frame's width and
    height with the selected format's FourCC and field "none";
    [sizeimage] is width x height x 2 (modulo 2^32) for MJPEG and 0
    otherwise; the probe block is not touched and COMMIT stays pending. *)
Theorem commit_applies_selected_frame dev data :
  config_ok (fc dev) = true ->
  intervals_within 3201 10000000 (fc dev) = true ->
  control dev = UVC_VS_COMMIT_CONTROL ->
  exists dev' fps fmt frm,
    uvc_events_process dev (UVC_EVENT_DATA data)
    = Some (dev',
            [StreamSetFormat
               {| V4L2.width := width frm;
                  V4L2.height := height frm;
                  V4L2.pixelformat := fcc fmt;
                  V4L2.field := V4L2_FIELD_NONE;
                  V4L2.sizeimage :=
                    (if fcc fmt =? V4L2_PIX_FMT_MJPEG
                     then to_uint (width frm * height frm * 2) else 0) |};
             StreamSetFrameRate fps])
    /\ selected_format (fc dev) (bFormatIndex (decode (req_data data)))
       = Some fmt
    /\ selected_frame (fc dev) (bFormatIndex (decode (req_data data)))
         (bFrameIndex (decode (req_data data))) = Some frm
    /\ dev_fcc dev' = fcc fmt
    /\ dev_width dev' = width frm
    /\ dev_height dev' = height frm
    /\ probe dev' = probe dev
    /\ control dev' = UVC_VS_COMMIT_CONTROL.
Proof.
  intros Hok Hin Hc.
  destruct (process_data_commit_selected dev data Hok Hc)
    as (target & fmt & frm & E & Hsf & Hsr & Hf & Hr & Hi & Hsz & Hp).
  pose proof (intervals_within_In _ _ _ _ _ _ Hin Hf Hr Hi) as Hrange.
  pose proof (uvc_fps_integer_quotient _ Hrange) as Hfps.
  cbn [uvc_events_process]. rewrite Hp, Hfps. cbn [obind].
  do 2 eexists. exists fmt, frm.
  split.
  { rewrite Hsz.
    destruct (fcc fmt =? V4L2_PIX_FMT_MJPEG);
      [rewrite orb_true_r|]; reflexivity. }
  cbn [dev_fcc dev_width dev_height probe control set_format_fields set_commit].
  auto 10.
Qed.

Lemma commit_applies_selected_frame_witness :
  exists dev' fps fmt frm,
    uvc_events_process
      (set_control (Samples.booted Samples.cfg_script) UVC_VS_COMMIT_CONTROL)
      (UVC_EVENT_DATA (Samples.payload 1 2 250000))
    = Some (dev',
            [StreamSetFormat
               {| V4L2.width := width frm;
                  V4L2.height := height frm;
                  V4L2.pixelformat := fcc fmt;
                  V4L2.field := V4L2_FIELD_NONE;
                  V4L2.sizeimage :=
                    (if fcc fmt =? V4L2_PIX_FMT_MJPEG
                     then to_uint (width frm * height frm * 2) else 0) |};
             StreamSetFrameRate fps])
    /\ selected_format Samples.cfg_script
         (bFormatIndex (decode (req_data (Samples.payload 1 2 250000))))
       = Some fmt
    /\ selected_frame Samples.cfg_script
         (bFormatIndex (decode (req_data (Samples.payload 1 2 250000))))
         (bFrameIndex (decode (req_data (Samples.payload 1 2 250000))))
       = Some frm
    /\ dev_fcc dev' = fcc fmt
    /\ dev_width dev' = width frm
    /\ dev_height dev' = height frm
    /\ probe dev' = probe (Samples.booted Samples.cfg_script)
    /\ control dev' = UVC_VS_COMMIT_CONTROL.
Proof.
  apply (commit_applies_selected_frame
           (set_control (Samples.booted Samples.cfg_script)
                        UVC_VS_COMMIT_CONTROL)
           (Samples.payload 1 2 250000)); reflexivity.
Defined.

(** Every interval from 10000001 to 20000000, checked by evaluation: the
    rate agrees with the integer quotient, which is 0. *)
Lemma agrees_from_10000001 : agrees_block 10000000 10000001%uint63 = true.
Proof. vm_compute. reflexivity. Qed.

Lemma uvc_fps_zero_above_one_second iv :
  10000001 <= iv <= 20000000 -> uvc_fps iv = Some 0.
Proof.
  intros Hiv.
  assert (HwB : wB = 9223372036854775808) by reflexivity.
  replace 0 with (10000000 / iv) by (apply Z.div_small; lia).
  apply uvc_fps_of_agrees; [lia|].
  apply (agrees_block_sound 10000000 10000001%uint63 agrees_from_10000001).
  - change (Uint63.to_Z 10000001%uint63) with 10000001. lia.
  - rewrite Uint63.of_Z_spec, Z.mod_small by lia.
    change (Uint63.to_Z 10000001%uint63) with 10000001. lia.
Qed.

(** X16.  The comment at the frame-rate computation says that the rate
    "is guaranteed to be non-zero"; it is not: for every DATA event with
    COMMIT pending on a configuration whose intervals lie between
    10000001 and 20000000 (frame periods above one second, up to two),
    the stream is given the frame rate 0. *)
Theorem commit_frame_rate_zero dev data :
  config_ok (fc dev) = true ->
  intervals_within 10000001 20000000 (fc dev) = true ->
  control dev = UVC_VS_COMMIT_CONTROL ->
  exists dev' pixfmt,
    uvc_events_process dev (UVC_EVENT_DATA data)
    = Some (dev', [StreamSetFormat pixfmt; StreamSetFrameRate 0]).
Proof.
  intros Hok Hin Hc.
  destruct (process_data_commit_selected dev data Hok Hc)
    as (target & fmt & frm & E & Hsf & Hsr & Hf & Hr & Hi & Hsz & Hp).
  pose proof (intervals_within_In _ _ _ _ _ _ Hin Hf Hr Hi) as Hrange.
  pose proof (uvc_fps_zero_above_one_second _ Hrange) as Hfps.
  cbn [uvc_events_process]. rewrite Hp, Hfps. cbn [obind].
  do 2 eexists. reflexivity.
Qed.

Lemma commit_frame_rate_zero_witness :
  exists dev' pixfmt,
    uvc_events_process
      (set_control
         (Samples.booted
            (Samples.config_of
               [ {| fcc := V4L2_PIX_FMT_YUYV;
                    frames := [ Samples.frame_of 640 480 [20000000] ] |} ]))
         UVC_VS_COMMIT_CONTROL)
      (UVC_EVENT_DATA (Samples.payload 1 1 333333))
    = Some (dev', [StreamSetFormat pixfmt; StreamSetFrameRate 0]).
Proof.
  apply (commit_frame_rate_zero
           (set_control
              (Samples.booted
                 (Samples.config_of
                    [ {| fcc := V4L2_PIX_FMT_YUYV;
                         frames := [ Samples.frame_of 640 480 [20000000] ] |} ]))
              UVC_VS_COMMIT_CONTROL)
           (Samples.payload 1 1 333333)); reflexivity.
Defined.

(** X17.  Nothing but the data phase of a COMMIT reaches the stream's
    format and frame rate: whenever processing an event asks the stream
    to set a format or a frame rate, the event is a DATA event and COMMIT
    was the pending control. *)
Theorem stream_format_only_from_commit_data dev ev dev' calls :
  uvc_events_process dev ev = Some (dev', calls) ->
  (exists pixfmt, In (StreamSetFormat pixfmt) calls)
  \/ (exists fps, In (StreamSetFrameRate fps) calls) ->
  (exists data, ev = UVC_EVENT_DATA data)
  /\ control dev = UVC_VS_COMMIT_CONTROL.
Proof.
  intros E Hin.
  destruct ev as [| |r|data| |]; cbn [uvc_events_process] in E.
  - injection E as <- <-. destruct Hin as [[? []]|[? []]].
  - injection E as <- <-. destruct Hin as [[? []]|[? []]].
  - destruct (uvc_events_process_setup dev r resp_init) as [[d x]|];
      [|discriminate]. cbn [obind fst snd] in E. injection E as <- <-.
    destruct Hin as [[? [H|[]]]|[? [H|[]]]]; discriminate H.
  - split; [eauto|]. unfold uvc_events_process_data in E.
    destruct (Z.eqb_spec (control dev) UVC_VS_COMMIT_CONTROL) as [Hc|Hc];
      [exact Hc|exfalso].
    destruct (Z.eqb_spec (control dev) UVC_VS_PROBE_CONTROL) as [Hp|Hp];
      cbn [negb andb] in E.
    + destruct (uvc_fill_streaming_control _ _ _ _) as [t|]; [|discriminate].
      cbn [obind control set_probe] in E.
      destruct (Z.eqb_spec (control dev) UVC_VS_COMMIT_CONTROL);
        [contradiction|].
      injection E as <- <-. destruct Hin as [[? []]|[? []]].
    + injection E as <- <-. destruct Hin as [[? []]|[? []]].
  - injection E as <- <-.
    destruct Hin as [[? [H|[]]]|[? [H|[]]]]; discriminate H.
  - injection E as <- <-.
    destruct Hin as [[? [H|[]]]|[? [H|[]]]]; discriminate H.
Qed.

Lemma stream_format_only_from_commit_data_witness :
  (exists data,
      UVC_EVENT_DATA (Samples.payload 1 2 250000) = UVC_EVENT_DATA data)
  /\ control (set_control (Samples.booted Samples.cfg_script)
                          UVC_VS_COMMIT_CONTROL) = UVC_VS_COMMIT_CONTROL.
Proof.
  apply (stream_format_only_from_commit_data
           (set_control (Samples.booted Samples.cfg_script)
                        UVC_VS_COMMIT_CONTROL)
           (UVC_EVENT_DATA (Samples.payload 1 2 250000))
           (set_format_fields
              (set_commit
                 (set_control (Samples.booted Samples.cfg_script)
                              UVC_VS_COMMIT_CONTROL)
                 (filled_block Samples.cfg_script 1 2
                    {| fcc := V4L2_PIX_FMT_YUYV;
                       frames :=
                         [ Samples.frame_of 640 360 Samples.script_intervals;
                           Samples.frame_of 1280 720 Samples.script_intervals;
                           Samples.frame_of 1920 1080 Samples.script_intervals ] |}
                    (Samples.frame_of 1280 720 Samples.script_intervals)
                    333333))
              V4L2_PIX_FMT_YUYV 1280 720)
           [StreamSetFormat
              {| V4L2.width := 1280; V4L2.height := 720;
                 V4L2.pixelformat := V4L2_PIX_FMT_YUYV;
                 V4L2.field := V4L2_FIELD_NONE; V4L2.sizeimage := 0 |};
            StreamSetFrameRate 30]).
  - vm_compute. reflexivity.
  - left. eexists. left. reflexivity.
Defined.

(** ** Request and control names *)

Lemma byte_in_seq (v : Z) :
  0 <= v <= 255 -> In (Z.to_nat v) (seq 0 256) /\ Z.of_nat (Z.to_nat v) = v.
Proof. intros H. split; [apply in_seq; lia|lia]. Qed.

Lemma request_names_checked :
  forallb (fun n => Names.request_name_check (Z.of_nat n)) (seq 0 256) = true.
Proof. vm_compute. reflexivity. Qed.

Lemma control_names_checked :
  forallb (fun n => Names.control_name_check (Z.of_nat n)) (seq 0 256) = true.
Proof. vm_compute. reflexivity. Qed.

Lemma is_null_spec name : Names.is_null name = true <-> name = None.
Proof. destruct name; cbn; split; congruence. Qed.

Lemma is_unknown_spec name :
  Names.is_unknown name = true <-> name = Some "UNKNOWN"%string.
Proof.
  destruct name as [s|]; cbn; [|split; discriminate].
  destruct (String.string_dec s "UNKNOWN"); split; congruence.
Qed.

(** X18.  [uvc_request_name], for every one-byte request code: the nine
    codes of the table get their own name; every other code below 0x88
    falls on an element of the table that has no initializer, and the
    function returns a null pointer for it; only from 0x88 on does it
    return "UNKNOWN". *)
Theorem uvc_request_name_cases req :
  0 <= req <= 255 ->
  (In req Names.named_requests ->
   exists s, Names.uvc_request_name req = Some s /\ s <> "UNKNOWN"%string)
  /\ (req < 0x88 -> ~ In req Names.named_requests ->
      Names.uvc_request_name req = None)
  /\ (0x88 <= req -> Names.uvc_request_name req = Some "UNKNOWN"%string).
Proof.
  intros Hreq. destruct (byte_in_seq req Hreq) as [Hin Hid].
  pose proof request_names_checked as Hall. rewrite forallb_forall in Hall.
  specialize (Hall _ Hin). rewrite Hid in Hall.
  unfold Names.request_name_check in Hall.
  destruct (Z.leb_spec 0x88 req) as [Hhi|Hlo].
  - apply is_unknown_spec in Hall. split; [|split].
    + intros Hn. exfalso. cbn in Hn.
      repeat (destruct Hn as [<-|Hn]; [vm_compute in Hhi; congruence|]).
      contradiction.
    + lia.
    + auto.
  - destruct (existsb (Z.eqb req) Names.named_requests) eqn:Ex.
    + apply andb_true_iff in Hall as [Hnn Hnu].
      split; [|split].
      * intros _. destruct (Names.uvc_request_name req) as [s|] eqn:E;
          [|discriminate Hnn].
        exists s. split; [reflexivity|]. intros ->.
        cbn in Hnu. discriminate Hnu.
      * intros _ Hnot. exfalso. apply Hnot.
        apply existsb_exists in Ex as (x & Hx & Heq).
        apply Z.eqb_eq in Heq. subst x. exact Hx.
      * lia.
    + apply is_null_spec in Hall. split; [|split].
      * intros Hn. exfalso.
        assert (existsb (Z.eqb req) Names.named_requests = true)
          by (apply existsb_exists; exists req; split;
              [exact Hn|apply Z.eqb_refl]).
        congruence.
      * auto.
      * lia.
Qed.

Lemma uvc_request_name_cases_witness :
  (In 2 Names.named_requests ->
   exists s, Names.uvc_request_name 2 = Some s /\ s <> "UNKNOWN"%string)
  /\ (2 < 0x88 -> ~ In 2 Names.named_requests ->
      Names.uvc_request_name 2 = None)
  /\ (0x88 <= 2 -> Names.uvc_request_name 2 = Some "UNKNOWN"%string).
Proof.
  apply (uvc_request_name_cases 2). lia.
Defined.

(** X19.  [pu_control_name], for every one-byte selector: the table has
    an initializer for every index from 0x00 to 0x12, so the function
    never returns a null pointer; it returns a name of the table below
    0x13 and "UNKNOWN" from 0x13 on. *)
Theorem pu_control_name_cases cs :
  0 <= cs <= 255 ->
  exists s,
    Names.pu_control_name cs = Some s
    /\ (s = "UNKNOWN"%string <-> 0x13 <= cs).
Proof.
  intros Hcs. destruct (byte_in_seq cs Hcs) as [Hin Hid].
  pose proof control_names_checked as Hall. rewrite forallb_forall in Hall.
  specialize (Hall _ Hin). rewrite Hid in Hall.
  unfold Names.control_name_check in Hall.
  destruct (Z.leb_spec 0x13 cs) as [Hhi|Hlo].
  - apply is_unknown_spec in Hall. exists "UNKNOWN"%string.
    split; [exact Hall|]. tauto.
  - apply andb_true_iff in Hall as [Hnn Hnu].
    destruct (Names.pu_control_name cs) as [s|] eqn:E; [|discriminate Hnn].
    exists s. split; [reflexivity|]. split; [|lia].
    intros ->. cbn in Hnu. discriminate Hnu.
Qed.

Lemma pu_control_name_cases_witness :
  exists s,
    Names.pu_control_name 0x12 = Some s
    /\ (s = "UNKNOWN"%string <-> 0x13 <= 0x12).
Proof.
  apply (pu_control_name_cases 0x12). lia.
Defined.

(** ** The checkerboard of the test source *)

Import TestFill.

Lemma pixel_color_done src fc i j :
  TestSource.width src <> 0 ->
  exists c, pixel_color src fc i j = Done c /\ (c = WHITE \/ c = GRAY).
Proof.
  intros Hw. unfold pixel_color.
  destruct (Z.eqb_spec (TestSource.width src) 0); [contradiction|].
  eexists. split; [reflexivity|].
  destruct (_ =? 0); auto.
Qed.

Lemma store32_done buf off v :
  0 <= off -> off + 4 <= size buf ->
  exists buf',
    store32 buf off v = Done buf'
    /\ size buf' = size buf /\ bytesused buf' = bytesused buf
    /\ forall a,
         mem buf' a
         = if (off <=? a) && (a <? off + 4)
           then nth (Z.to_nat (a - off)) (le_bytes 4 v) 0 else mem buf a.
Proof.
  intros H0 H1. unfold store32.
  destruct (Z.leb_spec 0 off); [|lia].
  destruct (Z.leb_spec (off + 4) (size buf)); [|lia].
  cbn [andb]. eexists. split; [reflexivity|]. cbn. auto.
Qed.

Lemma store32_fault buf off v :
  size buf < off + 4 -> store32 buf off v = Fault OutOfBounds.
Proof.
  intros H. unfold store32.
  destruct (Z.leb_spec (off + 4) (size buf)); [lia|].
  now rewrite andb_false_r.
Qed.

Lemma pattern_byte_in_group src fc i j o c :
  j mod 4 = 0 -> j <= o < j + 4 ->
  pixel_color src fc i j = Done c ->
  pattern_byte src fc i o = nth (Z.to_nat (o - j)) (le_bytes 4 c) 0.
Proof.
  intros Hj Ho Hc. unfold pattern_byte.
  assert (E1 : 4 * (o / 4) = j) by (Z.div_mod_to_equations; lia).
  assert (E2 : o mod 4 = o - j) by (Z.div_mod_to_equations; lia).
  rewrite E1, Hc, E2. reflexivity.
Qed.

(** One row, when the row length is a multiple of four bytes and the row
    lies inside the buffer: the row is written from column [j] on and
    nothing else is touched. *)
Lemma fill_row_done src fc bpl i :
  TestSource.width src <> 0 ->
  bpl mod 4 = 0 -> 0 <= bpl <= UINT_MAX - 3 ->
  forall fuel j buf,
    j mod 4 = 0 -> 0 <= j <= bpl ->
    (Z.to_nat ((bpl - j) / 4) < fuel)%nat ->
    to_uint (i * bpl) + bpl <= size buf ->
    exists buf',
      fill_row fuel src fc bpl i j buf = Done buf'
      /\ size buf' = size buf /\ bytesused buf' = bytesused buf
      /\ forall a,
           mem buf' a
           = if (to_uint (i * bpl) + j <=? a) && (a <? to_uint (i * bpl) + bpl)
             then pattern_byte src fc i (a - to_uint (i * bpl))
             else mem buf a.
Proof.
  intros Hw Hb4 Hb.
  assert (Hbase : 0 <= to_uint (i * bpl))
    by (unfold to_uint; apply Z.mod_pos_bound; lia).
  set (base := to_uint (i * bpl)) in *.
  induction fuel as [|k IH]; intros j buf Hj4 Hj Hfuel Hsize; [lia|].
  cbn [fill_row].
  destruct (Z.ltb_spec j bpl) as [Hlt|Hge].
  - assert (Hj4' : j + 4 <= bpl) by (Z.div_mod_to_equations; lia).
    destruct (pixel_color_done src fc i j Hw) as (c & Hc & _).
    rewrite Hc. cbn [obind'].
    destruct (store32_done buf (base + j) c ltac:(lia) ltac:(lia))
      as (buf1 & Es & Hs1 & Hu1 & Hm1).
    fold base. rewrite Es. cbn [obind'].
    assert (Hwrap : to_uint (j + 4) = j + 4)
      by (apply to_uint_small; unfold UINT_MAX in *; lia).
    rewrite Hwrap.
    destruct (IH (j + 4) buf1) as (buf' & E & Hs & Hu & Hm).
    + Z.div_mod_to_equations; lia.
    + lia.
    + assert ((bpl - j) / 4 = (bpl - (j + 4)) / 4 + 1)
        by (Z.div_mod_to_equations; lia).
      assert (0 <= (bpl - (j + 4)) / 4) by (apply Z.div_pos; lia).
      lia.
    + lia.
    + exists buf'. split; [exact E|]. split; [lia|]. split; [lia|].
      intros a. rewrite Hm, Hm1.
      destruct (Z.leb_spec (base + (j + 4)) a);
        destruct (Z.ltb_spec a (base + bpl));
        destruct (Z.leb_spec (base + j) a);
        destruct (Z.ltb_spec a (base + j + 4));
        cbn [andb]; try lia; try reflexivity.
      replace (a - (base + j)) with (a - base - j) by lia.
      symmetry. apply pattern_byte_in_group; [assumption|lia|assumption].
  - assert (j = bpl) by lia. subst j.
    exists buf. split; [reflexivity|]. split; [reflexivity|].
    split; [reflexivity|]. intros a.
    destruct (Z.leb_spec (base + bpl) a); destruct (Z.ltb_spec a (base + bpl));
      cbn [andb]; try lia; reflexivity.
Qed.

Lemma row_position bpl i a :
  0 < bpl -> i * bpl <= a < i * bpl + bpl ->
  a / bpl = i /\ a mod bpl = a - i * bpl.
Proof.
  intros Hb Ha.
  assert (E : a / bpl = i).
  { symmetry. apply (Z.div_unique a bpl i (a - i * bpl)); lia. }
  split; [exact E|].
  pose proof (Z.div_mod a bpl ltac:(lia)) as Hdm. rewrite E in Hdm. lia.
Qed.

(** All rows, under the same conditions. *)
Lemma fill_rows_done src fc bpl :
  TestSource.width src <> 0 ->
  bpl mod 4 = 0 -> 0 < bpl <= UINT_MAX - 3 ->
  forall rows i buf,
    0 <= i ->
    (i + Z.of_nat rows) * bpl <= UINT_MAX ->
    (i + Z.of_nat rows) * bpl <= size buf ->
    exists buf',
      fill_rows rows src fc bpl i buf = Done buf'
      /\ size buf' = size buf /\ bytesused buf' = bytesused buf
      /\ forall a,
           mem buf' a
           = if (i * bpl <=? a) && (a <? (i + Z.of_nat rows) * bpl)
             then pattern_byte src fc (a / bpl) (a mod bpl)
             else mem buf a.
Proof.
  intros Hw Hb4 Hb.
  induction rows as [|k IH]; intros i buf Hi Hmax Hsize; cbn [fill_rows].
  - exists buf. split; [reflexivity|]. split; [reflexivity|].
    split; [reflexivity|]. intros a.
    replace (i + Z.of_nat 0) with i by lia.
    destruct (Z.leb_spec (i * bpl) a); destruct (Z.ltb_spec a (i * bpl));
      cbn [andb]; try lia; reflexivity.
  - assert (Hrow : (i + 1) * bpl <= (i + Z.of_nat (S k)) * bpl)
      by (apply Z.mul_le_mono_nonneg_r; lia).
    assert (Hib : 0 <= i * bpl) by (apply Z.mul_nonneg_nonneg; lia).
    assert (Ebase : to_uint (i * bpl) = i * bpl)
      by (apply to_uint_small; lia).
    destruct (fill_row_done src fc bpl i Hw Hb4 ltac:(lia)
                (row_fuel bpl) 0 buf) as (buf1 & E1 & Hs1 & Hu1 & Hm1).
    + reflexivity.
    + lia.
    + unfold row_fuel. rewrite Z.sub_0_r.
      assert (bpl / 4 <= (bpl + 3) / 4)
        by (apply Z.div_le_mono; lia).
      assert (0 <= bpl / 4) by (apply Z.div_pos; lia).
      lia.
    + rewrite Ebase. lia.
    + rewrite E1. cbn [obind'].
      destruct (IH (i + 1) buf1) as (buf' & E & Hs & Hu & Hm).
      * lia.
      * replace (i + 1 + Z.of_nat k) with (i + Z.of_nat (S k)) by lia. lia.
      * replace (i + 1 + Z.of_nat k) with (i + Z.of_nat (S k)) by lia. lia.
      * exists buf'. split; [exact E|]. split; [lia|]. split; [lia|].
        intros a. rewrite Hm, Hm1, Ebase.
        replace (i + 1 + Z.of_nat k) with (i + Z.of_nat (S k)) by lia.
        replace ((i + 1) * bpl) with (i * bpl + bpl) in * by lia.
        rewrite Z.add_0_r.
        destruct (Z.leb_spec (i * bpl + bpl) a);
          destruct (Z.ltb_spec a ((i + Z.of_nat (S k)) * bpl));
          destruct (Z.leb_spec (i * bpl) a);
          destruct (Z.ltb_spec a (i * bpl + bpl));
          cbn [andb]; try lia; try reflexivity.
        destruct (row_position bpl i a ltac:(lia) ltac:(lia)) as [-> ->].
        reflexivity.
Qed.

(** A frame of even width that fits the buffer and 32 bits. *)
Lemma fill_buffer_done src fc buf :
  0 < TestSource.width src -> TestSource.width src mod 2 = 0 ->
  0 < TestSource.height src ->
  2 * TestSource.width src * TestSource.height src <= UINT_MAX ->
  2 * TestSource.width src * TestSource.height src <= size buf ->
  exists buf',
    test_source_fill_buffer src fc buf = Done (buf', to_uint (fc + 1))
    /\ size buf' = size buf
    /\ bytesused buf' = 2 * TestSource.width src * TestSource.height src
    /\ forall a,
         mem buf' a
         = if (0 <=? a)
              && (a <? 2 * TestSource.width src * TestSource.height src)
           then pattern_byte src fc (a / (2 * TestSource.width src))
                             (a mod (2 * TestSource.width src))
           else mem buf a.
Proof.
  set (w := TestSource.width src). set (h := TestSource.height src).
  intros Hw Hev Hh Hmax Hsize.
  assert (Hbpl4 : (2 * w) mod 4 = 0) by (Z.div_mod_to_equations; lia).
  assert (Hrow : 2 * w <= 2 * w * h) by nia.
  assert (Htot4 : (2 * w * h) mod 4 = 0).
  { replace (2 * w * h) with (h * (2 * w)) by lia.
    rewrite Z.mul_mod, Hbpl4, Z.mul_0_r by lia. reflexivity. }
  assert (Hmax3 : 2 * w * h <= UINT_MAX - 3)
    by (unfold UINT_MAX in *; Z.div_mod_to_equations; lia).
  assert (Ebpl : to_uint (w * 2) = 2 * w)
    by (rewrite Z.mul_comm; apply to_uint_small; lia).
  unfold test_source_fill_buffer. fold w h. rewrite Ebpl.
  destruct (fill_rows_done src fc (2 * w) ltac:(fold w; lia) Hbpl4 ltac:(lia)
              (Z.to_nat h) 0 buf) as (buf' & E & Hs & Hu & Hm).
  - lia.
  - rewrite Z2Nat.id by lia. lia.
  - rewrite Z2Nat.id by lia. lia.
  - rewrite E. cbn [obind'].
    eexists. split; [reflexivity|]. cbn [size bytesused mem].
    split; [exact Hs|]. split.
    + replace (2 * w * h) with (2 * w * h) by lia.
      apply to_uint_small. lia.
    + intros a. rewrite Hm, Z2Nat.id by lia.
      replace (0 * (2 * w)) with 0 by lia.
      replace ((0 + h) * (2 * w)) with (2 * w * h) by lia. reflexivity.
Qed.

(** X20.  [test_source_fill_buffer] on a frame of even width whose
    [width * height * 2] bytes fit the buffer (and 32 bits): the call
    succeeds, [bytesused] is [width * height * 2], [frame_count] is
    incremented, every group of four bytes in the frame holds, least
    significant byte first, the colour that the checkerboard formula
    gives for its row and column, and no byte outside the frame is
    written. *)
Theorem test_source_fill_buffer_writes_pattern src fc buf :
  0 < TestSource.width src -> TestSource.width src mod 2 = 0 ->
  0 < TestSource.height src ->
  2 * TestSource.width src * TestSource.height src <= UINT_MAX ->
  2 * TestSource.width src * TestSource.height src <= size buf ->
  exists buf',
    test_source_fill_buffer src fc buf = Done (buf', to_uint (fc + 1))
    /\ size buf' = size buf
    /\ bytesused buf' = 2 * TestSource.width src * TestSource.height src
    /\ (forall i j,
          0 <= i < TestSource.height src ->
          0 <= j < 2 * TestSource.width src -> j mod 4 = 0 ->
          exists c,
            pixel_color src fc i j = Done c
            /\ (c = WHITE \/ c = GRAY)
            /\ map (fun k => mem buf' (i * (2 * TestSource.width src) + j + k))
                   [0; 1; 2; 3]
               = le_bytes 4 c)
    /\ (forall a,
          a < 0 \/ 2 * TestSource.width src * TestSource.height src <= a ->
          mem buf' a = mem buf a).
Proof.
  intros Hw Hev Hh Hmax Hsize.
  destruct (fill_buffer_done src fc buf Hw Hev Hh Hmax Hsize)
    as (buf' & E & Hs & Hu & Hm).
  set (w := TestSource.width src) in *. set (h := TestSource.height src) in *.
  exists buf'. split; [exact E|]. split; [exact Hs|]. split; [exact Hu|].
  split.
  - intros i j Hi Hj Hj4.
    destruct (pixel_color_done src fc i j ltac:(fold w; lia)) as (c & Hc & Hcol).
    exists c. split; [exact Hc|]. split; [exact Hcol|].
    assert (Hj4' : j + 4 <= 2 * w) by (Z.div_mod_to_equations; lia).
    assert (Hin : forall k, 0 <= k < 4 ->
              mem buf' (i * (2 * w) + j + k)
              = nth (Z.to_nat k) (le_bytes 4 c) 0).
    { intros k Hk. rewrite Hm.
      assert (Hlo : 0 <= i * (2 * w)) by (apply Z.mul_nonneg_nonneg; lia).
      assert (Hhi : i * (2 * w) + 2 * w <= 2 * w * h) by nia.
      destruct (Z.leb_spec 0 (i * (2 * w) + j + k)); [|lia].
      destruct (Z.ltb_spec (i * (2 * w) + j + k) (2 * w * h)); [|lia].
      cbn [andb].
      destruct (row_position (2 * w) i (i * (2 * w) + j + k)
                  ltac:(lia) ltac:(lia)) as [-> ->].
      replace (i * (2 * w) + j + k - i * (2 * w)) with (j + k) by lia.
      rewrite (pattern_byte_in_group src fc i j (j + k) c Hj4 ltac:(lia) Hc).
      f_equal. f_equal. lia. }
    cbn [map]. rewrite (Hin 0), (Hin 1), (Hin 2), (Hin 3) by lia.
    reflexivity.
  - intros a Ha. rewrite Hm.
    destruct (Z.leb_spec 0 a); destruct (Z.ltb_spec a (2 * w * h));
      cbn [andb]; try lia; reflexivity.
Qed.

Lemma test_source_fill_buffer_writes_pattern_witness :
  let src := {| TestSource.width := 640; TestSource.height := 360;
                TestSource.pixelformat := V4L2_PIX_FMT_YUYV |} in
  exists buf',
    test_source_fill_buffer src 32 (blank 460800) = Done (buf', to_uint (32 + 1))
    /\ size buf' = size (blank 460800)
    /\ bytesused buf' = 2 * TestSource.width src * TestSource.height src
    /\ (forall i j,
          0 <= i < TestSource.height src ->
          0 <= j < 2 * TestSource.width src -> j mod 4 = 0 ->
          exists c,
            pixel_color src 32 i j = Done c
            /\ (c = WHITE \/ c = GRAY)
            /\ map (fun k => mem buf' (i * (2 * TestSource.width src) + j + k))
                   [0; 1; 2; 3]
               = le_bytes 4 c)
    /\ (forall a,
          a < 0 \/ 2 * TestSource.width src * TestSource.height src <= a ->
          mem buf' a = mem (blank 460800) a).
Proof.
  apply (test_source_fill_buffer_writes_pattern
           {| TestSource.width := 640; TestSource.height := 360;
              TestSource.pixelformat := V4L2_PIX_FMT_YUYV |} 32 (blank 460800));
    cbn; unfold UINT_MAX; lia.
Defined.

Lemma horizontal_offset_period fc :
  horizontal_offset (to_uint (fc + 64)) = horizontal_offset fc.
Proof.
  unfold horizontal_offset, to_uint, square_size. change (32 * 2) with 64.
  Z.div_mod_to_equations. lia.
Qed.

Lemma pattern_byte_period src fc i o :
  pattern_byte src (to_uint (fc + 64)) i o = pattern_byte src fc i o.
Proof.
  unfold pattern_byte, pixel_color. now rewrite horizontal_offset_period.
Qed.

(** X21.  The picture repeats every 64 frames, also across the wrap of
    the 32-bit frame counter: under the conditions of X20, filling the
    same buffer at [frame_count] and at [frame_count + 64] leaves the
    same bytes at every address. *)
Theorem test_source_pattern_period src fc buf :
  0 < TestSource.width src -> TestSource.width src mod 2 = 0 ->
  0 < TestSource.height src ->
  2 * TestSource.width src * TestSource.height src <= UINT_MAX ->
  2 * TestSource.width src * TestSource.height src <= size buf ->
  exists b1 b2 n1 n2,
    test_source_fill_buffer src fc buf = Done (b1, n1)
    /\ test_source_fill_buffer src (to_uint (fc + 64)) buf = Done (b2, n2)
    /\ forall a, mem b1 a = mem b2 a.
Proof.
  intros Hw Hev Hh Hmax Hsize.
  destruct (fill_buffer_done src fc buf Hw Hev Hh Hmax Hsize)
    as (b1 & E1 & _ & _ & Hm1).
  destruct (fill_buffer_done src (to_uint (fc + 64)) buf Hw Hev Hh Hmax Hsize)
    as (b2 & E2 & _ & _ & Hm2).
  exists b1, b2. do 2 eexists. split; [exact E1|]. split; [exact E2|].
  intros a. rewrite Hm1, Hm2, pattern_byte_period. reflexivity.
Qed.

Lemma test_source_pattern_period_witness :
  let src := {| TestSource.width := 640; TestSource.height := 360;
                TestSource.pixelformat := V4L2_PIX_FMT_YUYV |} in
  exists b1 b2 n1 n2,
    test_source_fill_buffer src 4294967290 (blank 460800) = Done (b1, n1)
    /\ test_source_fill_buffer src (to_uint (4294967290 + 64)) (blank 460800)
       = Done (b2, n2)
    /\ forall a, mem b1 a = mem b2 a.
Proof.
  apply (test_source_pattern_period
           {| TestSource.width := 640; TestSource.height := 360;
              TestSource.pixelformat := V4L2_PIX_FMT_YUYV |}
           4294967290 (blank 460800));
    cbn; unfold UINT_MAX; lia.
Defined.

(** One row in general: it ends, and either every store fits - the last
    of them at the last multiple of four below [bpl] - or a store falls
    outside the buffer. *)
Lemma fill_row_outcome src fc bpl i :
  TestSource.width src <> 0 ->
  0 <= bpl <= UINT_MAX - 3 ->
  forall fuel j buf,
    j mod 4 = 0 -> 0 <= j ->
    (Z.to_nat ((bpl - j + 3) / 4) < fuel)%nat ->
    (exists buf',
        fill_row fuel src fc bpl i j buf = Done buf'
        /\ size buf' = size buf
        /\ (j < bpl ->
            to_uint (i * bpl) + 4 * ((bpl - 1) / 4) + 4 <= size buf))
    \/ fill_row fuel src fc bpl i j buf = Fault OutOfBounds.
Proof.
  intros Hw Hb.
  assert (Hbase : 0 <= to_uint (i * bpl))
    by (unfold to_uint; apply Z.mod_pos_bound; lia).
  set (base := to_uint (i * bpl)) in *.
  induction fuel as [|k IH]; intros j buf Hj4 Hj Hfuel; [lia|].
  cbn [fill_row].
  destruct (Z.ltb_spec j bpl) as [Hlt|Hge].
  - destruct (pixel_color_done src fc i j Hw) as (c & Hc & _).
    rewrite Hc. cbn [obind']. fold base.
    destruct (Z_le_gt_dec (base + j + 4) (size buf)) as [Hfit|Hout].
    + destruct (store32_done buf (base + j) c ltac:(lia) ltac:(lia))
        as (buf1 & Es & Hs1 & _ & _).
      rewrite Es. cbn [obind'].
      assert (Hwrap : to_uint (j + 4) = j + 4)
        by (apply to_uint_small; unfold UINT_MAX in *; lia).
      rewrite Hwrap.
      destruct (IH (j + 4) buf1) as [(buf' & E & Hs & Hbound)|E].
      * Z.div_mod_to_equations; lia.
      * lia.
      * assert ((bpl - j + 3) / 4 = (bpl - (j + 4) + 3) / 4 + 1)
          by (Z.div_mod_to_equations; lia).
        assert (0 <= (bpl - (j + 4) + 3) / 4) by (apply Z.div_pos; lia).
        lia.
      * left. exists buf'. split; [exact E|]. split; [lia|]. intros _.
        destruct (Z_lt_le_dec (j + 4) bpl) as [Hmore|Hlast].
        -- rewrite <- Hs1. apply Hbound. exact Hmore.
        -- assert (4 * ((bpl - 1) / 4) = j) by (Z.div_mod_to_equations; lia).
           lia.
      * right. exact E.
    + right. rewrite store32_fault by lia. reflexivity.
  - left. exists buf. split; [reflexivity|]. split; [reflexivity|]. lia.
Qed.

Lemma fill_rows_outcome src fc bpl :
  TestSource.width src <> 0 ->
  0 < bpl <= UINT_MAX - 3 ->
  forall rows i buf,
    0 <= i ->
    (i + Z.of_nat rows) * bpl <= UINT_MAX ->
    (exists buf',
        fill_rows rows src fc bpl i buf = Done buf'
        /\ size buf' = size buf
        /\ ((0 < rows)%nat ->
            (i + Z.of_nat rows - 1) * bpl + 4 * ((bpl - 1) / 4) + 4
            <= size buf))
    \/ fill_rows rows src fc bpl i buf = Fault OutOfBounds.
Proof.
  intros Hw Hb.
  induction rows as [|k IH]; intros i buf Hi Hmax; cbn [fill_rows].
  - left. exists buf. split; [reflexivity|]. split; [reflexivity|]. lia.
  - assert (Hib : 0 <= i * bpl) by (apply Z.mul_nonneg_nonneg; lia).
    assert (Hrow : i * bpl + bpl <= (i + Z.of_nat (S k)) * bpl) by nia.
    assert (Ebase : to_uint (i * bpl) = i * bpl)
      by (apply to_uint_small; lia).
    destruct (fill_row_outcome src fc bpl i Hw ltac:(lia)
                (row_fuel bpl) 0 buf) as [(buf1 & E1 & Hs1 & Hb1)|E1].
    + reflexivity.
    + lia.
    + unfold row_fuel. rewrite Z.sub_0_r. lia.
    + rewrite E1. cbn [obind'].
      destruct (IH (i + 1) buf1) as [(buf' & E & Hs & Hbound)|E].
      * lia.
      * replace (i + 1 + Z.of_nat k) with (i + Z.of_nat (S k)) by lia. lia.
      * left. exists buf'. split; [exact E|]. split; [lia|]. intros _.
        destruct k as [|k'].
        -- replace (i + Z.of_nat 1 - 1) with i by lia.
           rewrite <- Ebase. apply Hb1. lia.
        -- replace (i + Z.of_nat (S (S k')) - 1)
             with (i + 1 + Z.of_nat (S k') - 1) by lia.
           rewrite <- Hs1. apply Hbound. lia.
      * right. exact E.
    + right. rewrite E1. reflexivity.
Qed.

(** X22.  With an odd width the last store of a row starts two bytes
    before the end of the row and is four bytes wide: the last row
    overruns the frame by two bytes.  Whenever the buffer holds fewer
    than [width * height * 2 + 2] bytes - in particular when it is as
    large as the frame - the call stores outside the buffer. *)
Theorem test_source_fill_buffer_odd_width_overruns src fc buf :
  0 < TestSource.width src -> TestSource.width src mod 2 = 1 ->
  0 < TestSource.height src ->
  2 * TestSource.width src * TestSource.height src <= UINT_MAX - 3 ->
  size buf < 2 * TestSource.width src * TestSource.height src + 2 ->
  test_source_fill_buffer src fc buf = Fault OutOfBounds.
Proof.
  set (w := TestSource.width src). set (h := TestSource.height src).
  intros Hw Hodd Hh Hmax Hsize.
  assert (Hrow : 2 * w <= 2 * w * h) by nia.
  assert (Ebpl : to_uint (w * 2) = 2 * w)
    by (rewrite Z.mul_comm; apply to_uint_small; lia).
  unfold test_source_fill_buffer. fold w h. rewrite Ebpl.
  destruct (fill_rows_outcome src fc (2 * w) ltac:(fold w; lia) ltac:(lia)
              (Z.to_nat h) 0 buf) as [(buf' & E & Hs & Hbound)|E].
  - lia.
  - rewrite Z2Nat.id by lia. lia.
  - exfalso. specialize (Hbound ltac:(lia)).
    rewrite Z2Nat.id in Hbound by lia.
    assert (Hl : 4 * ((2 * w - 1) / 4) + 4 = 2 * w + 2)
      by (Z.div_mod_to_equations; lia).
    assert ((0 + h - 1) * (2 * w) + (2 * w + 2) = 2 * w * h + 2) by lia.
    lia.
  - rewrite E. reflexivity.
Qed.

Lemma test_source_fill_buffer_odd_width_overruns_witness :
  test_source_fill_buffer
    {| TestSource.width := 641; TestSource.height := 360;
       TestSource.pixelformat := V4L2_PIX_FMT_YUYV |} 0 (blank 461520)
  = Fault OutOfBounds.
Proof.
  apply (test_source_fill_buffer_odd_width_overruns
           {| TestSource.width := 641; TestSource.height := 360;
              TestSource.pixelformat := V4L2_PIX_FMT_YUYV |} 0 (blank 461520));
    cbn; unfold UINT_MAX; lia.
Defined.

Lemma fill_rows_nothing src fc rows : forall i buf,
  fill_rows rows src fc 0 i buf = Done buf.
Proof.
  induction rows as [|k IH]; intros i buf; cbn [fill_rows]; [reflexivity|].
  cbn. apply IH.
Qed.

(** X23.  With a zero width or a zero height - the state of a source on
    which no format was ever set - the call writes nothing, sets
    [bytesused] to 0 and still increments [frame_count]; the division by
    the width is never reached. *)
Theorem test_source_fill_buffer_empty_frame src fc buf :
  TestSource.width src = 0 \/ TestSource.height src = 0 ->
  test_source_fill_buffer src fc buf
  = Done ({| mem := mem buf; size := size buf; bytesused := 0 |},
          to_uint (fc + 1)).
Proof.
  intros [Hw|Hh]; unfold test_source_fill_buffer.
  - rewrite Hw. change (to_uint (0 * 2)) with 0.
    rewrite fill_rows_nothing. reflexivity.
  - rewrite Hh. cbn [Z.to_nat fill_rows obind'].
    rewrite Z.mul_0_r. reflexivity.
Qed.

Lemma test_source_fill_buffer_empty_frame_witness :
  test_source_fill_buffer TestSource.test_video_source_create 7 (blank 16)
  = Done ({| mem := mem (blank 16); size := size (blank 16); bytesused := 0 |},
          to_uint (7 + 1)).
Proof.
  apply (test_source_fill_buffer_empty_frame
           TestSource.test_video_source_create 7 (blank 16)).
  left. reflexivity.
Defined.

(** X24.  A format that [test_source_set_format] rejects still shapes the
    next frame: after a request with a FourCC other than YUYV (answered
    [-EINVAL]) for an even width and a height that fit the buffer, the
    next [test_source_fill_buffer] succeeds and produces a frame of
    [width * height * 2] bytes for the rejected size. *)
Theorem rejected_format_shapes_next_fill src (fmt : V4L2.v4l2_pix_format)
    fc buf :
  V4L2.pixelformat fmt <> V4L2_PIX_FMT_YUYV ->
  0 < V4L2.width fmt -> V4L2.width fmt mod 2 = 0 ->
  0 < V4L2.height fmt ->
  2 * V4L2.width fmt * V4L2.height fmt <= UINT_MAX ->
  2 * V4L2.width fmt * V4L2.height fmt <= size buf ->
  snd (TestSource.test_source_set_format src fmt) = - EINVAL
  /\ exists buf',
       test_source_fill_buffer
         (fst (TestSource.test_source_set_format src fmt)) fc buf
       = Done (buf', to_uint (fc + 1))
       /\ bytesused buf' = 2 * V4L2.width fmt * V4L2.height fmt.
Proof.
  intros Hne Hw Hev Hh Hmax Hsize.
  unfold TestSource.test_source_set_format. cbn [TestSource.pixelformat].
  change (v4l2_fourcc 89 85 89 86) with V4L2_PIX_FMT_YUYV.
  destruct (Z.eqb_spec (V4L2.pixelformat fmt) V4L2_PIX_FMT_YUYV);
    [contradiction|]. cbn [negb fst snd].
  split; [reflexivity|].
  destruct (fill_buffer_done
              {| TestSource.width := V4L2.width fmt;
                 TestSource.height := V4L2.height fmt;
                 TestSource.pixelformat := V4L2.pixelformat fmt |} fc buf)
    as (buf' & E & _ & Hu & _); cbn [TestSource.width TestSource.height];
    try assumption.
  exists buf'. split; [exact E|exact Hu].
Qed.

Lemma rejected_format_shapes_next_fill_witness :
  let src := {| TestSource.width := 640; TestSource.height := 360;
                TestSource.pixelformat := V4L2_PIX_FMT_YUYV |} in
  let fmt := {| V4L2.width := 1280; V4L2.height := 720;
                V4L2.pixelformat := V4L2_PIX_FMT_MJPEG;
                V4L2.field := V4L2_FIELD_NONE; V4L2.sizeimage := 1843200 |} in
  snd (TestSource.test_source_set_format src fmt) = - EINVAL
  /\ exists buf',
       test_source_fill_buffer
         (fst (TestSource.test_source_set_format src fmt)) 0 (blank 1843200)
       = Done (buf', to_uint (0 + 1))
       /\ bytesused buf' = 2 * V4L2.width fmt * V4L2.height fmt.
Proof.
  apply (rejected_format_shapes_next_fill
           {| TestSource.width := 640; TestSource.height := 360;
              TestSource.pixelformat := V4L2_PIX_FMT_YUYV |}
           {| V4L2.width := 1280; V4L2.height := 720;
              V4L2.pixelformat := V4L2_PIX_FMT_MJPEG;
              V4L2.field := V4L2_FIELD_NONE; V4L2.sizeimage := 1843200 |}
           0 (blank 1843200)).
  - vm_compute. discriminate.
  - cbn. lia.
  - reflexivity.
  - cbn. lia.
  - cbn. unfold UINT_MAX. lia.
  - cbn. lia.
Defined.
